(** * NDID node: message reconciliation, IdP response and onboarding

    A shallow embedding of the IdP message handler, the block-header
    replay, the response creation ([idp.js]), the onboarding entry points
    ([core/identity.js]) and the RP-side request creation ([rp.js]),
    together with the properties of the node specification that concern
    them.

    Asynchronous functions are embedded in a monad that threads the
    persistent store and collects, in program order, the effects a call
    has on the outside world.  An [await]ed call is a bind; a call whose
    promise is dropped is recorded as a spawned task; the callbacks of a
    [Promise.all] over a mapped array take turns at their awaits of the
    store. *)

From Stdlib Require Import ZArith QArith Qcanon Ascii String List Bool Lia.
From stdpp Require Import base option list strings numbers gmap.

Open Scope Z_scope.
Open Scope string_scope.
Open Scope list_scope.

(** ** JavaScript values *)

(** Numbers.  A finite double is a rational and [>] on finite doubles is
    [>] on the rationals they denote; [NaN] compares false with
    everything. *)
Inductive jsnum :=
| JNaN
| JFin (q : Qc)
| JPosInf
| JNegInf.

#[global] Instance jsnum_eq_dec : EqDecision jsnum.
Proof. solve_decision. Defined.

(** [a > b] *)
Definition js_gt (a b : jsnum) : bool :=
  match a, b with
  | JNaN, _ | _, JNaN => false
  | JFin x, JFin y => bool_decide (y < x)%Qc
  | JFin _, JNegInf => true
  | JFin _, JPosInf => false
  | JPosInf, JPosInf => false
  | JPosInf, _ => true
  | JNegInf, _ => false
  end.

(** Truthiness of a number, of a possibly absent string and of a possibly
    absent array. *)
Definition truthy_num (a : jsnum) : bool :=
  match a with
  | JNaN => false
  | JFin q => negb (bool_decide (q = 0%Qc))
  | _ => true
  end.

Definition truthy_str (o : option string) : bool :=
  match o with
  | Some s => negb (bool_decide (s = ""))
  | None => false
  end.

(** String coercion in [a + ':' + b]. *)
Definition js_str (o : option string) : string :=
  match o with
  | Some s => s
  | None => "undefined"
  end.

Definition num (z : Z) : jsnum := JFin (Q2Qc (inject_Z z)).

(** ** Data carried by the protocol *)

Record data_request := {
  dr_service_id : string;
  dr_as_id_list : list string;
  dr_count : option Z;
  dr_request_params : string;
}.

(** A parsed transport payload ([JSON.parse(messageStr)]): the fields the
    handlers read.  Every payload carries [request_id] and [height]; the
    other fields are present or not according to the kind of message. *)
Record message := {
  m_request_id : string;
  m_height : Z;
  m_type : option string;
  m_challenge : option (list string);
  m_accessor_id : option string;
  m_idp_id : option string;
  m_rp_id : option string;
  m_public_proof : option (list string);
  m_privateProofValue : option string;
  m_padding : option string;
  m_mode : option Z;
  m_namespace : option string;
  m_identifier : option string;
  m_request_message : option string;
  m_min_ial : option jsnum;
  m_min_aal : option jsnum;
  m_data_request_list : option (list data_request);
}.

(** [request.challenge = c] on a stored message object. *)
Definition set_challenge (c : option (list string)) (m : message) : message :=
  {| m_request_id := m_request_id m; m_height := m_height m;
     m_type := m_type m; m_challenge := c;
     m_accessor_id := m_accessor_id m; m_idp_id := m_idp_id m;
     m_rp_id := m_rp_id m; m_public_proof := m_public_proof m;
     m_privateProofValue := m_privateProofValue m;
     m_padding := m_padding m; m_mode := m_mode m;
     m_namespace := m_namespace m; m_identifier := m_identifier m;
     m_request_message := m_request_message m;
     m_min_ial := m_min_ial m; m_min_aal := m_min_aal m;
     m_data_request_list := m_data_request_list m |}.

(** The per-request record of the received-from-MQ store: the message
    object as it was stored, to which [requestChallenge] adds the field
    [k] and the challenge branch of the handler the field [challenge]. *)
Record stored_request := {
  sr_message : message;
  sr_k : option (list string);
}.

(** Response data staged by the client until the challenge arrives. *)
Record response_data := {
  rs_request_id : string;
  rs_aal : jsnum;
  rs_ial : jsnum;
  rs_status : string;
  rs_signature : string;
  rs_accessor_id : option string;
  rs_secret : option string;
}.

Record private_proof_object := {
  pp_privateProofValueArray : list string;
  pp_accessor_id : string;
  pp_padding : option string;
}.

Record ppo_entry := {
  pe_idp_id : option string;
  pe_privateProofValue : option string;
  pe_accessor_id : option string;
  pe_padding : option string;
}.

Record request_data := {
  rd_detail : string;
  rd_privateProofObjectList : option (list ppo_entry);
}.

Record onboard_data := {
  od_request_id : string;
  od_accessor_id : string;
}.

Record identity_data := {
  id_accessor_type : string;
  id_accessor_id : string;
  id_accessor_public_key : string;
  id_hash_id : string;
  id_ial : jsnum;
  id_sid : string;
  id_associated : bool;
  id_secret : string;
}.

(** Request detail kept by the RP for the later forward to the AS. *)
Record rp_request_data := {
  rq_namespace : string;
  rq_identifier : string;
  rq_reference_id : string;
  rq_request_id : string;
  rq_min_idp : jsnum;
  rq_min_aal : jsnum;
  rq_min_ial : jsnum;
  rq_timeout : option Z;
  rq_data_request_list : list data_request;
  rq_request_message : option string;
}.

(** ** The store *)

(** Modelled from the spec: the [db] module is not among the sources.
    The specification describes it as a namespaced key-value store with
    get, put and delete; each [db.setX]/[db.getX]/[db.removeX] family is
    one namespace keyed by the first argument, and the ids expected in a
    block are a list of (height, request id) rows queried and deleted by
    an inclusive height range. *)
Record Store := {
  requestReceivedFromMQ : gmap string stored_request;
  requestToProcessReceivedFromMQ : gmap string message;
  requestIdsExpectedInBlock : list (Z * string);
  rpIdFromRequestId : gmap string (option string);
  publicProofReceivedFromMQ : gmap string (option (list string));
  responseFromRequestId : gmap string response_data;
  requestData : gmap string request_data;
  challengeFromRequestId : gmap string (list string);
  onboardDataByReferenceId : gmap string onboard_data;
  identityFromRequestId : gmap string identity_data;
  rpRequestReferenceMapping : gmap string string;
  rpCallbackUrls : gmap string (option string);
  rpRequestsData : gmap string rp_request_data;
}.

Definition empty_store : Store :=
  {| requestReceivedFromMQ := ∅; requestToProcessReceivedFromMQ := ∅;
     requestIdsExpectedInBlock := []; rpIdFromRequestId := ∅;
     publicProofReceivedFromMQ := ∅; responseFromRequestId := ∅;
     requestData := ∅; challengeFromRequestId := ∅;
     onboardDataByReferenceId := ∅; identityFromRequestId := ∅;
     rpRequestReferenceMapping := ∅; rpCallbackUrls := ∅;
     rpRequestsData := ∅ |}.

(** Modelled from the spec: the writes of the absent [db] module, one
    constructor for each [db.setX], [db.addX], [db.removeX] and [db.put]
    the sources call. *)
Inductive db_op :=
| SetRequestReceivedFromMQ (request_id : string) (r : stored_request)
| RemoveRequestReceivedFromMQ (request_id : string)
| SetRequestToProcessReceivedFromMQ (request_id : string) (m : message)
| RemoveRequestToProcessReceivedFromMQ (request_id : string)
| AddRequestIdExpectedInBlock (height : Z) (request_id : string)
| RemoveRequestIdsExpectedInBlock (fromHeight toHeight : Z)
| SetRPIdFromRequestId (request_id : string) (rp_id : option string)
| RemoveRPIdFromRequestId (request_id : string)
| SetPublicProofReceivedFromMQ (responseId : string) (p : option (list string))
| SetResponseFromRequestId (request_id : string) (d : response_data)
| RemoveResponseFromRequestId (request_id : string)
| SetRequestData (request_id : string) (r : request_data)
| RemoveChallengeFromRequestId (request_id : string)
| SetOnboardDataByReferenceId (reference_id : string) (d : onboard_data)
| RemoveOnboardDataByReferenceId (reference_id : string)
| SetIdentityFromRequestId (request_id : string) (d : identity_data)
| RemoveIdentityFromRequestId (request_id : string)
| PutRpRequestsData (request_id : string) (d : rp_request_data)
| PutRpRequestReferenceMapping (reference_id request_id : string)
| PutRpCallbackUrls (request_id : string) (url : option string).

(** The row is tagged with a height of [fromHeight, toHeight]. *)
Definition in_range (fromHeight toHeight : Z) (row : Z * string) : bool :=
  ((fromHeight <=? row.1) && (row.1 <=? toHeight))%Z.

(** Modelled from the spec: what a write of the absent [db] module does
    to the store: a put or a delete on the namespace of the call; a new
    row after the rows already expected; the removal of the rows tagged
    in the range. *)
Definition apply_db (op : db_op) (s : Store) : Store :=
  let 'Build_Store rr tp ex rp pp rs rd ch ob idn m1 m2 m3 := s in
  match op with
  | SetRequestReceivedFromMQ k v =>
      Build_Store (<[k:=v]> rr) tp ex rp pp rs rd ch ob idn m1 m2 m3
  | RemoveRequestReceivedFromMQ k =>
      Build_Store (delete k rr) tp ex rp pp rs rd ch ob idn m1 m2 m3
  | SetRequestToProcessReceivedFromMQ k v =>
      Build_Store rr (<[k:=v]> tp) ex rp pp rs rd ch ob idn m1 m2 m3
  | RemoveRequestToProcessReceivedFromMQ k =>
      Build_Store rr (delete k tp) ex rp pp rs rd ch ob idn m1 m2 m3
  | AddRequestIdExpectedInBlock h k =>
      Build_Store rr tp (ex ++ [(h, k)]) rp pp rs rd ch ob idn m1 m2 m3
  | RemoveRequestIdsExpectedInBlock a b =>
      Build_Store rr tp (filter (λ row, negb (in_range a b row)) ex)
        rp pp rs rd ch ob idn m1 m2 m3
  | SetRPIdFromRequestId k v =>
      Build_Store rr tp ex (<[k:=v]> rp) pp rs rd ch ob idn m1 m2 m3
  | RemoveRPIdFromRequestId k =>
      Build_Store rr tp ex (delete k rp) pp rs rd ch ob idn m1 m2 m3
  | SetPublicProofReceivedFromMQ k v =>
      Build_Store rr tp ex rp (<[k:=v]> pp) rs rd ch ob idn m1 m2 m3
  | SetResponseFromRequestId k v =>
      Build_Store rr tp ex rp pp (<[k:=v]> rs) rd ch ob idn m1 m2 m3
  | RemoveResponseFromRequestId k =>
      Build_Store rr tp ex rp pp (delete k rs) rd ch ob idn m1 m2 m3
  | SetRequestData k v =>
      Build_Store rr tp ex rp pp rs (<[k:=v]> rd) ch ob idn m1 m2 m3
  | RemoveChallengeFromRequestId k =>
      Build_Store rr tp ex rp pp rs rd (delete k ch) ob idn m1 m2 m3
  | SetOnboardDataByReferenceId k v =>
      Build_Store rr tp ex rp pp rs rd ch (<[k:=v]> ob) idn m1 m2 m3
  | RemoveOnboardDataByReferenceId k =>
      Build_Store rr tp ex rp pp rs rd ch (delete k ob) idn m1 m2 m3
  | SetIdentityFromRequestId k v =>
      Build_Store rr tp ex rp pp rs rd ch ob (<[k:=v]> idn) m1 m2 m3
  | RemoveIdentityFromRequestId k =>
      Build_Store rr tp ex rp pp rs rd ch ob (delete k idn) m1 m2 m3
  | PutRpRequestsData k v =>
      Build_Store rr tp ex rp pp rs rd ch ob idn m1 m2 (<[k:=v]> m3)
  | PutRpRequestReferenceMapping k v =>
      Build_Store rr tp ex rp pp rs rd ch ob idn (<[k:=v]> m1) m2 m3
  | PutRpCallbackUrls k v =>
      Build_Store rr tp ex rp pp rs rd ch ob idn m1 (<[k:=v]> m2) m3
  end.

(** Modelled from the spec: [db.getRequestIdsExpectedInBlock(fromHeight,
    toHeight)] of the absent [db] module, the request ids of the rows
    tagged in the range, in the order they were added. *)
Definition getRequestIdsExpectedInBlock (fromHeight toHeight : Z) (s : Store)
  : list string :=
  (filter (λ row, in_range fromHeight toHeight row) (requestIdsExpectedInBlock s)).*2.

(** ** Effects on the outside world *)

Record idp_response_tx := {
  tx_request_id : string;
  tx_aal : jsnum;
  tx_ial : jsnum;
  tx_status : string;
  tx_signature : string;
  tx_identity_proof : option string;
  tx_private_proof_hash : option string;
}.

(** Transactions submitted through [tendermintNdid]. *)
Inductive ledger_tx :=
| TxCreateIdpResponse (d : option idp_response_tx)
| TxDeclareIdentityProof (request_id identity_proof : string)
| TxAddAccessorMethod (request_id accessor_group_id accessor_type
                       accessor_id accessor_public_key : string)
| TxRegisterMqDestination (hash_id : string) (ial : jsnum)
| TxCreateIdentity (accessor_type accessor_public_key accessor_id
                    accessor_group_id : string)
| TxUpdateIal (hash_id : string) (ial : jsnum).

Record receiver := {
  rc_ip : option string;
  rc_port : option string;
  rc_public_key : option string;
}.

Record request_payload := {
  rp_namespace : string;
  rp_identifier : string;
  rp_request_id : string;
  rp_min_idp : jsnum;
  rp_min_aal : jsnum;
  rp_min_ial : jsnum;
  rp_timeout : option Z;
  rp_data_request_list : option (list data_request);
  rp_request_message : option string;
  rp_height : Z;
}.

(** Payloads handed to [mq.send]. *)
Inductive mq_payload :=
| MqRequestChallenge (public_proof : list string) (request_id idp_id : string)
                     (height : Z)
| MqPrivateProof (request_id : string) (ppo : option private_proof_object)
                 (height : Z) (idp_id : string)
| MqRequest (p : request_payload).

Record incoming_request := {
  ic_mode : option Z;
  ic_request_id : string;
  ic_namespace : option string;
  ic_identifier : option string;
  ic_request_message : option string;
  ic_request_message_hash : string;
  ic_requester_node_id : option string;
  ic_min_ial : option jsnum;
  ic_min_aal : option jsnum;
  ic_data_request_list : option (list data_request);
}.

(** Bodies posted to the client callback URLs. *)
Inductive callback_body :=
| CbIdentityResult (type request_id : string) (success : bool)
                   (secret : option string)
| CbIncomingRequest (r : incoming_request).

Record sign_request := {
  sg_sid_hash : string;
  sg_sid : string;
  sg_accessor_id : string;
  sg_reference_id : string;
}.

Record create_request_args := {
  cr_namespace : string;
  cr_identifier : string;
  cr_reference_id : string;
  cr_request_message : string;
  cr_min_ial : jsnum;
  cr_min_aal : jsnum;
  cr_min_idp : Z;
  cr_request_timeout : Z;
  cr_mode : Z;
}.

Record rp_data_request_tx := {
  dt_service_id : string;
  dt_as_id_list : list string;
  dt_count : option Z;
  dt_request_params_hash : string;
}.

Record rp_create_request_tx := {
  ct_request_id : string;
  ct_min_idp : jsnum;
  ct_min_aal : option jsnum;
  ct_min_ial : option jsnum;
  ct_timeout : option Z;
  ct_data_request_list : list rp_data_request_tx;
  ct_message_hash : string;
}.

(** Async functions called without [await]: the caller goes on and the
    callee runs on its own. *)
Inductive task :=
| TCreateIdpResponse (data : option response_data)
| TSendPrivateProofToRP (request_id : string)
                        (ppo : option private_proof_object) (height : Z).

(** The three protocol handlers a confirmed message is handed to. *)
Inductive handler :=
| OnboardConsent
| ChallengeRequest
| IncomingRequest.

Inductive event :=
| EvDb (op : db_op)
| EvTx (tx : ledger_tx)
| EvMq (receivers : list receiver) (payload : mq_payload)
| EvCallback (url : string) (body : callback_body)
| EvFetchAccessorSign (url : string) (req : sign_request)
| EvCreateRequest (args : create_request_args)
| EvRpTransact (name : string) (tx : rp_create_request_tx) (nonce : string)
| EvHandleChallengeRequest (responseId : string)
| EvSpawn (t : task)
| EvDispatch (h : handler) (m : message).

(** [EvDispatch] has no statement of its own in the source: it marks the
    entry of the branch that hands a message to a protocol handler, so
    that properties can speak of when a message is dispatched. *)

Inductive error :=
| REQUEST_NOT_FOUND
| ACCESSOR_ID_NEEDED
| SECRET_NEEDED
| ACCESSOR_PUBLIC_KEY_NOT_FOUND
| INVALID_NAMESPACE
| IDENTITY_NOT_FOUND
| IDENTITY_ALREADY_CREATED
| MAXIMUM_IAL_EXCEED
| SIGN_WITH_ACCESSOR_KEY_URL_NOT_SET
| SIGN_WITH_ACCESSOR_KEY_FAILED
| TypeError
| ExternalCallRejected
| CannotCreateIdpResponse (cause : error).

(** ** The node *)

Record callback_urls := {
  incoming_request_url : option string;
  identity_result_url : option string;
  accessor_sign_url : option string;
  error_url : option string;
}.

(** What a call finds: the store, [tendermint.latestBlockHeight] and the
    [callbackUrls] of idp.js. *)
Record World := {
  w_store : Store;
  w_latestBlockHeight : Z;
  w_callbackUrls : callback_urls;
}.

Definition with_store (f : Store → Store) (w : World) : World :=
  {| w_store := f (w_store w);
     w_latestBlockHeight := w_latestBlockHeight w;
     w_callbackUrls := w_callbackUrls w |}.

Inductive outcome (A : Type) :=
| Ok (a : A)
| Throw (e : error).
Arguments Ok {A} a.
Arguments Throw {A} e.

(** An asynchronous computation: from a world, an outcome, the world it
    leaves and the effects it had, oldest first. *)
Definition M (A : Type) : Type := World → outcome A * World * list event.

#[global] Instance M_ret : MRet M := λ A a w, (Ok a, w, []).

#[global] Instance M_bind : MBind M := λ A B f m w,
  match m w with
  | (Ok a, w1, l1) => let '(r, w2, l2) := f a w1 in (r, w2, l1 ++ l2)
  | (Throw e, w1, l1) => (Throw e, w1, l1)
  end.

Definition throw {A} (e : error) : M A := λ w, (Throw e, w, []).

(** [try { m } catch (error) { h error }] *)
Definition catch {A} (m : M A) (h : error → M A) : M A := λ w,
  match m w with
  | (Ok a, w1, l1) => (Ok a, w1, l1)
  | (Throw e, w1, l1) => let '(r, w2, l2) := h e w1 in (r, w2, l1 ++ l2)
  end.

(** A continuation nobody awaits: its rejection reaches no caller. *)
Definition detached (m : M unit) : M unit := catch m (λ _, mret tt).

Definition emit (e : event) : M unit := λ w, (Ok tt, w, [e]).
Definition spawn (t : task) : M unit := emit (EvSpawn t).
Definition db (op : db_op) : M unit := λ w,
  (Ok tt, with_store (apply_db op) w, [EvDb op]).
Definition read {A} (f : World → A) : M A := λ w, (Ok (f w), w, []).
Definition db_get {A} (f : Store → A) : M A := read (λ w, f (w_store w)).

(** Answer of an external call: a value, or a rejected promise. *)
Inductive reply (A : Type) :=
| Replied (a : A)
| Rejected.
Arguments Replied {A} a.
Arguments Rejected {A}.

Definition ask {A} (r : reply A) : M A :=
  match r with
  | Replied a => mret a
  | Rejected => throw ExternalCallRejected
  end.

Definition is_replied {A} (r : reply A) : bool :=
  match r with
  | Replied _ => true
  | Rejected => false
  end.

(** The argument of [createRequest] in rp.js: the named fields and the
    fields of the rest object [data] that the function reads. *)
Record rp_request_args := {
  ra_namespace : string;
  ra_identifier : string;
  ra_reference_id : string;
  ra_data_request_list : option (list data_request);
  ra_min_idp : option jsnum;
  ra_min_aal : option jsnum;
  ra_min_ial : option jsnum;
  ra_timeout : option Z;
  ra_request_message : option string;
  ra_callback_url : option string;
}.

Record identity_proof := {
  blockchainProof : string;
  privateProofValue : string;
  padding : string;
}.

Record node_info := {
  max_ial : jsnum;
}.

(** The collaborators of the node that are not among the sources: the
    ledger client ([tendermintNdid], [tendermint]), [utils], [common]
    and the HTTP endpoint of the accessor.  Queries answer from the
    ledger as it stands during the call; random generators are the values
    drawn during the call. *)
Record Env := {
  nodeId : string;
  (* tendermintNdid *)
  getRequest : string → reply (option Z);
  getRequestDetail : string → reply (option (list string));
  getAccessorKey : option string → reply (option string);
  getAccessorGroupId : string → reply string;
  getMsqAddress : option string → reply (option (option string * option string));
  getNodePubKey : option string → reply (option string);
  getNamespaceList : reply (list string);
  getIdpNodes : string → string → reply (list string);
  getNodeInfo : string → reply node_info;
  checkExistingIdentity : string → reply bool;
  submit : ledger_tx → reply Z;
  (* utils *)
  hash : option string → string;
  stringify : list string → string;
  generatePublicProof : nat → option string → string * string;
  generateIdentityProof :
    option string → string → option string → string → identity_proof;
  randomBase64Bytes : nat → string;
  extractPaddingFromPrivateEncrypt : string → string → string;
  getRequestMessageForCreatingIdentity : string → string → string → string → string;
  getRequestMessageForAddingAccessor : string → string → string → string → string;
  (* common *)
  verifyZKProof : string → option string → message → Z → reply bool;
  checkRequestIntegrity : string → message → reply bool;
  common_createRequest : create_request_args → reply string;
  (* the accessor's signing endpoint *)
  fetchAccessorSign : string → sign_request → reply string;
  (* rp.js: utils, tendermint.transact/query, common.getNodePubKey *)
  getNonce : string;
  createRequestId : string → rp_request_args → string → string;
  stringifyParams : string → string;
  rp_transact : string → rp_create_request_tx → string → bool * Z;
  queryGetMsqDestination : string → option jsnum → reply (option (list string));
}.

(** The argument of [createNewIdentity]; [ir_ial] is
    [parseFloat(data.ial)], [NaN] when the call has no [ial]. *)
Record identity_request := {
  ir_namespace : string;
  ir_identifier : string;
  ir_reference_id : string;
  ir_accessor_type : string;
  ir_accessor_public_key : string;
  ir_accessor_id : option string;
  ir_ial : jsnum;
  ir_addAccessor : bool;
}.

Record identity_result := {
  res_request_id : string;
  res_exist : bool;
  res_accessor_id : string;
}.

Section Node.

Variable E : Env.

(** A [tendermintNdid] transaction: submitted, then awaited. *)
Definition transact (tx : ledger_tx) : M Z :=
  emit (EvTx tx);; ask (submit E tx).

(** [await Promise.all(txs)]: every transaction is submitted before any
    is awaited; the await rejects when one of them does. *)
Definition transact_all (txs : list ledger_tx) : M unit :=
  mapM (λ tx, emit (EvTx tx)) txs;;
  if forallb (λ tx, is_replied (submit E tx)) txs
  then mret tt
  else throw ExternalCallRejected.

(** ** idp.js: callbacks *)

Definition isAccessorSignUrlSet : M bool :=
  read (λ w, bool_decide (accessor_sign_url (w_callbackUrls w) ≠ None)).

Definition accessorSign (sid hash_id accessor_id reference_id : string)
  : M string :=
  let data := {| sg_sid_hash := hash_id; sg_sid := sid;
                 sg_accessor_id := accessor_id;
                 sg_reference_id := reference_id |} in
  url ← read (λ w, accessor_sign_url (w_callbackUrls w));
  match url with
  | None => throw SIGN_WITH_ACCESSOR_KEY_URL_NOT_SET
  | Some url =>
      emit (EvFetchAccessorSign url data);;
      match fetchAccessorSign E url data with
      | Replied signature => mret signature
      | Rejected => throw SIGN_WITH_ACCESSOR_KEY_FAILED
      end
  end.

Definition notifyByCallback (url : option string) (body : callback_body)
  : M unit :=
  if negb (truthy_str url) then mret tt
  else emit (EvCallback (js_str url) body).

Definition notifyIncomingRequestByCallback (r : incoming_request) : M unit :=
  url ← read (λ w, incoming_request_url (w_callbackUrls w));
  if negb (truthy_str url) then mret tt
  else emit (EvCallback (js_str url) (CbIncomingRequest r)).

Definition notifyCreateIdentityResultByCallback
    (request_id : string) (success : bool) (secret : option string) : M unit :=
  url ← read (λ w, identity_result_url (w_callbackUrls w));
  notifyByCallback url
    (CbIdentityResult "create_identity_result" request_id success secret).

Definition notifyAddAccessorResultByCallback
    (request_id : string) (success : bool) (secret : option string) : M unit :=
  url ← read (λ w, identity_result_url (w_callbackUrls w));
  notifyByCallback url
    (CbIdentityResult "add_accessor_result" request_id success secret).

(** ** core/identity.js *)

(** The query is made with [min_aal: 1, min_ial: 1.1]. *)
Definition checkAssociated (namespace identifier : string) : M bool :=
  idpList ← ask (getIdpNodes E namespace identifier);
  mret (existsb (λ node_id, bool_decide (node_id = nodeId E)) idpList).

Definition addAccessorAfterConsent (request_id old_accessor_id : string)
  : M (string * bool) :=
  accessor_group_id ← ask (getAccessorGroupId E old_accessor_id);
  identity ← db_get (λ s, identityFromRequestId s !! request_id);
  match identity with
  | None => throw TypeError
  | Some i =>
      let promiseArray :=
        [TxAddAccessorMethod request_id accessor_group_id
           (id_accessor_type i) (id_accessor_id i) (id_accessor_public_key i)]
        ++ (if truthy_num (id_ial i)
            then [TxRegisterMqDestination (id_hash_id i) (id_ial i)]
            else []) in
      transact_all promiseArray;;
      db (RemoveIdentityFromRequestId request_id);;
      mret (id_secret i, id_associated i)
  end.

Definition createNewIdentity (data : identity_request)
  : M identity_result :=
  catch
    (let namespace := ir_namespace data in
     let identifier := ir_identifier data in
     let reference_id := ir_reference_id data in
     let ial := ir_ial data in
     namespaceDetails ← ask (getNamespaceList E);
     if negb (existsb (λ n, bool_decide (n = namespace)) namespaceDetails)
     then throw INVALID_NAMESPACE
     else
     associated ← checkAssociated namespace identifier;
     if negb (ir_addAccessor data) && associated
     then throw IDENTITY_ALREADY_CREATED
     else
     info ← ask (getNodeInfo E (nodeId E));
     if js_gt ial (max_ial info) then throw MAXIMUM_IAL_EXCEED
     else
     let sid := namespace +:+ ":" +:+ identifier in
     let hash_id := hash E (Some sid) in
     exist ← ask (checkExistingIdentity E hash_id);
     onboardData ← db_get (λ s, onboardDataByReferenceId s !! reference_id);
     match onboardData with
     | Some o =>
         mret {| res_request_id := od_request_id o; res_exist := exist;
                 res_accessor_id := od_accessor_id o |}
     | None =>
         let accessor_id :=
           if truthy_str (ir_accessor_id data)
           then js_str (ir_accessor_id data)
           else randomBase64Bytes E 0 in
         signUrlSet ← isAccessorSignUrlSet;
         if negb signUrlSet then throw SIGN_WITH_ACCESSOR_KEY_URL_NOT_SET
         else
         encryptedHash ← accessorSign sid hash_id accessor_id reference_id;
         let padding :=
           extractPaddingFromPrivateEncrypt E encryptedHash
             (ir_accessor_public_key data) in
         let secret := padding +:+ "|" +:+ encryptedHash in
         let args :=
           {| cr_namespace := namespace; cr_identifier := identifier;
              cr_reference_id := reference_id;
              cr_request_message :=
                (if truthy_num ial
                 then getRequestMessageForCreatingIdentity E
                 else getRequestMessageForAddingAccessor E)
                  namespace identifier reference_id (nodeId E);
              cr_min_ial := JFin (Q2Qc (11 # 10)); cr_min_aal := num 1;
              cr_min_idp := if exist then 1 else 0;
              cr_request_timeout := 86400; cr_mode := 3 |} in
         emit (EvCreateRequest args);;
         request_id ← ask (common_createRequest E args);
         db (SetOnboardDataByReferenceId reference_id
               {| od_request_id := request_id;
                  od_accessor_id := accessor_id |});;
         (if exist then
            db (SetIdentityFromRequestId request_id
                  {| id_accessor_type := ir_accessor_type data;
                     id_accessor_id := accessor_id;
                     id_accessor_public_key := ir_accessor_public_key data;
                     id_hash_id := hash_id; id_ial := ial; id_sid := sid;
                     id_associated := associated; id_secret := secret |})
          else
            let accessor_group_id := randomBase64Bytes E 1 in
            (* Promise.all([...]).then(...) is not awaited *)
            detached
              (transact_all
                 [TxCreateIdentity (ir_accessor_type data)
                    (ir_accessor_public_key data) accessor_id
                    accessor_group_id;
                  TxRegisterMqDestination hash_id ial];;
               notifyCreateIdentityResultByCallback request_id true
                 (Some secret);;
               db (RemoveOnboardDataByReferenceId reference_id)));;
         mret {| res_request_id := request_id; res_exist := exist;
                 res_accessor_id := accessor_id |}
     end)
    (λ error, throw error).

(** What [!p] sees of a promise [p]: an object, whatever it resolves
    to. *)
Definition truthy_promise {A} (p : M A) : bool := true.

Definition updateIal (namespace identifier : string) (ial : jsnum) : M unit :=
  if negb (truthy_promise (checkAssociated namespace identifier))
  then throw IDENTITY_NOT_FOUND
  else
  info ← ask (getNodeInfo E (nodeId E));
  if js_gt ial (max_ial info) then throw MAXIMUM_IAL_EXCEED
  else
  let hash_id := hash E (Some (namespace +:+ ":" +:+ identifier)) in
  transact (TxUpdateIal hash_id ial);;
  mret tt.

(** ** idp.js: challenge and response *)

Definition set_k (k : list string) (r : stored_request) : stored_request :=
  {| sr_message := sr_message r; sr_k := Some k |}.

Definition requestChallenge (request_id : string) (accessor_id : option string)
  : M unit :=
  public_key ← ask (getAccessorKey E accessor_id);
  let '(k1, publicProof1) := generatePublicProof E 0 public_key in
  let '(k2, publicProof2) := generatePublicProof E 1 public_key in
  request ← db_get (λ s, requestReceivedFromMQ s !! request_id);
  match request with
  | None => throw TypeError
  | Some request =>
      let request := set_k [k1; k2] request in
      db (SetRequestReceivedFromMQ request_id request);;
      height ← transact
        (TxDeclareIdentityProof request_id
           (stringify E [publicProof1; publicProof2]));
      let rp_id := m_rp_id (sr_message request) in
      address ← ask (getMsqAddress E rp_id);
      match address with
      | None => throw TypeError
      | Some (ip, port) =>
          public_key ← ask (getNodePubKey E rp_id);
          emit (EvMq
                  [{| rc_ip := ip; rc_port := port;
                      rc_public_key := public_key |}]
                  (MqRequestChallenge [publicProof1; publicProof2]
                     request_id (nodeId E) height))
      end
  end.

(** The loop of [createIdpResponse] over [requestFromMq.challenge]; [i] is
    the index of the head of [challenge]. *)
Fixpoint generateProofs (accessor_id secret : string) (k : option (list string))
    (i : nat) (challenge : list string) : M (list identity_proof) :=
  match challenge with
  | [] => mret []
  | c :: rest =>
      publicKey ← ask (getAccessorKey E (Some accessor_id));
      match k with
      | None => throw TypeError
      | Some ks =>
          let p := generateIdentityProof E publicKey c (ks !! i) secret in
          ps ← generateProofs accessor_id secret k (S i) rest;
          mret (p :: ps)
      end
  end.

(** The checks of the first [if (mode === 3)] block; the checked
    [accessor_id] and [secret] are handed to the second one. *)
Definition checkMode3 (data : response_data) : M (string * string) :=
  match rs_accessor_id data with
  | None => throw ACCESSOR_ID_NEEDED
  | Some accessor_id =>
      match rs_secret data with
      | None => throw SECRET_NEEDED
      | Some secret =>
          accessorPublicKey ← ask (getAccessorKey E (Some accessor_id));
          match accessorPublicKey with
          | None => throw ACCESSOR_PUBLIC_KEY_NOT_FOUND
          | Some _ => mret (accessor_id, secret)
          end
      end
  end.

Definition mode3Response (data : response_data) (accessor_id secret : string)
  : M (option idp_response_tx * option private_proof_object) :=
  requestFromMq ← db_get (λ s, requestReceivedFromMQ s !! rs_request_id data);
  match requestFromMq with
  | None => throw TypeError
  | Some requestFromMq =>
      match m_challenge (sr_message requestFromMq) with
      | None => throw TypeError
      | Some challenge =>
          proofs ← generateProofs accessor_id secret (sr_k requestFromMq)
                     0 challenge;
          let blockchainProofArray := blockchainProof <$> proofs in
          let privateProofValueArray := privateProofValue <$> proofs in
          let samePadding := last (padding <$> proofs) in
          let privateProofObject :=
            {| pp_privateProofValueArray := privateProofValueArray;
               pp_accessor_id := accessor_id;
               pp_padding := samePadding |} in
          let dataToBlockchain :=
            {| tx_request_id := rs_request_id data;
               tx_aal := rs_aal data; tx_ial := rs_ial data;
               tx_status := rs_status data;
               tx_signature := rs_signature data;
               tx_identity_proof := Some (stringify E blockchainProofArray);
               tx_private_proof_hash :=
                 Some (hash E (Some (stringify E privateProofValueArray))) |} in
          mret (Some dataToBlockchain, Some privateProofObject)
      end
  end.

Definition mode1Response (data : response_data) : idp_response_tx :=
  {| tx_request_id := rs_request_id data;
     tx_aal := rs_aal data; tx_ial := rs_ial data;
     tx_status := rs_status data; tx_signature := rs_signature data;
     tx_identity_proof := None; tx_private_proof_hash := None |}.

(** What [createIdpResponse] builds before it touches the store: the
    value for the ledger and the object for the RP ([undefined] outside
    mode 3). *)
Definition prepareResponse (data : response_data) (mode : Z)
  : M (option idp_response_tx * option private_proof_object) :=
  checked ← (if bool_decide (mode = 3)
             then (c ← checkMode3 data; mret (Some c))
             else mret None);
  match checked with
  | Some (accessor_id, secret) => mode3Response data accessor_id secret
  | None =>
      if bool_decide (mode = 1)
      then mret (Some (mode1Response data), None)
      else mret (None, None)
  end.

Definition createIdpResponse (data : option response_data) : M unit :=
  catch
    (match data with
     | None => throw TypeError
     | Some data =>
         let request_id := rs_request_id data in
         request ← ask (getRequest E request_id);
         match request with
         | None => throw REQUEST_NOT_FOUND
         | Some mode =>
             '(dataToBlockchain, privateProofObject) ←
               prepareResponse data mode;
             db (RemoveRequestReceivedFromMQ request_id);;
             db (RemoveResponseFromRequestId request_id);;
             height ← transact (TxCreateIdpResponse dataToBlockchain);
             spawn (TSendPrivateProofToRP request_id privateProofObject height)
         end
     end)
    (λ error, throw (CannotCreateIdpResponse error)).

Definition sendPrivateProofToRP (request_id : string)
    (privateProofObject : option private_proof_object) (height : Z) : M unit :=
  rp_id ← db_get (λ s, mjoin (rpIdFromRequestId s !! request_id));
  address ← ask (getMsqAddress E rp_id);
  match address with
  | None => throw TypeError
  | Some (ip, port) =>
      public_key ← ask (getNodePubKey E rp_id);
      emit (EvMq
              [{| rc_ip := ip; rc_port := port; rc_public_key := public_key |}]
              (MqPrivateProof request_id privateProofObject height (nodeId E)));;
      db (RemoveRPIdFromRequestId request_id)
  end.

(** A spawned task, run on its own. *)
Definition run_task (t : task) : M unit :=
  match t with
  | TCreateIdpResponse data => createIdpResponse data
  | TSendPrivateProofToRP request_id ppo height =>
      sendPrivateProofToRP request_id ppo height
  end.

(** ** idp.js: messages and block headers *)

Definition checkOnboardResponse (message : message) : M bool :=
  let request_id := m_request_id message in
  requestDetail ← ask (getRequestDetail E request_id);
  match requestDetail with
  | None => throw TypeError
  | Some response_list =>
      let response := head response_list in
      verified ← ask (verifyZKProof E request_id (m_idp_id message) message 3);
      reason ←
        (if negb verified then mret (Some "Invalid response")
         else match response with
              | None => throw TypeError
              | Some status =>
                  if negb (bool_decide (status = "accept"))
                  then mret (Some "User rejected")
                  else mret None
              end);
      match reason with
      | Some _ =>
          notifyAddAccessorResultByCallback request_id false None;;
          db (RemoveChallengeFromRequestId request_id);;
          mret false
      | None =>
          db (RemoveChallengeFromRequestId request_id);;
          mret true
      end
  end.

(** The block that hands a confirmed message to its handler; the source
    has it twice, word for word, in [handleMessageFromQueue] and in
    [handleTendermintNewBlockHeaderEvent]. *)
Definition dispatch (message : message) : M unit :=
  let request_id := m_request_id message in
  if truthy_str (m_accessor_id message) then
    emit (EvDispatch OnboardConsent message);;
    consented ← checkOnboardResponse message;
    if (consented : bool) then
      '(secret, associated) ←
        addAccessorAfterConsent request_id (js_str (m_accessor_id message));
      if (associated : bool)
      then notifyAddAccessorResultByCallback request_id true (Some secret)
      else notifyCreateIdentityResultByCallback request_id true (Some secret)
    else mret tt
  else if bool_decide (m_type message = Some "request_challenge") then
    emit (EvDispatch ChallengeRequest message);;
    let responseId := request_id +:+ ":" +:+ js_str (m_idp_id message) in
    emit (EvHandleChallengeRequest responseId)
  else
    emit (EvDispatch IncomingRequest message);;
    valid ← ask (checkRequestIntegrity E request_id message);
    if (valid : bool) then
      notifyIncomingRequestByCallback
        {| ic_mode := m_mode message;
           ic_request_id := request_id;
           ic_namespace := m_namespace message;
           ic_identifier := m_identifier message;
           ic_request_message := m_request_message message;
           ic_request_message_hash := hash E (m_request_message message);
           ic_requester_node_id := m_rp_id message;
           ic_min_ial := m_min_ial message;
           ic_min_aal := m_min_aal message;
           ic_data_request_list := m_data_request_list message |}
    else mret tt.

Definition ppo_entry_of (message : message) : ppo_entry :=
  {| pe_idp_id := m_idp_id message;
     pe_privateProofValue := m_privateProofValue message;
     pe_accessor_id := m_accessor_id message;
     pe_padding := m_padding message |}.

Definition handleMessageFromQueue (message : message) : M unit :=
  let request_id := m_request_id message in
  match m_challenge message with
  | Some challenge =>
      request ← db_get (λ s, requestReceivedFromMQ s !! request_id);
      match request with
      | None => throw TypeError
      | Some request =>
          let request :=
            {| sr_message := set_challenge (Some challenge) (sr_message request);
               sr_k := sr_k request |} in
          db (SetRequestReceivedFromMQ request_id request);;
          data ← db_get (λ s, responseFromRequestId s !! request_id);
          spawn (TCreateIdpResponse data)
      end
  | None =>
      (if negb (bool_decide (m_type message = Some "request_challenge"))
       then db (SetRequestReceivedFromMQ request_id
                  {| sr_message := message; sr_k := None |})
       else mret tt);;
      db (SetRequestToProcessReceivedFromMQ request_id message);;
      latestBlockHeight ← read w_latestBlockHeight;
      if (latestBlockHeight <=? m_height message)%Z then
        db (AddRequestIdExpectedInBlock (m_height message) request_id);;
        db (SetRPIdFromRequestId request_id (m_rp_id message));;
        (if bool_decide (m_type message = Some "request_challenge") then
           let responseId := request_id +:+ ":" +:+ js_str (m_idp_id message) in
           db (SetPublicProofReceivedFromMQ responseId (m_public_proof message))
         else mret tt);;
        (if truthy_str (m_accessor_id message) then
           request ← db_get (λ s, requestData s !! request_id);
           match request with
           | Some request =>
               db (SetRequestData request_id
                     {| rd_detail := rd_detail request;
                        rd_privateProofObjectList :=
                          Some (default [] (rd_privateProofObjectList request)
                                ++ [ppo_entry_of message]) |})
           | None => mret tt
           end
         else mret tt)
      else
        db (RemoveRequestToProcessReceivedFromMQ request_id);;
        dispatch message
  end.

(** The replay window [fromHeight, toHeight] of a new block header. *)
Definition replayWindow (height : Z) (missingBlockCount : option Z) : Z * Z :=
  let fromHeight :=
    match missingBlockCount with
    | None => 1
    | Some c => if bool_decide (c = 0) then height - 1 else height - c
    end in
  let toHeight := height - 1 in
  (fromHeight, toHeight).

(** The callback that [handleTendermintNewBlockHeaderEvent] maps over
    the request ids of the window is cut in three by its two awaits of
    the store: the read of the buffered message, its removal, and the
    block that hands the message over.  [message.accessor_id] of a
    message that is not there is a TypeError. *)
Definition getRequestToProcess (requestId : string) : M (option message) :=
  db_get (λ s, requestToProcessReceivedFromMQ s !! requestId).

Definition removeRequestToProcess (requestId : string) : M unit :=
  db (RemoveRequestToProcessReceivedFromMQ requestId).

Definition processRequest (message : option message) : M unit :=
  match message with
  | None => throw TypeError
  | Some message => dispatch message
  end.

(** [await Promise.all(promises)]: every promise settles, whether or not
    another one rejects; the await rejects when one of them did, with
    the first rejection.  The promises are taken one after the other, in
    the order of the list. *)
Fixpoint promiseAll (promises : list (M unit)) : M unit := λ w,
  match promises with
  | [] => (Ok tt, w, [])
  | promise :: rest =>
      let '(r1, w1, l1) := promise w in
      let '(r2, w2, l2) := promiseAll rest w1 in
      (match r1 with
       | Throw e => Throw e
       | Ok _ => r2
       end, w2, l1 ++ l2)
  end.

(** [height] is [tendermint.getBlockHeightFromNewBlockHeaderEvent(result)].

    [requestIdsInTendermintBlock.map(async (requestId) => ...)] calls the
    callback on every request id before [Promise.all] is awaited, and
    each call runs up to its first await: every read of the buffer is
    issued before any callback goes on, so all of them find the buffer as
    it is when the window was read.  The store, which is not among the
    sources, is taken to serve its operations in the order they are
    issued: the removals follow, in the order of the list, and then the
    hand-overs, each taken as one step. *)
Definition handleTendermintNewBlockHeaderEvent
    (height : Z) (missingBlockCount : option Z) : M unit :=
  let '(fromHeight, toHeight) := replayWindow height missingBlockCount in
  requestIdsInTendermintBlock ←
    db_get (getRequestIdsExpectedInBlock fromHeight toHeight);
  messages ← mapM getRequestToProcess requestIdsInTendermintBlock;
  mapM removeRequestToProcess requestIdsInTendermintBlock;;
  promiseAll (processRequest <$> messages);;
  db (RemoveRequestIdsExpectedInBlock fromHeight toHeight).

End Node.

(** ** rp.js *)

Module Rp.
Section Rp.

Variable E : Env.

Definition privKey : string := "RP_PrivateKey".

(** [x ? x : 1] *)
Definition or_one (x : option jsnum) : jsnum :=
  match x with
  | Some n => if truthy_num n then n else num 1
  | None => num 1
  end.

(** [s.split(':')] *)
Fixpoint split_colon (s acc : string) : list string :=
  match s with
  | EmptyString => [acc]
  | String c rest =>
      if Ascii.eqb c ":"%char then acc :: split_colon rest ""
      else split_colon rest (acc +:+ String c "")
  end.

Definition receiver_of (nodeId : string) : M receiver :=
  let parts := split_colon nodeId "" in
  public_key ← ask (getNodePubKey E (Some nodeId));
  mret {| rc_ip := parts !! 0%nat; rc_port := parts !! 1%nat;
          rc_public_key := public_key |}.

(** The continuation [getIdpMqDestination(...).then(...)] of
    [createRequest]; nobody awaits it. *)
Definition sendRequestToIdps (a : rp_request_args) (request_id : string)
    (height : Z) : M unit :=
  detached
    (idpList ← ask (queryGetMsqDestination E
                      (hash E (Some (ra_namespace a +:+ ":" +:+ ra_identifier a)))
                      (ra_min_ial a));
     let nodeIdList := default [] idpList in
     receivers ← mapM receiver_of nodeIdList;
     emit (EvMq receivers
             (MqRequest
                {| rp_namespace := ra_namespace a;
                   rp_identifier := ra_identifier a;
                   rp_request_id := request_id;
                   rp_min_idp := or_one (ra_min_idp a);
                   rp_min_aal := or_one (ra_min_aal a);
                   rp_min_ial := or_one (ra_min_ial a);
                   rp_timeout := ra_timeout a;
                   rp_data_request_list := ra_data_request_list a;
                   rp_request_message := ra_request_message a;
                   rp_height := height |}))).

Definition createRequest (a : rp_request_args) : M (option string) :=
  let namespace := ra_namespace a in
  let identifier := ra_identifier a in
  let reference_id := ra_reference_id a in
  let data_request_list := ra_data_request_list a in
  requestId ← db_get (λ s, rpRequestReferenceMapping s !! reference_id);
  if truthy_str requestId then mret requestId
  else
  let nonce := getNonce E in
  let request_id := createRequestId E privKey a nonce in
  let data_request_list_to_blockchain :=
    (λ d, {| dt_service_id := dr_service_id d;
             dt_as_id_list := dr_as_id_list d;
             dt_count := dr_count d;
             dt_request_params_hash :=
               hash E (Some (stringifyParams E (dr_request_params d))) |})
      <$> (default [] data_request_list : list data_request) in
  (match data_request_list with
   | Some ((_ :: _) as l) =>
       db (PutRpRequestsData request_id
             {| rq_namespace := namespace; rq_identifier := identifier;
                rq_reference_id := reference_id; rq_request_id := request_id;
                rq_min_idp := or_one (ra_min_idp a);
                rq_min_aal := or_one (ra_min_aal a);
                rq_min_ial := or_one (ra_min_ial a);
                rq_timeout := ra_timeout a;
                rq_data_request_list := l;
                rq_request_message := ra_request_message a |})
   | _ => mret tt
   end);;
  let dataToBlockchain :=
    {| ct_request_id := request_id;
       ct_min_idp := or_one (ra_min_idp a);
       ct_min_aal := ra_min_aal a;
       ct_min_ial := ra_min_ial a;
       ct_timeout := ra_timeout a;
       ct_data_request_list := data_request_list_to_blockchain;
       ct_message_hash := hash E (ra_request_message a) |} in
  emit (EvRpTransact "CreateRequest" dataToBlockchain nonce);;
  let '(success, height) :=
    rp_transact E "CreateRequest" dataToBlockchain nonce in
  if negb success then mret None
  else
  db (PutRpRequestReferenceMapping reference_id request_id);;
  db (PutRpCallbackUrls request_id (ra_callback_url a));;
  sendRequestToIdps a request_id height;;
  mret (Some request_id).

End Rp.
End Rp.

(** ** Concrete nodes and worlds *)

Module Scenario.

(** A node ["idp1"] with [max_ial = 3] on a ledger that knows the
    namespace ["citizen_id"].  [mode] is the mode of every request,
    [associated] the IdP nodes of every identity, [exist] whether the
    identity exists, [accept] whether the ledger accepts transactions. *)
Definition env (mode : Z) (associated : list string) (exist accept : bool)
  : Env :=
  {| nodeId := "idp1";
     getRequest := λ _, Replied (Some mode);
     getRequestDetail := λ _, Replied (Some ["accept"]);
     getAccessorKey := λ _, Replied (Some "PK");
     getAccessorGroupId := λ _, Replied "group1";
     getMsqAddress := λ _, Replied (Some (Some "10.0.0.9", Some "5555"));
     getNodePubKey := λ _, Replied (Some "RPKEY");
     getNamespaceList := Replied ["citizen_id"];
     getIdpNodes := λ _ _, Replied associated;
     getNodeInfo := λ _, Replied {| max_ial := num 3 |};
     checkExistingIdentity := λ _, Replied exist;
     submit := λ _, if accept then Replied 120 else Rejected;
     hash := λ o, "H(" +:+ js_str o +:+ ")";
     stringify := λ l, "[" +:+ String.concat "," l +:+ "]";
     generatePublicProof := λ i _,
       match i with
       | O => ("k1", "pub1")
       | _ => ("k2", "pub2")
       end;
     generateIdentityProof := λ _ challenge k _,
       {| blockchainProof := "bp(" +:+ challenge +:+ "," +:+ js_str k +:+ ")";
          privateProofValue := "pv(" +:+ challenge +:+ "," +:+ js_str k +:+ ")";
          padding := "pad" |};
     randomBase64Bytes := λ i,
       match i with
       | O => "acc-random"
       | _ => "group-random"
       end;
     extractPaddingFromPrivateEncrypt := λ _ _, "pad";
     getRequestMessageForCreatingIdentity := λ _ _ _ _, "create identity";
     getRequestMessageForAddingAccessor := λ _ _ _ _, "add accessor";
     verifyZKProof := λ _ _ _ _, Replied true;
     checkRequestIntegrity := λ _ _, Replied true;
     common_createRequest := λ _, Replied "req-onboard";
     fetchAccessorSign := λ _ _, Replied "signature";
     getNonce := "nonce1";
     createRequestId := λ _ a nonce, "req-" +:+ ra_reference_id a;
     stringifyParams := λ p, p;
     rp_transact := λ _ _ _, (accept, 120);
     queryGetMsqDestination := λ _ _, Replied (Some ["10.0.0.7:4000"]) |}.

Definition urls : callback_urls :=
  {| incoming_request_url := Some "http://client/request";
     identity_result_url := Some "http://client/identity";
     accessor_sign_url := Some "http://client/sign";
     error_url := None |}.

Definition world (s : Store) (latest : Z) : World :=
  {| w_store := s; w_latestBlockHeight := latest; w_callbackUrls := urls |}.

(** A consent request from the RP ["rp1"]. *)
Definition consent (request_id : string) (height : Z) : message :=
  {| m_request_id := request_id; m_height := height; m_type := None;
     m_challenge := None; m_accessor_id := None; m_idp_id := None;
     m_rp_id := Some "rp1"; m_public_proof := None;
     m_privateProofValue := None; m_padding := None;
     m_mode := Some 3; m_namespace := Some "citizen_id";
     m_identifier := Some "123"; m_request_message := Some "login";
     m_min_ial := Some (num 1); m_min_aal := Some (num 1);
     m_data_request_list := None |}.

(** The challenge pair the RP sends back for a request. *)
Definition challenge (request_id : string) (height : Z) : message :=
  {| m_request_id := request_id; m_height := height; m_type := None;
     m_challenge := Some ["c1"; "c2"]; m_accessor_id := None;
     m_idp_id := None; m_rp_id := Some "rp1"; m_public_proof := None;
     m_privateProofValue := None; m_padding := None;
     m_mode := None; m_namespace := None; m_identifier := None;
     m_request_message := None; m_min_ial := None; m_min_aal := None;
     m_data_request_list := None |}.

(** A challenge request an IdP sends to the node that created the
    request. *)
Definition request_challenge (request_id : string) (height : Z) : message :=
  {| m_request_id := request_id; m_height := height;
     m_type := Some "request_challenge";
     m_challenge := None; m_accessor_id := None;
     m_idp_id := Some "idp1"; m_rp_id := None;
     m_public_proof := Some ["pub1"; "pub2"];
     m_privateProofValue := None; m_padding := None;
     m_mode := None; m_namespace := None; m_identifier := None;
     m_request_message := None; m_min_ial := None; m_min_aal := None;
     m_data_request_list := None |}.

Definition response (request_id : string) : response_data :=
  {| rs_request_id := request_id; rs_aal := num 1; rs_ial := num 2;
     rs_status := "accept"; rs_signature := "sig";
     rs_accessor_id := Some "acc1"; rs_secret := Some "secret" |}.

(** The store of an IdP that received the consent request ["req1"],
    staged the client's response and declared its public proofs. *)
Definition declared : Store :=
  apply_db (SetRPIdFromRequestId "req1" (Some "rp1"))
    (apply_db (SetResponseFromRequestId "req1" (response "req1"))
       (apply_db
          (SetRequestReceivedFromMQ "req1"
             {| sr_message := consent "req1" 90;
                sr_k := Some ["k1"; "k2"] |})
          empty_store)).

(** The same store once the challenge pair arrived. *)
Definition challenged : Store :=
  apply_db
    (SetRequestReceivedFromMQ "req1"
       {| sr_message := set_challenge (Some ["c1"; "c2"]) (consent "req1" 90);
          sr_k := Some ["k1"; "k2"] |})
    declared.

Definition onboarding (ial : jsnum) (namespace reference_id : string)
  : identity_request :=
  {| ir_namespace := namespace; ir_identifier := "123";
     ir_reference_id := reference_id; ir_accessor_type := "RSA";
     ir_accessor_public_key := "PK1"; ir_accessor_id := None;
     ir_ial := ial; ir_addAccessor := false |}.

(** A store that holds the correlation of a first onboarding call with
    reference ["r1"]. *)
Definition correlated : Store :=
  apply_db
    (SetOnboardDataByReferenceId "r1"
       {| od_request_id := "req-onboard"; od_accessor_id := "acc-random" |})
    empty_store.

Definition rp_args (reference_id : string) : rp_request_args :=
  {| ra_namespace := "citizen_id"; ra_identifier := "123";
     ra_reference_id := reference_id;
     ra_data_request_list :=
       Some [{| dr_service_id := "bank_statement"; dr_as_id_list := ["as1"];
                dr_count := Some 1; dr_request_params := "{}" |}];
     ra_min_idp := Some (num 1); ra_min_aal := Some (num 1);
     ra_min_ial := Some (num 1); ra_timeout := Some 3600;
     ra_request_message := Some "login";
     ra_callback_url := Some "http://rp/callback" |}.

(** The transaction of the rejected request of [rp_args "ref1"]. *)
Definition rp_tx : rp_create_request_tx :=
  {| ct_request_id := "req-ref1"; ct_min_idp := num 1;
     ct_min_aal := Some (num 1); ct_min_ial := Some (num 1);
     ct_timeout := Some 3600;
     ct_data_request_list :=
       [{| dt_service_id := "bank_statement"; dt_as_id_list := ["as1"];
           dt_count := Some 1; dt_request_params_hash := "H({})" |}];
     ct_message_hash := "H(login)" |}.

(** The response transaction of request ["req1"] in mode 3. *)
Definition response_tx : ledger_tx :=
  TxCreateIdpResponse
    (Some {| tx_request_id := "req1"; tx_aal := num 1; tx_ial := num 2;
             tx_status := "accept"; tx_signature := "sig";
             tx_identity_proof := Some "[bp(c1,k1),bp(c2,k2)]";
             tx_private_proof_hash := Some "H([pv(c1,k1),pv(c2,k2)])" |}).

End Scenario.

(** * More of the node *)

(** ** idp.js: the callback URLs *)

(** [setCallbackUrls]: the URLs after the call and the files written,
    each with its suffix, in the order of the source. *)
Definition setCallbackUrls (a urls : callback_urls)
  : callback_urls * list (string * string) :=
  let '(u1, f1) :=
    match incoming_request_url a with
    | Some url => (Some url, [("incoming_request", url)])
    | None => (incoming_request_url urls, [])
    end in
  let '(u2, f2) :=
    match identity_result_url a with
    | Some url => (Some url, [("identity_result", url)])
    | None => (identity_result_url urls, [])
    end in
  let '(u3, f3) :=
    match accessor_sign_url a with
    | Some url => (Some url, [("accessor_sign", url)])
    | None => (accessor_sign_url urls, [])
    end in
  let '(u4, f4) :=
    match error_url a with
    | Some url => (Some url, [("error", url)])
    | None => (error_url urls, [])
    end in
  ({| incoming_request_url := u1; identity_result_url := u2;
      accessor_sign_url := u3; error_url := u4 |},
   f1 ++ f2 ++ f3 ++ f4).

(** The world once [setCallbackUrls(a)] has run. *)
Definition with_callbackUrls (a : callback_urls) (w : World) : World :=
  {| w_store := w_store w; w_latestBlockHeight := w_latestBlockHeight w;
     w_callbackUrls := (setCallbackUrls a (w_callbackUrls w)).1 |}.

Section NodeEntryPoints.

Variable E : Env.

(** ** idp.js: the client's response *)

(** Neither [requestChallenge] nor [createIdpResponse] is awaited; each
    is the last statement of its branch, so its run is taken here and its
    rejection reaches no caller. *)
Definition requestChallengeAndCreateResponse (data : response_data)
  : M unit :=
  request ← ask (getRequest E (rs_request_id data));
  match request with
  | None => throw TypeError
  | Some mode =>
      if bool_decide (mode = 3) then
        db (SetResponseFromRequestId (rs_request_id data) data);;
        detached (requestChallenge E (rs_request_id data)
                    (rs_accessor_id data))
      else if bool_decide (mode = 1) then
        detached (createIdpResponse E (Some data))
      else mret tt
  end.

(** ** core/identity.js: a new accessor for an associated identity *)

(** The object handed to [createNewIdentity]: the fields of the call,
    [addAccessor: true] and no [ial]. *)
Definition addAccessorRequest (data : identity_request) : identity_request :=
  {| ir_namespace := ir_namespace data;
     ir_identifier := ir_identifier data;
     ir_reference_id := ir_reference_id data;
     ir_accessor_type := ir_accessor_type data;
     ir_accessor_public_key := ir_accessor_public_key data;
     ir_accessor_id := ir_accessor_id data;
     ir_ial := JNaN;
     ir_addAccessor := true |}.

Definition addAccessorMethodForAssociatedIdp (data : identity_request)
  : M identity_result :=
  associated ← checkAssociated E (ir_namespace data) (ir_identifier data);
  if negb associated then throw IDENTITY_NOT_FOUND
  else createNewIdentity E (addAccessorRequest data).

(** ** The node as a reactive system *)

(** What reaches the IdP from outside: a payload of the message queue, a
    new block header, and the ledger client moving
    [tendermint.latestBlockHeight]. *)
Inductive input :=
| Deliver (m : message)
| NewBlockHeader (height : Z) (missingBlockCount : option Z)
| LatestBlockHeight (height : Z).

Definition react (w : World) (i : input) : World :=
  match i with
  | Deliver m => (handleMessageFromQueue E m w).1.2
  | NewBlockHeader height missingBlockCount =>
      (handleTendermintNewBlockHeaderEvent E height missingBlockCount w).1.2
  | LatestBlockHeight height =>
      {| w_store := w_store w; w_latestBlockHeight := height;
         w_callbackUrls := w_callbackUrls w |}
  end.

Definition react_all (w : World) (inputs : list input) : World :=
  foldl react w inputs.

(** ** rp.js: the receivers of a data request *)

(** [tendermint.query('GetServiceDestination', {as_id, service_id})],
    reduced to the [node_id] of the answer ([None] when the answer has
    none). *)
Variable queryGetServiceDestination : string → string → reply (option string).

(** The body mapped over [as_id_list]: a receiver, or [null] when
    anything in the [try] block throws. *)
Definition asReceiver (service_id as_id : string) : M (option receiver) :=
  catch
    (node_id ← ask (queryGetServiceDestination as_id service_id);
     match node_id with
     | None => throw TypeError
     | Some nodeId =>
         r ← Rp.receiver_of E nodeId;
         mret (Some r)
     end)
    (λ _, mret None).

Definition getASReceiverList (data_request : data_request)
  : M (list receiver) :=
  receivers ← mapM (asReceiver (dr_service_id data_request))
                (dr_as_id_list data_request);
  mret (omap id receivers).

End NodeEntryPoints.

(** ** dpki.js: the external signing and decryption service *)

Module Dpki.

(** The object [callbackUrls] of the module.  The keys [sign_url],
    [master_sign_url] and [decrypt_url] are the ones the module reads
    from its files and writes; [master_sing_url] is the key
    [createSignature] reads for the master key. *)
Record urls := {
  sign_url : option string;
  master_sign_url : option string;
  decrypt_url : option string;
  master_sing_url : option string;
}.

(** [callbackUrls] once the module is loaded: each of the three files
    that could be read gives its key. *)
Definition loaded (signature masterSignature decrypt : option string) : urls :=
  {| sign_url := signature; master_sign_url := masterSignature;
     decrypt_url := decrypt; master_sing_url := None |}.

(** The POST to a signing endpoint, with the [request_message] and the
    [request_message_hash] of its body; the POST to a decryption
    endpoint, with the [encrypted_message] of its body; [fs.writeFile]
    on the file of a suffix; [eventEmitter.emit]. *)
Inductive effect :=
| FetchSign (url message messageHash : string)
| FetchDecrypt (url encryptedMessage : string)
| WriteFile (suffix url : string)
| Emit (name : string).

Inductive failure :=
| EXTERNAL_SIGN_TEST_FAILED (cause : failure)
| EXTERNAL_DECRYPT_TEST_FAILED (cause : failure)
| EXTERNAL_SIGN_MASTER_TEST_FAILED (cause : failure)
| EXTERNAL_DECRYPT_URL_NOT_SET
| EXTERNAL_SIGN_MASTER_URL_NOT_SET
| EXTERNAL_SIGN_URL_NOT_SET
| InvalidSignature
| DecryptedMessageMismatch
| BufferTypeError
| CallRejected.

Inductive result (A : Type) :=
| Done (a : A)
| Failed (e : failure).
Arguments Done {A} a.
Arguments Failed {A} e.

(** A computation of the module: from its [callbackUrls], a result, the
    [callbackUrls] it leaves and its effects, oldest first. *)
Definition D (A : Type) : Type := urls → result A * urls * list effect.

#[global] Instance D_ret : MRet D := λ A a u, (Done a, u, []).

#[global] Instance D_bind : MBind D := λ A B f m u,
  match m u with
  | (Done a, u1, l1) => let '(r, u2, l2) := f a u1 in (r, u2, l1 ++ l2)
  | (Failed e, u1, l1) => (Failed e, u1, l1)
  end.

Definition fail {A} (e : failure) : D A := λ u, (Failed e, u, []).

Definition try_catch {A} (m : D A) (h : failure → D A) : D A := λ u,
  match m u with
  | (Done a, u1, l1) => (Done a, u1, l1)
  | (Failed e, u1, l1) => let '(r, u2, l2) := h e u1 in (r, u2, l1 ++ l2)
  end.

Definition effect_ (e : effect) : D unit := λ u, (Done tt, u, [e]).
Definition get_urls : D urls := λ u, (Done u, u, []).
Definition set_urls (f : urls → urls) : D unit := λ u, (Done tt, f u, []).

Definition call {A} (r : reply A) : D A :=
  match r with
  | Replied a => mret a
  | Rejected => fail CallRejected
  end.

Definition TEST_MESSAGE : string := "test".

(** [Buffer.from(TEST_MESSAGE).toString('base64')] *)
Definition TEST_MESSAGE_BASE_64 : string := "dGVzdA==".

Section Dpki.

(** The ledger ([public_key] and [master_public_key] of this node, as
    the answer has them), the crypto helpers and the two kinds of
    endpoint, each with the field of the answer that is read. *)
Variable getNodePubKey : reply (option string).
Variable getNodeMasterPubKey : reply (option string).
Variable hash : string → string.
Variable verifySignature : option string → option string → string → bool.
Variable publicEncrypt : option string → string → string.
Variable signEndpoint : string → string → string → reply (option string).
Variable decryptEndpoint : string → string → reply (option string).

Definition testSignCallback (url : string) (publicKey : option string)
  : D unit :=
  effect_ (FetchSign url TEST_MESSAGE (hash TEST_MESSAGE));;
  signature ← call (signEndpoint url TEST_MESSAGE (hash TEST_MESSAGE));
  if negb (verifySignature signature publicKey TEST_MESSAGE)
  then fail InvalidSignature
  else mret tt.

Definition testDecryptCallback (url : string) (publicKey : option string)
  : D unit :=
  let encryptedMessage := publicEncrypt publicKey TEST_MESSAGE in
  effect_ (FetchDecrypt url encryptedMessage);;
  decryptedMessageBase64 ← call (decryptEndpoint url encryptedMessage);
  if negb (bool_decide (decryptedMessageBase64 = Some TEST_MESSAGE_BASE_64))
  then fail DecryptedMessageMismatch
  else mret tt.

Definition isCallbackUrlsSet (u : urls) : bool :=
  bool_decide (sign_url u ≠ None)
  && bool_decide (master_sign_url u ≠ None)
  && bool_decide (decrypt_url u ≠ None).

Definition checkAndEmitAllCallbacksSet : D unit :=
  u ← get_urls;
  if isCallbackUrlsSet u then effect_ (Emit "allCallbacksSet") else mret tt.

(** [public_key] is [undefined] until it is fetched, and is fetched
    again for the second test when the first fetch gave none. *)
Definition setDpkiCallback (signCallbackUrl decryptCallbackUrl : option string)
  : D unit :=
  public_key ←
    (if truthy_str signCallbackUrl then
       public_key ←
         try_catch
           (public_key ← call getNodePubKey;
            testSignCallback (js_str signCallbackUrl) public_key;;
            mret public_key)
           (λ error, fail (EXTERNAL_SIGN_TEST_FAILED error));
       set_urls (λ u, {| sign_url := signCallbackUrl;
                         master_sign_url := master_sign_url u;
                         decrypt_url := decrypt_url u;
                         master_sing_url := master_sing_url u |});;
       effect_ (WriteFile "signature" (js_str signCallbackUrl));;
       mret public_key
     else mret None);
  (if truthy_str decryptCallbackUrl then
     try_catch
       (public_key ←
          match public_key with
          | Some public_key => mret (Some public_key)
          | None => call getNodePubKey
          end;
        testDecryptCallback (js_str decryptCallbackUrl) public_key)
       (λ error, fail (EXTERNAL_DECRYPT_TEST_FAILED error));;
     set_urls (λ u, {| sign_url := sign_url u;
                       master_sign_url := master_sign_url u;
                       decrypt_url := decryptCallbackUrl;
                       master_sing_url := master_sing_url u |});;
     effect_ (WriteFile "decrypt" (js_str decryptCallbackUrl))
   else mret tt);;
  checkAndEmitAllCallbacksSet.

Definition setMasterSignatureCallback (url : option string) : D unit :=
  (if truthy_str url then
     try_catch
       (master_public_key ← call getNodeMasterPubKey;
        testSignCallback (js_str url) master_public_key)
       (λ error, fail (EXTERNAL_SIGN_MASTER_TEST_FAILED error));;
     set_urls (λ u, {| sign_url := sign_url u;
                       master_sign_url := url;
                       decrypt_url := decrypt_url u;
                       master_sing_url := master_sing_url u |});;
     effect_ (WriteFile "masterSignature" (js_str url))
   else mret tt);;
  checkAndEmitAllCallbacksSet.

(** The answer is [Buffer.from(decryptedMessageBase64, 'base64')], which
    throws when the answer of the endpoint has no [decrypted_message];
    the base64 text stands for the buffer. *)
Definition decryptAsymetricKey (encryptedMessage : string) : D string :=
  u ← get_urls;
  match decrypt_url u with
  | None => fail EXTERNAL_DECRYPT_URL_NOT_SET
  | Some url =>
      try_catch
        (effect_ (FetchDecrypt url encryptedMessage);;
         decryptedMessageBase64 ← call (decryptEndpoint url encryptedMessage);
         match decryptedMessageBase64 with
         | Some text => mret text
         | None => fail BufferTypeError
         end)
        (λ error, fail error)
  end.

Definition createSignature (message messageHash : string)
    (useMasterKey : bool) : D (option string) :=
  u ← get_urls;
  let url := if useMasterKey then master_sing_url u else sign_url u in
  match url with
  | None =>
      if useMasterKey then fail EXTERNAL_SIGN_MASTER_URL_NOT_SET
      else fail EXTERNAL_SIGN_URL_NOT_SET
  | Some url =>
      try_catch
        (effect_ (FetchSign url message messageHash);;
         call (signEndpoint url message messageHash))
        (λ error, fail error)
  end.

(** The calls a client of the module can make, and the module after a
    sequence of them. *)
Inductive request :=
| SetDpkiCallback (signCallbackUrl decryptCallbackUrl : option string)
| SetMasterSignatureCallback (url : option string)
| DecryptAsymetricKey (encryptedMessage : string)
| CreateSignature (message messageHash : string) (useMasterKey : bool).

Definition serve (u : urls) (r : request) : urls :=
  match r with
  | SetDpkiCallback s d => (setDpkiCallback s d u).1.2
  | SetMasterSignatureCallback url => (setMasterSignatureCallback url u).1.2
  | DecryptAsymetricKey m => (decryptAsymetricKey m u).1.2
  | CreateSignature m h k => (createSignature m h k u).1.2
  end.

Definition serve_all (u : urls) (requests : list request) : urls :=
  foldl serve u requests.

End Dpki.
End Dpki.

(** ** rp.js: the data sent back by the AS *)

Module RpData.

(** [db.get], [db.put] and [db.del] of rp.js take a namespace and a key:
    the store is a map from both. *)
Inductive value :=
| Url (url : string)
| DataFromAS (data : option string) (as_id : option string).

Record as_message := {
  am_request_id : string;
  am_data : option string;
  am_as_id : option string;
}.

Inductive effect :=
| Post (url : option string) (data : option string) (as_id : option string).

Section RpData.

(** Whether the POST to the client's callback URL goes through. *)
Variable post_succeeds : option string → bool.

Definition getDataFromAS (request_id : string)
    (db : gmap (string * string) value) : option value :=
  db !! ("dataFromAS", request_id).

(** The URL stored for a request, as [fetch] gets it. *)
Definition callbackUrl (request_id : string)
    (db : gmap (string * string) value) : option string :=
  match db !! ("rp-callbackUrls", request_id) with
  | Some (Url url) => Some url
  | _ => None
  end.

(** [handleMessageFromQueue] of rp.js, on the parsed message. *)
Definition handleMessageFromQueue (data : as_message)
    (db : gmap (string * string) value)
  : gmap (string * string) value * list effect :=
  let '(db1, posted) :=
    if truthy_str (am_data data) then
      let url := callbackUrl (am_request_id data) db in
      if post_succeeds url
      then (delete ("rp-callbackUrls", am_request_id data) db,
            [Post url (am_data data) (am_as_id data)])
      else (db, [Post url (am_data data) (am_as_id data)])
    else (db, []) in
  (<[("rp-dataFromAS", am_request_id data) :=
       DataFromAS (am_data data) (am_as_id data)]> db1,
   posted).

End RpData.
End RpData.

(** ** A node with an onboarding under way *)

Module ScenarioOnboarding.

(** The identity kept under the consent request ["req-onboard"] of a
    node that asked to create an identity with ial 2. *)
Definition identity : identity_data :=
  {| id_accessor_type := "RSA"; id_accessor_id := "acc-random";
     id_accessor_public_key := "PK1"; id_hash_id := "H(citizen_id:123)";
     id_ial := num 2; id_sid := "citizen_id:123"; id_associated := false;
     id_secret := "pad|signature" |}.

Definition pending : Store :=
  apply_db (SetIdentityFromRequestId "req-onboard" identity) empty_store.

(** The response of the IdP ["idp2"] to the consent request, made with
    its accessor ["acc-old"]. *)
Definition consent_response (height : Z) : message :=
  {| m_request_id := "req-onboard"; m_height := height; m_type := None;
     m_challenge := None; m_accessor_id := Some "acc-old";
     m_idp_id := Some "idp2"; m_rp_id := None; m_public_proof := None;
     m_privateProofValue := Some "pv"; m_padding := Some "pad";
     m_mode := None; m_namespace := None; m_identifier := None;
     m_request_message := None; m_min_ial := None; m_min_aal := None;
     m_data_request_list := None |}.

End ScenarioOnboarding.

(** ** A ledger without message-queue addresses *)

Module ScenarioResponse.

(** The ledger of [Scenario.env 3 [] true true] on which no node has
    registered a message-queue address. *)
Definition unregistered : Env :=
  let E := Scenario.env 3 [] true true in
  {| nodeId := nodeId E;
     getRequest := getRequest E;
     getRequestDetail := getRequestDetail E;
     getAccessorKey := getAccessorKey E;
     getAccessorGroupId := getAccessorGroupId E;
     getMsqAddress := λ _, Replied None;
     getNodePubKey := getNodePubKey E;
     getNamespaceList := getNamespaceList E;
     getIdpNodes := getIdpNodes E;
     getNodeInfo := getNodeInfo E;
     checkExistingIdentity := checkExistingIdentity E;
     submit := submit E;
     hash := hash E;
     stringify := stringify E;
     generatePublicProof := generatePublicProof E;
     generateIdentityProof := generateIdentityProof E;
     randomBase64Bytes := randomBase64Bytes E;
     extractPaddingFromPrivateEncrypt := extractPaddingFromPrivateEncrypt E;
     getRequestMessageForCreatingIdentity := getRequestMessageForCreatingIdentity E;
     getRequestMessageForAddingAccessor := getRequestMessageForAddingAccessor E;
     verifyZKProof := verifyZKProof E;
     checkRequestIntegrity := checkRequestIntegrity E;
     common_createRequest := common_createRequest E;
     fetchAccessorSign := fetchAccessorSign E;
     getNonce := getNonce E;
     createRequestId := createRequestId E;
     stringifyParams := stringifyParams E;
     rp_transact := rp_transact E;
     queryGetMsqDestination := queryGetMsqDestination E |}.

(** The object [createIdpResponse] hands to [sendPrivateProofToRP] for
    the response to request ["req1"]. *)
Definition private_proofs : private_proof_object :=
  {| pp_privateProofValueArray := ["pv(c1,k1)"; "pv(c2,k2)"];
     pp_accessor_id := "acc1";
     pp_padding := Some "pad" |}.

End ScenarioResponse.

(** * Vocabulary of the properties *)

(** The outcome, the final world and the effects of a run. *)
Definition outcome_of {A} (x : outcome A * World * list event) : outcome A := x.1.1.
Definition world_of {A} (x : outcome A * World * list event) : World := x.1.2.
Definition log_of {A} (x : outcome A * World * list event) : list event := x.2.

(** The validations of [createNewIdentity] that come before the IAL
    check: the namespace is registered and, unless the call adds an
    accessor, the identity is not yet associated with this node. *)
Definition passes_earlier_validations (E : Env) (data : identity_request)
  : Prop :=
  ∃ namespaces nodes,
    getNamespaceList E = Replied namespaces
    ∧ ir_namespace data ∈ namespaces
    ∧ getIdpNodes E (ir_namespace data) (ir_identifier data) = Replied nodes
    ∧ (ir_addAccessor data = true ∨ nodeId E ∉ nodes).

(** The proofs of the rounds of a challenge: round [j] pairs the [j]-th
    challenge with the [j]-th blinding factor, counted from [i]. *)
Definition identityProofs (E : Env) (publicKey : option string)
    (secret : string) (ks : list string) (i : nat) (challenge : list string)
  : list identity_proof :=
  imap (λ j c, generateIdentityProof E publicKey c (ks !! (i + j)%nat) secret)
    challenge.

(** The value a mode-3 response puts on the ledger and the object it
    sends to the RP, from the proofs of the rounds. *)
Definition ledgerResponse (E : Env) (data : response_data)
    (proofs : list identity_proof) : idp_response_tx :=
  {| tx_request_id := rs_request_id data;
     tx_aal := rs_aal data; tx_ial := rs_ial data;
     tx_status := rs_status data; tx_signature := rs_signature data;
     tx_identity_proof := Some (stringify E (blockchainProof <$> proofs));
     tx_private_proof_hash :=
       Some (hash E (Some (stringify E (privateProofValue <$> proofs)))) |}.

Definition transportProof (accessor_id : string)
    (proofs : list identity_proof) : private_proof_object :=
  {| pp_privateProofValueArray := privateProofValue <$> proofs;
     pp_accessor_id := accessor_id;
     pp_padding := last (padding <$> proofs) |}.

(** The store once the two removals of [createIdpResponse] are done. *)
Definition responseStateRemoved (request_id : string) (w : World) : World :=
  with_store (apply_db (RemoveResponseFromRequestId request_id))
    (with_store (apply_db (RemoveRequestReceivedFromMQ request_id)) w).

(** Claim C6 as it is stated, on the effects [l] of a response: every
    removal of the record of the request comes after a transaction that
    the ledger confirmed. *)
Definition removed_only_after_confirmation (E : Env) (request_id : string)
    (l : list event) : Prop :=
  ∀ before after,
    l = before ++ EvDb (RemoveRequestReceivedFromMQ request_id) :: after →
    ∃ tx height, EvTx tx ∈ before ∧ submit E tx = Replied height.

(** The messages handed to a protocol handler by the effects [l], oldest
    first. *)
Definition dispatched (l : list event) : list message :=
  omap (λ e, match e with
             | EvDispatch _ m => Some m
             | _ => None
             end) l.

(** The effects [l] are writes to the store and nothing else. *)
Definition stored_only (l : list event) : Prop :=
  ∀ e, e ∈ l → ∃ op, e = EvDb op.

(** [tendermint.latestBlockHeight = h] *)
Definition with_latest (h : Z) (w : World) : World :=
  {| w_store := w_store w; w_latestBlockHeight := h;
     w_callbackUrls := w_callbackUrls w |}.

(** The messages a replay over the request ids [ids] finds in the
    to-process buffer: every id is looked up in the buffer as the replay
    finds it, an id listed twice is looked up twice. *)
Definition replayed (buffer : gmap string message) (ids : list string)
  : list message :=
  omap (λ id, buffer !! id) ids.

(** Every buffered message is kept under its own request id. *)
Definition keyed (buffer : gmap string message) : Prop :=
  ∀ id m, buffer !! id = Some m → m_request_id m = id.




(** The body that [notifyIncomingRequestByCallback] posts for the
    message [m]. *)
Definition incomingRequest (E : Env) (m : message) : incoming_request :=
  {| ic_mode := m_mode m;
     ic_request_id := m_request_id m;
     ic_namespace := m_namespace m;
     ic_identifier := m_identifier m;
     ic_request_message := m_request_message m;
     ic_request_message_hash := hash E (m_request_message m);
     ic_requester_node_id := m_rp_id m;
     ic_min_ial := m_min_ial m;
     ic_min_aal := m_min_aal m;
     ic_data_request_list := m_data_request_list m |}.

(** The effects [l] hold what the protocol handler of the message [m]
    does with it on a node whose callback URLs are [urls]: the onboarding
    consent is checked, and the challenge of its request removed once the
    ledger has given the request and the verdict on the proof; the
    challenge request is passed to [common.handleChallengeRequest] under
    its response id; the incoming request whose integrity holds is posted
    to the incoming-request URL, when that is set. *)
Definition handed_over (E : Env) (urls : callback_urls) (m : message)
    (l : list event) : Prop :=
  if truthy_str (m_accessor_id m) then
    EvDispatch OnboardConsent m ∈ l
    ∧ ∀ response_list verified,
        getRequestDetail E (m_request_id m) = Replied (Some response_list) →
        verifyZKProof E (m_request_id m) (m_idp_id m) m 3 = Replied verified →
        verified = false ∨ response_list ≠ [] →
        EvDb (RemoveChallengeFromRequestId (m_request_id m)) ∈ l
  else if bool_decide (m_type m = Some "request_challenge") then
    EvDispatch ChallengeRequest m ∈ l
    ∧ EvHandleChallengeRequest (m_request_id m +:+ ":" +:+ js_str (m_idp_id m))
      ∈ l
  else
    EvDispatch IncomingRequest m ∈ l
    ∧ (checkRequestIntegrity E (m_request_id m) m = Replied true →
       truthy_str (incoming_request_url urls) = true →
       EvCallback (js_str (incoming_request_url urls))
         (CbIncomingRequest (incomingRequest E m)) ∈ l).



(** What [createNewIdentity] builds once its validations are passed: the
    sid, the id of the new accessor, the body sent to the accessor's
    signing endpoint, the secret made of its signature, the consent
    request, the identity kept until consent is given and the
    transactions of a first identity. *)
Definition sid (data : identity_request) : string :=
  ir_namespace data +:+ ":" +:+ ir_identifier data.

Definition newAccessorId (E : Env) (data : identity_request) : string :=
  if truthy_str (ir_accessor_id data)
  then js_str (ir_accessor_id data)
  else randomBase64Bytes E 0.

Definition accessorSignRequest (E : Env) (data : identity_request)
  : sign_request :=
  {| sg_sid_hash := hash E (Some (sid data)); sg_sid := sid data;
     sg_accessor_id := newAccessorId E data;
     sg_reference_id := ir_reference_id data |}.

Definition secretOf (E : Env) (data : identity_request) (signature : string)
  : string :=
  extractPaddingFromPrivateEncrypt E signature (ir_accessor_public_key data)
  +:+ "|" +:+ signature.

Definition consentRequest (E : Env) (data : identity_request) (exist : bool)
  : create_request_args :=
  {| cr_namespace := ir_namespace data; cr_identifier := ir_identifier data;
     cr_reference_id := ir_reference_id data;
     cr_request_message :=
       (if truthy_num (ir_ial data)
        then getRequestMessageForCreatingIdentity E
        else getRequestMessageForAddingAccessor E)
         (ir_namespace data) (ir_identifier data) (ir_reference_id data)
         (nodeId E);
     cr_min_ial := JFin (Q2Qc (11 # 10)); cr_min_aal := num 1;
     cr_min_idp := if exist then 1 else 0;
     cr_request_timeout := 86400; cr_mode := 3 |}.

Definition pendingIdentity (E : Env) (data : identity_request)
    (associated : bool) (signature : string) : identity_data :=
  {| id_accessor_type := ir_accessor_type data;
     id_accessor_id := newAccessorId E data;
     id_accessor_public_key := ir_accessor_public_key data;
     id_hash_id := hash E (Some (sid data)); id_ial := ir_ial data;
     id_sid := sid data; id_associated := associated;
     id_secret := secretOf E data signature |}.

Definition identityTransactions (E : Env) (data : identity_request)
  : list ledger_tx :=
  [TxCreateIdentity (ir_accessor_type data) (ir_accessor_public_key data)
     (newAccessorId E data) (randomBase64Bytes E 1);
   TxRegisterMqDestination (hash E (Some (sid data))) (ir_ial data)].

(** Whether this node is among the nodes [nodes]. *)
Definition thisNodeAmong (E : Env) (nodes : list string) : bool :=
  existsb (λ node_id, bool_decide (node_id = nodeId E)) nodes.

(** The run of [createNewIdentity] from the signature of the accessor
    on: the consent request, the correlation of the reference, and then
    either the identity kept until consent or the transactions of a first
    identity, which nobody awaits. *)
Definition onboardingRun (E : Env) (data : identity_request) (w : World)
    (exist associated : bool) (url : string)
  : outcome identity_result * World * list event :=
  let sign := EvFetchAccessorSign url (accessorSignRequest E data) in
  match fetchAccessorSign E url (accessorSignRequest E data) with
  | Rejected => (Throw SIGN_WITH_ACCESSOR_KEY_FAILED, w, [sign])
  | Replied signature =>
      let args := consentRequest E data exist in
      match common_createRequest E args with
      | Rejected => (Throw ExternalCallRejected, w, [sign; EvCreateRequest args])
      | Replied request_id =>
          let correlate :=
            SetOnboardDataByReferenceId (ir_reference_id data)
              {| od_request_id := request_id;
                 od_accessor_id := newAccessorId E data |} in
          let w1 := with_store (apply_db correlate) w in
          let result :=
            {| res_request_id := request_id; res_exist := exist;
               res_accessor_id := newAccessorId E data |} in
          if exist then
            let keep :=
              SetIdentityFromRequestId request_id
                (pendingIdentity E data associated signature) in
            (Ok result, with_store (apply_db keep) w1,
             [sign; EvCreateRequest args; EvDb correlate; EvDb keep])
          else
            let txs := identityTransactions E data in
            if forallb (λ tx, is_replied (submit E tx)) txs then
              let forget :=
                RemoveOnboardDataByReferenceId (ir_reference_id data) in
              (Ok result, with_store (apply_db forget) w1,
               [sign; EvCreateRequest args; EvDb correlate]
               ++ (EvTx <$> txs)
               ++ (if truthy_str (identity_result_url (w_callbackUrls w))
                   then [EvCallback
                           (js_str (identity_result_url (w_callbackUrls w)))
                           (CbIdentityResult "create_identity_result"
                              request_id true
                              (Some (secretOf E data signature)))]
                   else [])
               ++ [EvDb forget])
            else
              (Ok result, w1,
               [sign; EvCreateRequest args; EvDb correlate] ++ (EvTx <$> txs))
      end
  end.

(** The transactions of [addAccessorAfterConsent] for the identity
    [i] kept under [request_id]. *)
Definition consentTransactions (request_id accessor_group_id : string)
    (i : identity_data) : list ledger_tx :=
  [TxAddAccessorMethod request_id accessor_group_id (id_accessor_type i)
     (id_accessor_id i) (id_accessor_public_key i)]
  ++ (if truthy_num (id_ial i)
      then [TxRegisterMqDestination (id_hash_id i) (id_ial i)]
      else []).

(** The callback [notifyByCallback] makes for the result of an
    onboarding, if the client has set a URL for it. *)
Definition identityResultCallback (w : World) (type request_id : string)
    (success : bool) (secret : option string) : list event :=
  if truthy_str (identity_result_url (w_callbackUrls w))
  then [EvCallback (js_str (identity_result_url (w_callbackUrls w)))
          (CbIdentityResult type request_id success secret)]
  else [].

(** Every message of the to-process buffer is kept under its own request
    id, carries no challenge, and has its row among the ids expected in a
    block, tagged with its height. *)
Definition awaited (s : Store) : Prop :=
  ∀ id m,
    requestToProcessReceivedFromMQ s !! id = Some m →
    m_request_id m = id
    ∧ m_challenge m = None
    ∧ (m_height m, id) ∈ requestIdsExpectedInBlock s.

(** The heights of the replay window of a block header. *)
Definition in_window (height : Z) (missingBlockCount : option Z) (tagged : Z)
  : Prop :=
  ((replayWindow height missingBlockCount).1 ≤ tagged
   ≤ (replayWindow height missingBlockCount).2)%Z.

(** The character [c] does not occur in [s]. *)
Fixpoint free_of (c : ascii) (s : string) : bool :=
  match s with
  | EmptyString => true
  | String c' rest => negb (Ascii.eqb c' c) && free_of c rest
  end.

(** The receiver [getASReceiverList] makes of one AS: none when the
    query for its node rejects or has no [node_id], or when the query for
    the key of its node rejects. *)
Definition asReceiverOf (E : Env)
    (queryGetServiceDestination : string → string → reply (option string))
    (service_id as_id : string) : option receiver :=
  match queryGetServiceDestination as_id service_id with
  | Replied (Some nodeId) =>
      match getNodePubKey E (Some nodeId) with
      | Replied public_key =>
          Some {| rc_ip := Rp.split_colon nodeId "" !! 0%nat;
                  rc_port := Rp.split_colon nodeId "" !! 1%nat;
                  rc_public_key := public_key |}
      | Rejected => None
      end
  | _ => None
  end.

(** The four fields of the callback URLs, with the suffix of the file of
    each. *)
Definition callbackUrlFields
  : list (string * (callback_urls → option string)) :=
  [("incoming_request", incoming_request_url);
   ("identity_result", identity_result_url);
   ("accessor_sign", accessor_sign_url);
   ("error", error_url)].

Ltac unfold_monad :=
  unfold mbind, M_bind, mret, M_ret, throw, catch, detached, emit, spawn, db,
    read, db_get, ask, outcome_of, world_of, log_of in *.

Ltac mred := repeat (progress (unfold_monad; simpl)).

(** Case analysis on a scrutinee of the goal that has no case analysis
    inside. *)
Ltac case_inner :=
  match goal with
  | |- context [match ?x with _ => _ end] =>
      lazymatch x with
      | context [match _ with _ => _ end] => fail
      | _ => destruct x eqn:?
      end
  end.

(** The cases of a membership in an explicit list. *)
Ltac elem_cases H :=
  rewrite ?elem_of_app, ?elem_of_cons, ?elem_of_nil in H;
  repeat (destruct H as [H | H]).

#[global] Arguments js_gt : simpl never.
#[global] Arguments truthy_num : simpl never.
#[global] Arguments truthy_str : simpl never.

(** * Properties *)

Lemma run_bind {A B} (m : M A) (f : A → M B) (w : World) :
  (m ≫= f) w
  = match m w with
    | (Ok a, w1, l1) => let '(r, w2, l2) := f a w1 in (r, w2, l1 ++ l2)
    | (Throw e, w1, l1) => (Throw e, w1, l1)
    end.
Proof. reflexivity. Qed.

(** ** Identity assurance level and association (core/identity.js) *)

Lemma js_gt_irrefl (a : jsnum) : js_gt a a = false.
Proof.
  destruct a; unfold js_gt; try reflexivity.
  apply bool_decide_eq_false. apply Qcle_not_lt, Qcle_refl.
Qed.

Section IdentityProperties.

Variable E : Env.

(** [updateIal] never takes the branch guarded by [!checkAssociated(...)]. *)
Lemma updateIal_skips_association_check namespace identifier ial w :
  outcome_of (updateIal E namespace identifier ial w) ≠ Throw IDENTITY_NOT_FOUND.
Proof.
  unfold updateIal, truthy_promise, transact. mred.
  destruct (getNodeInfo E (nodeId E)) as [info|]; mred; [|discriminate].
  destruct (js_gt ial (max_ial info)); mred; [discriminate|].
  destruct (submit E _); mred; discriminate.
Qed.

Lemma updateIal_ial_check namespace identifier ial w info :
  getNodeInfo E (nodeId E) = Replied info →
  (js_gt ial (max_ial info) = true →
   updateIal E namespace identifier ial w = (Throw MAXIMUM_IAL_EXCEED, w, []))
  ∧ (js_gt ial (max_ial info) = false →
     log_of (updateIal E namespace identifier ial w)
     = [EvTx (TxUpdateIal (hash E (Some (namespace +:+ ":" +:+ identifier))) ial)]).
Proof.
  intros Hinfo. unfold updateIal, truthy_promise, transact. unfold_monad.
  rewrite Hinfo. mred. split; intros ->; mred; [reflexivity|].
  destruct (submit E _); reflexivity.
Qed.

Lemma existsb_eq_elem (x : string) (l : list string) :
  existsb (λ n, bool_decide (n = x)) l = true ↔ x ∈ l.
Proof.
  rewrite existsb_exists. split.
  - intros (n & Hin & Heq). apply bool_decide_eq_true in Heq. subst.
    by apply list_elem_of_In.
  - intros Hin. exists x. split; [by apply list_elem_of_In|].
    by apply bool_decide_eq_true.
Qed.

Lemma existsb_eq_not_elem (x : string) (l : list string) :
  existsb (λ n, bool_decide (n = x)) l = false ↔ x ∉ l.
Proof.
  rewrite <- existsb_eq_elem. destruct (existsb _ l); split; congruence.
Qed.

Ltac pass_validations Hval :=
  destruct Hval as (namespaces & nodes & Hns & Hin & Hnodes & Hassoc);
  unfold createNewIdentity, checkAssociated; mred;
  rewrite Hns; mred;
  apply existsb_eq_elem in Hin; rewrite Hin; mred;
  rewrite Hnodes; mred;
  replace (negb (ir_addAccessor _) && existsb _ nodes) with false
    by (destruct Hassoc as [-> | Hnot%existsb_eq_not_elem];
        [reflexivity | rewrite Hnot; by destruct (ir_addAccessor _)]);
  mred.

Lemma createNewIdentity_ial_exceeded data w info :
  passes_earlier_validations E data →
  getNodeInfo E (nodeId E) = Replied info →
  js_gt (ir_ial data) (max_ial info) = true →
  createNewIdentity E data w = (Throw MAXIMUM_IAL_EXCEED, w, []).
Proof.
  intros Hval Hinfo Hgt. pass_validations Hval.
  rewrite Hinfo. mred. rewrite Hgt. reflexivity.
Qed.

Lemma createNewIdentity_ial_accepted data w info :
  getNodeInfo E (nodeId E) = Replied info →
  js_gt (ir_ial data) (max_ial info) = false →
  outcome_of (createNewIdentity E data w) ≠ Throw MAXIMUM_IAL_EXCEED.
Proof.
  intros Hinfo Hgt.
  unfold createNewIdentity, checkAssociated, isAccessorSignUrlSet,
    accessorSign, transact_all, notifyCreateIdentityResultByCallback,
    notifyByCallback.
  mred.
  rewrite Hinfo.
  repeat (case_inner; mred; rewrite ?Hgt; try discriminate).
Qed.

(** Claim C4, amended: for every reference_id that has a recorded
    correlation, a call of [createNewIdentity] with that reference_id
    that passes the validations made before the lookup (registered
    namespace, identity not already associated unless an accessor is
    added, ial not above max_ial) returns the recorded request_id and
    accessor_id and has no effect at all, so no ledger create-request
    transaction is submitted. *)
Theorem createNewIdentity_retry data w info exist o :
  passes_earlier_validations E data →
  getNodeInfo E (nodeId E) = Replied info →
  js_gt (ir_ial data) (max_ial info) = false →
  checkExistingIdentity E
    (hash E (Some (ir_namespace data +:+ ":" +:+ ir_identifier data)))
  = Replied exist →
  onboardDataByReferenceId (w_store w) !! ir_reference_id data = Some o →
  createNewIdentity E data w
  = (Ok {| res_request_id := od_request_id o; res_exist := exist;
           res_accessor_id := od_accessor_id o |}, w, []).
Proof.
  intros Hval Hinfo Hgt Hexist Ho. pass_validations Hval.
  rewrite Hinfo. mred. rewrite Hgt. mred. rewrite Hexist. mred.
  rewrite Ho. reflexivity.
Qed.

(** Claim C7, amended: in [updateIal], and in [createNewIdentity] once
    the validations that come before the IAL check are passed, an ial
    strictly greater than max_ial fails with MaximumIalExceeded without
    any effect; an ial equal to max_ial passes the check: [updateIal]
    submits the IAL update and [createNewIdentity] does not fail with
    MaximumIalExceeded. *)
Theorem ial_boundary w info :
  getNodeInfo E (nodeId E) = Replied info →
  (∀ namespace identifier ial,
     js_gt ial (max_ial info) = true →
     updateIal E namespace identifier ial w
     = (Throw MAXIMUM_IAL_EXCEED, w, []))
  ∧ (∀ namespace identifier,
       log_of (updateIal E namespace identifier (max_ial info) w)
       = [EvTx (TxUpdateIal
                  (hash E (Some (namespace +:+ ":" +:+ identifier)))
                  (max_ial info))])
  ∧ (∀ data,
       passes_earlier_validations E data →
       js_gt (ir_ial data) (max_ial info) = true →
       createNewIdentity E data w = (Throw MAXIMUM_IAL_EXCEED, w, []))
  ∧ (∀ data,
       ir_ial data = max_ial info →
       outcome_of (createNewIdentity E data w) ≠ Throw MAXIMUM_IAL_EXCEED).
Proof.
  intros Hinfo. repeat split.
  - intros. by apply updateIal_ial_check with (info := info).
  - intros. apply updateIal_ial_check with (info := info); [done|].
    apply js_gt_irrefl.
  - intros. by apply createNewIdentity_ial_exceeded with (info := info).
  - intros data Heq.
    apply createNewIdentity_ial_accepted with (info := info); [done|].
    rewrite Heq. apply js_gt_irrefl.
Qed.

End IdentityProperties.

Lemma scenario_passes_validations mode exist accept ial reference_id :
  passes_earlier_validations (Scenario.env mode [] exist accept)
    (Scenario.onboarding ial "citizen_id" reference_id).
Proof.
  exists ["citizen_id"], []. repeat split.
  - apply list_elem_of_here.
  - right. apply not_elem_of_nil.
Defined.

(** Claim C4 as stated fails: the correlation of ["r1"] is recorded, but
    the identity has meanwhile been associated with the node, and the
    second call is refused by the association check made before the
    lookup. *)
Lemma createNewIdentity_retry_refused :
  onboardDataByReferenceId
    (w_store (Scenario.world Scenario.correlated 99)) !! "r1"
  = Some {| od_request_id := "req-onboard"; od_accessor_id := "acc-random" |}
  ∧ createNewIdentity (Scenario.env 3 ["idp1"] true true)
      (Scenario.onboarding (num 2) "citizen_id" "r1")
      (Scenario.world Scenario.correlated 99)
    = (Throw IDENTITY_ALREADY_CREATED,
       Scenario.world Scenario.correlated 99, []).
Proof. split; vm_compute; reflexivity. Qed.

Lemma createNewIdentity_retry_witness :
  createNewIdentity (Scenario.env 3 [] true true)
    (Scenario.onboarding (num 2) "citizen_id" "r1")
    (Scenario.world Scenario.correlated 99)
  = (Ok {| res_request_id := "req-onboard"; res_exist := true;
           res_accessor_id := "acc-random" |},
     Scenario.world Scenario.correlated 99, []).
Proof.
  apply (createNewIdentity_retry (Scenario.env 3 [] true true)
           (Scenario.onboarding (num 2) "citizen_id" "r1")
           (Scenario.world Scenario.correlated 99)
           {| max_ial := num 3 |} true
           {| od_request_id := "req-onboard";
              od_accessor_id := "acc-random" |}).
  - apply scenario_passes_validations.
  - reflexivity.
  - vm_compute; reflexivity.
  - reflexivity.
  - vm_compute; reflexivity.
Defined.

(** Claim C5, the failing input: the identity is not associated with the
    node, and [updateIal] submits the IAL update all the same. *)
Theorem updateIal_unassociated_identity :
  checkAssociated (Scenario.env 3 [] true true) "citizen_id" "123"
    (Scenario.world empty_store 50)
  = (Ok false, Scenario.world empty_store 50, [])
  ∧ updateIal (Scenario.env 3 [] true true) "citizen_id" "123" (num 2)
      (Scenario.world empty_store 50)
    = (Ok tt, Scenario.world empty_store 50,
       [EvTx (TxUpdateIal "H(citizen_id:123)" (num 2))]).
Proof. split; vm_compute; reflexivity. Qed.

(** Claim C7 as stated fails: the requested ial 5 is above max_ial 3, but
    the namespace is not registered and the call fails on that check,
    which comes first. *)
Lemma ial_exceeded_unregistered_namespace :
  getNodeInfo (Scenario.env 3 [] false true) "idp1"
  = Replied {| max_ial := num 3 |}
  ∧ js_gt (num 5) (num 3) = true
  ∧ createNewIdentity (Scenario.env 3 [] false true)
      (Scenario.onboarding (num 5) "passport" "r1")
      (Scenario.world empty_store 50)
    = (Throw INVALID_NAMESPACE, Scenario.world empty_store 50, []).
Proof. repeat split; vm_compute; reflexivity. Qed.

Lemma ial_boundary_witness :
  updateIal (Scenario.env 3 [] false true) "citizen_id" "123" (num 5)
    (Scenario.world empty_store 50)
  = (Throw MAXIMUM_IAL_EXCEED, Scenario.world empty_store 50, [])
  ∧ log_of (updateIal (Scenario.env 3 [] false true) "citizen_id" "123"
              (num 3) (Scenario.world empty_store 50))
    = [EvTx (TxUpdateIal "H(citizen_id:123)" (num 3))]
  ∧ createNewIdentity (Scenario.env 3 [] false true)
      (Scenario.onboarding (num 5) "citizen_id" "r1")
      (Scenario.world empty_store 50)
    = (Throw MAXIMUM_IAL_EXCEED, Scenario.world empty_store 50, [])
  ∧ outcome_of (createNewIdentity (Scenario.env 3 [] false true)
                  (Scenario.onboarding (num 3) "citizen_id" "r1")
                  (Scenario.world empty_store 50))
    ≠ Throw MAXIMUM_IAL_EXCEED.
Proof.
  pose proof (ial_boundary (Scenario.env 3 [] false true)
                (Scenario.world empty_store 50) {| max_ial := num 3 |}
                eq_refl) as (Hup & Heq & Hnew & Hpass).
  split; [|split; [|split]].
  - apply Hup. vm_compute; reflexivity.
  - apply (Heq "citizen_id" "123").
  - apply Hnew; [apply scenario_passes_validations | vm_compute; reflexivity].
  - apply Hpass. reflexivity.
Defined.

(** ** Request creation on the RP (rp.js) *)

Section RpProperties.

Variable E : Env.

Lemma receiver_of_silent nodeId w :
  ∃ r, Rp.receiver_of E nodeId w = (r, w, []).
Proof.
  unfold Rp.receiver_of. mred.
  destruct (getNodePubKey E (Some nodeId)); mred; eauto.
Qed.

Lemma receivers_silent nodeIdList w :
  ∃ r, mapM (Rp.receiver_of E) nodeIdList w = (r, w, []).
Proof.
  induction nodeIdList as [|nodeId rest IH]; simpl; [by eexists|].
  rewrite run_bind.
  destruct (receiver_of_silent nodeId w) as [r ->].
  destruct r as [x|e]; [|by eexists].
  rewrite run_bind. destruct IH as [r' ->].
  destruct r' as [xs|e]; mred; by eexists.
Qed.

(** The fan-out to the IdPs sends at most one payload and touches
    nothing else. *)
Lemma sendRequestToIdps_effects (a : rp_request_args) request_id height w :
  ∃ l, Rp.sendRequestToIdps E a request_id height w = (Ok tt, w, l)
       ∧ (l = [] ∨ ∃ receivers payload, l = [EvMq receivers payload]).
Proof.
  unfold Rp.sendRequestToIdps, detached, catch.
  destruct (queryGetMsqDestination E
              (hash E (Some (ra_namespace a +:+ ":" +:+ ra_identifier a)))
              (ra_min_ial a)) as [idpList|] eqn:Hquery.
  - destruct (receivers_silent (default [] idpList) w) as [r Hr].
    destruct r as [receivers|e].
    + eexists. rewrite run_bind. mred. rewrite Hr. mred.
      split; [reflexivity|]. right. eauto.
    + exists []. rewrite run_bind. mred. rewrite Hr. mred.
      split; [reflexivity|by left].
  - exists []. rewrite run_bind. mred. split; [reflexivity|by left].
Qed.

#[local] Arguments Rp.sendRequestToIdps : simpl never.

(** Claim C8: when the CreateRequest transaction of a call is rejected,
    [createRequest] returns [false], the transaction is the last effect
    of the call, the reference and callback-url mappings are left as they
    were, and nothing is sent to the IdPs. *)
Theorem createRequest_rejected (a : rp_request_args) w tx nonce :
  EvRpTransact "CreateRequest" tx nonce ∈ log_of (Rp.createRequest E a w) →
  (rp_transact E "CreateRequest" tx nonce).1 = false →
  outcome_of (Rp.createRequest E a w) = Ok None
  ∧ rpRequestReferenceMapping (w_store (world_of (Rp.createRequest E a w)))
    = rpRequestReferenceMapping (w_store w)
  ∧ rpCallbackUrls (w_store (world_of (Rp.createRequest E a w)))
    = rpCallbackUrls (w_store w)
  ∧ (∀ receivers payload,
       EvMq receivers payload ∉ log_of (Rp.createRequest E a w))
  ∧ ∃ before,
      log_of (Rp.createRequest E a w)
      = before ++ [EvRpTransact "CreateRequest" tx nonce]
      ∧ ∀ e, e ∈ before → ∃ request_id d, e = EvDb (PutRpRequestsData request_id d).
Proof.
  remember (Rp.createRequest E a w) as run eqn:Hrun.
  unfold Rp.createRequest in Hrun. cbv zeta in Hrun.
  set (request_id := createRequestId E Rp.privKey a (getNonce E)) in Hrun.
  set (dataToBlockchain := Build_rp_create_request_tx _ _ _ _ _ _ _) in Hrun.
  set (stage := match ra_data_request_list a with
                | Some (_ :: _ as l) => db (PutRpRequestsData request_id _)
                | _ => mret tt
                end) in Hrun.
  assert (Hstage : ∃ before w1,
             stage w = (Ok tt, w1, before)
             ∧ rpRequestReferenceMapping (w_store w1)
               = rpRequestReferenceMapping (w_store w)
             ∧ rpCallbackUrls (w_store w1) = rpCallbackUrls (w_store w)
             ∧ ∀ e, e ∈ before →
                 ∃ request_id d, e = EvDb (PutRpRequestsData request_id d)).
  { subst stage. destruct (ra_data_request_list a) as [[|d l]|]; mred.
    - exists [], w. repeat split. intros e He. by apply elem_of_nil in He.
    - destruct w as [[]]. eexists _, _. repeat split.
      intros e He. apply list_elem_of_singleton in He. eauto.
    - exists [], w. repeat split. intros e He. by apply elem_of_nil in He. }
  destruct Hstage as (before & w1 & Hstage & Hmap & Hurl & Hbefore).
  rewrite run_bind in Hrun. unfold db_get, read in Hrun.
  destruct (truthy_str _).
  { subst run. simpl. intros Hin. by apply elem_of_nil in Hin. }
  rewrite run_bind, Hstage in Hrun. rewrite run_bind in Hrun.
  unfold emit at 1 in Hrun.
  destruct (rp_transact E "CreateRequest" dataToBlockchain (getNonce E))
    as [success height] eqn:Htransact.
  destruct success; cbn [negb] in Hrun.
  - (* accepted: the rejected transaction is not of this call *)
    destruct (sendRequestToIdps_effects a request_id height
                (with_store
                   (apply_db (PutRpCallbackUrls request_id (ra_callback_url a)))
                   (with_store
                      (apply_db (PutRpRequestReferenceMapping
                                   (ra_reference_id a) request_id))
                      w1))) as (sent & Hsend & Hsent).
    rewrite !run_bind in Hrun. unfold db at 1 in Hrun.
    rewrite run_bind in Hrun. unfold db at 1 in Hrun.
    rewrite run_bind, Hsend in Hrun. subst run.
    mred. intros Hin Hrej. exfalso.
    rewrite elem_of_app, !elem_of_cons in Hin.
    destruct Hin as [Hin | [Hin | [Hin | [Hin | Hin]]]].
    + apply Hbefore in Hin as (? & ? & ?). discriminate.
    + injection Hin as -> ->. rewrite Htransact in Hrej. discriminate.
    + discriminate.
    + discriminate.
    + rewrite app_nil_r in Hin.
      destruct Hsent as [-> | (? & ? & ->)].
      * by apply elem_of_nil in Hin.
      * apply list_elem_of_singleton in Hin. discriminate.
  - subst run. mred. intros Hin Hrej.
    rewrite elem_of_app, list_elem_of_singleton in Hin.
    assert (tx = dataToBlockchain ∧ nonce = getNonce E) as [-> ->].
    { destruct Hin as [Hin | Hin].
      - apply Hbefore in Hin as (? & ? & ?). discriminate.
      - by injection Hin. }
    split; [reflexivity|]. split; [exact Hmap|]. split; [exact Hurl|]. split.
    + intros receivers payload Hmq.
      rewrite elem_of_app, list_elem_of_singleton in Hmq.
      destruct Hmq as [Hmq | Hmq]; [|discriminate].
      apply Hbefore in Hmq as (? & ? & ?). discriminate.
    + exists before. split; [reflexivity | exact Hbefore].
Qed.

End RpProperties.

(** ** Response creation (idp.js) *)

Section ResponseProperties.

Variable E : Env.

Lemma checkMode3_run data w :
  ∃ r, checkMode3 E data w = (r, w, [])
       ∧ ∀ accessor_id secret,
           r = Ok (accessor_id, secret) →
           rs_accessor_id data = Some accessor_id
           ∧ rs_secret data = Some secret
           ∧ ∃ publicKey,
               getAccessorKey E (Some accessor_id) = Replied (Some publicKey).
Proof.
  unfold checkMode3.
  destruct (rs_accessor_id data) as [accessor_id|];
    [|eexists; split; [reflexivity|discriminate]].
  destruct (rs_secret data) as [secret|];
    [|eexists; split; [reflexivity|discriminate]].
  rewrite run_bind.
  destruct (getAccessorKey E (Some accessor_id)) as [[publicKey|]|] eqn:Hkey;
    mred; eexists; (split; [reflexivity|]); try discriminate.
  intros ? ? [= <- <-]. eauto.
Qed.

Lemma generateProofs_run accessor_id secret k challenge i w :
  ∃ r, generateProofs E accessor_id secret k i challenge w = (r, w, [])
       ∧ ∀ proofs publicKey,
           r = Ok proofs →
           getAccessorKey E (Some accessor_id) = Replied publicKey →
           proofs = identityProofs E publicKey secret (default [] k) i challenge.
Proof.
  revert i w. induction challenge as [|c rest IH]; intros i w; simpl.
  { eexists; split; [reflexivity|]. by intros ? ? [= <-] _. }
  rewrite run_bind.
  destruct (getAccessorKey E (Some accessor_id)) as [publicKey|] eqn:Hkey;
    [|mred; eexists; split; [reflexivity|discriminate]].
  destruct k as [ks|]; [|mred; eexists; split; [reflexivity|discriminate]].
  destruct (IH (S i) w) as (r & Hrun & Hproofs).
  mred. rewrite Hrun. destruct r as [proofs|e]; mred.
  - eexists; split; [reflexivity|].
    intros ? ? [= <-] [= <-]. unfold identityProofs. simpl.
    rewrite Nat.add_0_r. f_equal.
    rewrite (Hproofs proofs publicKey eq_refl eq_refl).
    unfold identityProofs. apply imap_ext. intros j x _. simpl.
    by rewrite Nat.add_succ_r.
  - eexists; split; [reflexivity|discriminate].
Qed.

Lemma mode3Response_run data accessor_id secret w :
  ∃ r, mode3Response E data accessor_id secret w = (r, w, [])
       ∧ ∀ d p publicKey,
           r = Ok (d, p) →
           getAccessorKey E (Some accessor_id) = Replied publicKey →
           ∃ request challenge,
             requestReceivedFromMQ (w_store w) !! rs_request_id data
             = Some request
             ∧ m_challenge (sr_message request) = Some challenge
             ∧ let proofs :=
                 identityProofs E publicKey secret (default [] (sr_k request))
                   0 challenge in
               d = Some (ledgerResponse E data proofs)
               ∧ p = Some (transportProof accessor_id proofs).
Proof.
  unfold mode3Response. rewrite run_bind. unfold db_get, read.
  destruct (requestReceivedFromMQ (w_store w) !! rs_request_id data)
    as [request|] eqn:Hrequest;
    [|mred; eexists; split; [reflexivity|discriminate]].
  destruct (m_challenge (sr_message request)) as [challenge|] eqn:Hchallenge;
    [|mred; eexists; split; [reflexivity|discriminate]].
  destruct (generateProofs_run accessor_id secret (sr_k request) challenge
              0%nat w) as (r & Hrun & Hproofs).
  mred. rewrite Hrun. destruct r as [proofs|e]; mred.
  - eexists; split; [reflexivity|].
    intros d p publicKey [= <- <-] Hkey. exists request, challenge.
    rewrite <- (Hproofs proofs publicKey eq_refl Hkey). done.
  - eexists; split; [reflexivity|discriminate].
Qed.

Lemma prepareResponse_run data mode w :
  ∃ r, prepareResponse E data mode w = (r, w, [])
       ∧ (mode = 1 → r = Ok (Some (mode1Response data), None))
       ∧ (mode = 3 →
          ∀ d p,
            r = Ok (d, p) →
            ∃ accessor_id secret publicKey request challenge,
              rs_accessor_id data = Some accessor_id
              ∧ rs_secret data = Some secret
              ∧ getAccessorKey E (Some accessor_id) = Replied (Some publicKey)
              ∧ requestReceivedFromMQ (w_store w) !! rs_request_id data
                = Some request
              ∧ m_challenge (sr_message request) = Some challenge
              ∧ let proofs :=
                  identityProofs E (Some publicKey) secret
                    (default [] (sr_k request)) 0 challenge in
                d = Some (ledgerResponse E data proofs)
                ∧ p = Some (transportProof accessor_id proofs)).
Proof.
  unfold prepareResponse. rewrite run_bind.
  destruct (bool_decide (mode = 3)) eqn:Hmode.
  - apply bool_decide_eq_true in Hmode. subst mode.
    destruct (checkMode3_run data w) as (r & Hrun & Hchecked).
    rewrite run_bind, Hrun.
    destruct r as [[accessor_id secret]|e];
      [|mred; eexists; split; [reflexivity|split; [done|discriminate]]].
    destruct (Hchecked accessor_id secret eq_refl)
      as (Hacc & Hsec & publicKey & Hkey).
    destruct (mode3Response_run data accessor_id secret w)
      as (r & Hrun3 & Hbuilt).
    mred. rewrite Hrun3. destruct r as [[d p]|e]; mred.
    + eexists; split; [reflexivity|]. split; [done|].
      intros _ ? ? [= <- <-].
      destruct (Hbuilt d p (Some publicKey) eq_refl Hkey)
        as (request & challenge & Hreq & Hch & Hd & Hp).
      exists accessor_id, secret, publicKey, request, challenge. done.
    + eexists; split; [reflexivity|]. split; [done|discriminate].
  - apply bool_decide_eq_false in Hmode. mred.
    destruct (bool_decide (mode = 1)) eqn:Hmode1; mred;
      eexists; (split; [reflexivity|]); split; try done.
    apply bool_decide_eq_false in Hmode1. done.
Qed.

(** The run of [createIdpResponse] on the client's data, for a request
    the ledger knows: nothing happens while the response is prepared;
    then the two removals, the transaction and, when the ledger accepts
    it, the hand-over of the object for the RP. *)
Lemma createIdpResponse_run data mode w :
  getRequest E (rs_request_id data) = Replied (Some mode) →
  ∃ r, prepareResponse E data mode w = (r, w, [])
       ∧ createIdpResponse E (Some data) w
         = match r with
           | Throw e => (Throw (CannotCreateIdpResponse e), w, [])
           | Ok (d, p) =>
               let request_id := rs_request_id data in
               let removed :=
                 [EvDb (RemoveRequestReceivedFromMQ request_id);
                  EvDb (RemoveResponseFromRequestId request_id);
                  EvTx (TxCreateIdpResponse d)] in
               match submit E (TxCreateIdpResponse d) with
               | Replied height =>
                   (Ok tt, responseStateRemoved request_id w,
                    removed ++ [EvSpawn (TSendPrivateProofToRP request_id p height)])
               | Rejected =>
                   (Throw (CannotCreateIdpResponse ExternalCallRejected),
                    responseStateRemoved request_id w, removed)
               end
           end.
Proof.
  intros Hmode.
  destruct (prepareResponse_run data mode w) as (r & Hrun & _).
  exists r. split; [exact Hrun|].
  unfold createIdpResponse, catch. rewrite run_bind, Hmode.
  unfold ask at 1. mred. rewrite Hrun.
  destruct r as [[d p]|e]; mred; [|reflexivity].
  unfold transact. mred.
  destruct (submit E (TxCreateIdpResponse d)); mred; reflexivity.
Qed.

Lemma sendPrivateProofToRP_run request_id ppo height w :
  let rp_id := mjoin (rpIdFromRequestId (w_store w) !! request_id) in
  (∃ e, sendPrivateProofToRP E request_id ppo height w = (Throw e, w, []))
  ∨ ∃ ip port public_key,
      getMsqAddress E rp_id = Replied (Some (ip, port))
      ∧ getNodePubKey E rp_id = Replied public_key
      ∧ sendPrivateProofToRP E request_id ppo height w
        = (Ok tt,
           with_store (apply_db (RemoveRPIdFromRequestId request_id)) w,
           [EvMq [{| rc_ip := ip; rc_port := port;
                     rc_public_key := public_key |}]
              (MqPrivateProof request_id ppo height (nodeId E));
            EvDb (RemoveRPIdFromRequestId request_id)]).
Proof.
  intros rp_id. unfold sendPrivateProofToRP. rewrite run_bind.
  unfold db_get, read. fold rp_id.
  destruct (getMsqAddress E rp_id) as [[[ip port]|]|] eqn:Haddr; mred;
    [|left; eauto..].
  destruct (getNodePubKey E rp_id) as [public_key|] eqn:Hkey; mred;
    [|left; eauto].
  right. exists ip, port, public_key. done.
Qed.

Lemma responseStateRemoved_lookup request_id w :
  requestReceivedFromMQ (w_store (responseStateRemoved request_id w))
    !! request_id = None
  ∧ responseFromRequestId (w_store (responseStateRemoved request_id w))
      !! request_id = None.
Proof.
  destruct w as [[] ? ?]. simpl. split; apply lookup_delete_eq.
Qed.

(** The send to the RP when the ledger knows its address and answers
    for its key. *)
Lemma sendPrivateProofToRP_sent request_id ppo height w ip port public_key :
  let rp_id := mjoin (rpIdFromRequestId (w_store w) !! request_id) in
  getMsqAddress E rp_id = Replied (Some (ip, port)) →
  getNodePubKey E rp_id = Replied public_key →
  sendPrivateProofToRP E request_id ppo height w
  = (Ok tt,
     with_store (apply_db (RemoveRPIdFromRequestId request_id)) w,
     [EvMq [{| rc_ip := ip; rc_port := port; rc_public_key := public_key |}]
        (MqPrivateProof request_id ppo height (nodeId E));
      EvDb (RemoveRPIdFromRequestId request_id)]).
Proof.
  intros rp_id Haddr Hkey.
  destruct (sendPrivateProofToRP_run request_id ppo height w)
    as [[e Hthrow] | (ip' & port' & public_key' & Haddr' & Hkey' & ->)].
  - exfalso. revert Hthrow. unfold sendPrivateProofToRP. rewrite run_bind.
    unfold db_get, read. fold rp_id. rewrite Haddr. mred.
    rewrite Hkey. mred. discriminate.
  - fold rp_id in Haddr', Hkey'. congruence.
Qed.

(** Claim C3, amended: the transaction a mode-3 response submits to the
    ledger is made of the client's request_id, aal, ial, status and
    signature, of the array of blockchain proofs and of the hash of the
    array of private proof values.  The private proof values, with the
    accessor_id and the padding, are only in the object handed to
    [sendPrivateProofToRP], which is started when the ledger has accepted
    the transaction and submits no transaction itself.  When the ledger
    gives the message-queue address of the RP recorded for the request
    and answers for its key, [sendPrivateProofToRP] sends that object,
    once, to that address; otherwise it throws and sends nothing. *)
Theorem mode3_private_proofs_off_ledger data w tx :
  getRequest E (rs_request_id data) = Replied (Some 3) →
  EvTx tx ∈ log_of (createIdpResponse E (Some data) w) →
  ∃ accessor_id secret publicKey request challenge,
    rs_accessor_id data = Some accessor_id
    ∧ rs_secret data = Some secret
    ∧ getAccessorKey E (Some accessor_id) = Replied (Some publicKey)
    ∧ requestReceivedFromMQ (w_store w) !! rs_request_id data = Some request
    ∧ m_challenge (sr_message request) = Some challenge
    ∧ let request_id := rs_request_id data in
      let proofs :=
        identityProofs E (Some publicKey) secret (default [] (sr_k request))
          0 challenge in
      let ppo := Some (transportProof accessor_id proofs) in
      tx = TxCreateIdpResponse (Some (ledgerResponse E data proofs))
      ∧ log_of (createIdpResponse E (Some data) w)
        = [EvDb (RemoveRequestReceivedFromMQ request_id);
           EvDb (RemoveResponseFromRequestId request_id);
           EvTx tx]
          ++ match submit E tx with
             | Replied height =>
                 [EvSpawn (TSendPrivateProofToRP request_id ppo height)]
             | Rejected => []
             end
      ∧ ∀ height w',
          let rp_id := mjoin (rpIdFromRequestId (w_store w') !! request_id) in
          let send :=
            run_task E (TSendPrivateProofToRP request_id ppo height) w' in
          (∀ tx', EvTx tx' ∉ log_of send)
          ∧ (∀ ip port public_key,
               getMsqAddress E rp_id = Replied (Some (ip, port)) →
               getNodePubKey E rp_id = Replied public_key →
               send
               = (Ok tt,
                  with_store (apply_db (RemoveRPIdFromRequestId request_id))
                    w',
                  [EvMq [{| rc_ip := ip; rc_port := port;
                            rc_public_key := public_key |}]
                     (MqPrivateProof request_id ppo height (nodeId E));
                   EvDb (RemoveRPIdFromRequestId request_id)]))
          ∧ ((∀ ip port, getMsqAddress E rp_id ≠ Replied (Some (ip, port)))
             ∨ getNodePubKey E rp_id = Rejected →
             ∃ e, send = (Throw e, w', []))
          ∧ ∀ receivers payload,
              EvMq receivers payload ∈ log_of send →
              payload = MqPrivateProof request_id ppo height (nodeId E)
              ∧ ∃ ip port public_key,
                  getMsqAddress E rp_id = Replied (Some (ip, port))
                  ∧ receivers = [{| rc_ip := ip; rc_port := port;
                                    rc_public_key := public_key |}].
Proof.
  intros Hmode Hin.
  destruct (createIdpResponse_run data 3 w Hmode) as (r & Hprep & Hrun).
  destruct (prepareResponse_run data 3 w) as (r' & Hprep' & _ & Hbuilt).
  rewrite Hprep in Hprep'. injection Hprep' as <-.
  rewrite Hrun in Hin |- *. clear Hrun.
  destruct r as [[d p]|e]; [|by apply elem_of_nil in Hin].
  destruct (Hbuilt eq_refl d p eq_refl)
    as (accessor_id & secret & publicKey & request & challenge
        & Hacc & Hsec & Hkey & Hreq & Hch & -> & ->).
  exists accessor_id, secret, publicKey, request, challenge.
  do 5 (split; [assumption|]). cbv zeta in Hin |- *.
  set (proofs := identityProofs E (Some publicKey) secret _ 0 challenge) in *.
  set (sent := TxCreateIdpResponse (Some (ledgerResponse E data proofs))) in *.
  assert (tx = sent) as ->.
  { destruct (submit E sent); unfold log_of in Hin; simpl in Hin;
      elem_cases Hin; try discriminate; try done; by injection Hin. }
  split; [reflexivity|]. split.
  - by destruct (submit E sent) as [height|].
  - intros height w'. cbn [run_task].
    split; [|split; [|split]].
    + destruct (sendPrivateProofToRP_run (rs_request_id data)
                  (Some (transportProof accessor_id proofs)) height w')
        as [[e ->] | (ip & port & public_key & _ & _ & ->)];
        unfold log_of; simpl; intros tx' Hin'.
      * by apply elem_of_nil in Hin'.
      * elem_cases Hin'; try discriminate; done.
    + intros ip port public_key Haddr Hpub.
      by apply sendPrivateProofToRP_sent.
    + intros Hmissing.
      destruct (sendPrivateProofToRP_run (rs_request_id data)
                  (Some (transportProof accessor_id proofs)) height w')
        as [[e ->] | (ip & port & public_key & Haddr & Hpub & _)];
        [by exists e|].
      destruct Hmissing as [Hnone | Hrejected].
      * by destruct (Hnone ip port).
      * congruence.
    + destruct (sendPrivateProofToRP_run (rs_request_id data)
                  (Some (transportProof accessor_id proofs)) height w')
        as [[e ->] | (ip & port & public_key & Haddr & Hpub & ->)];
        unfold log_of; simpl; intros receivers payload Hin'.
      * by apply elem_of_nil in Hin'.
      * elem_cases Hin'; try discriminate; try done.
        injection Hin' as -> ->. split; [reflexivity|]. eauto.
Qed.

(** Claim C6, amended: in every mode, and always in mode 1, a response
    that reaches the ledger has removed the record of the request and the
    staged response data before it submits its transaction, and they stay
    removed whether the ledger confirms the transaction or rejects it; a
    response that fails earlier removes nothing. *)
Theorem response_state_removed_before_submission data mode w :
  getRequest E (rs_request_id data) = Replied (Some mode) →
  let request_id := rs_request_id data in
  let run := createIdpResponse E (Some data) w in
  ((log_of run = [] ∧ world_of run = w ∧ mode ≠ 1)
   ∨ ∃ tx after,
       log_of run
       = [EvDb (RemoveRequestReceivedFromMQ request_id);
          EvDb (RemoveResponseFromRequestId request_id);
          EvTx tx] ++ after
       ∧ (after = []
          ∨ ∃ ppo height,
              submit E tx = Replied height
              ∧ after = [EvSpawn (TSendPrivateProofToRP request_id ppo height)])
       ∧ requestReceivedFromMQ (w_store (world_of run)) !! request_id = None
       ∧ responseFromRequestId (w_store (world_of run)) !! request_id = None).
Proof.
  intros Hmode request_id run. subst run request_id.
  destruct (createIdpResponse_run data mode w Hmode) as (r & Hprep & ->).
  destruct (prepareResponse_run data mode w) as (r' & Hprep' & Hmode1 & _).
  rewrite Hprep in Hprep'. injection Hprep' as <-.
  destruct r as [[d p]|e].
  - right. exists (TxCreateIdpResponse d). cbv zeta.
    destruct (submit E (TxCreateIdpResponse d)) as [height|] eqn:Hsubmit;
      unfold log_of, world_of; simpl.
    + eexists. split; [reflexivity|]. split; [right; eauto|].
      apply responseStateRemoved_lookup.
    + exists []. split; [reflexivity|]. split; [by left|].
      apply responseStateRemoved_lookup.
  - left. unfold log_of, world_of; simpl. repeat split.
    intros ->. by specialize (Hmode1 eq_refl).
Qed.

End ResponseProperties.

(** ** Messages and block headers (idp.js) *)

Section MessageProperties.

Variable E : Env.

(** A dispatch is one hand-over; it leaves the buffers of the handler
    and the records of the requests as they are. *)
Lemma dispatch_frame m w :
  ∃ r w' l,
    dispatch E m w = (r, w', l)
    ∧ dispatched l = [m]
    ∧ requestReceivedFromMQ (w_store w') = requestReceivedFromMQ (w_store w)
    ∧ requestToProcessReceivedFromMQ (w_store w')
      = requestToProcessReceivedFromMQ (w_store w)
    ∧ requestIdsExpectedInBlock (w_store w')
      = requestIdsExpectedInBlock (w_store w)
    ∧ w_latestBlockHeight w' = w_latestBlockHeight w
    ∧ w_callbackUrls w' = w_callbackUrls w.
Proof.
  destruct w as [[] latest urls].
  unfold dispatch, checkOnboardResponse, addAccessorAfterConsent,
    transact_all, notifyAddAccessorResultByCallback,
    notifyCreateIdentityResultByCallback, notifyIncomingRequestByCallback,
    notifyByCallback.
  mred.
  repeat (case_inner; mred);
    eexists _, _, _; (split; [reflexivity|]); done.
Qed.

#[local] Arguments dispatch : simpl never.

Lemma handleMessageFromQueue_buffered m w :
  m_challenge m = None →
  (w_latestBlockHeight w ≤ m_height m)%Z →
  ∃ w' l,
    handleMessageFromQueue E m w = (Ok tt, w', l)
    ∧ stored_only l
    ∧ dispatched l = []
    ∧ requestToProcessReceivedFromMQ (w_store w')
      = <[m_request_id m := m]> (requestToProcessReceivedFromMQ (w_store w))
    ∧ requestIdsExpectedInBlock (w_store w')
      = requestIdsExpectedInBlock (w_store w) ++ [(m_height m, m_request_id m)]
    ∧ w_latestBlockHeight w' = w_latestBlockHeight w.
Proof.
  intros Hchallenge Hheight. apply Z.leb_le in Hheight.
  destruct w as [[] latest urls]. simpl in Hheight.
  unfold handleMessageFromQueue. rewrite Hchallenge. mred.
  destruct (bool_decide (m_type m = Some "request_challenge")); mred;
    rewrite Hheight; mred;
    destruct (truthy_str (m_accessor_id m)); mred;
    try (destruct (requestData0 !! m_request_id m); mred);
    eexists _, _; (split; [reflexivity|]);
    (split; [intros e He; elem_cases He; subst; eauto; done|]); done.
Qed.

Lemma handleMessageFromQueue_immediate m w :
  m_challenge m = None →
  (m_height m < w_latestBlockHeight w)%Z →
  ∃ r w' l,
    handleMessageFromQueue E m w = (r, w', l)
    ∧ dispatched l = [m]
    ∧ requestToProcessReceivedFromMQ (w_store w')
      = delete (m_request_id m)
          (<[m_request_id m := m]>
             (requestToProcessReceivedFromMQ (w_store w)))
    ∧ requestIdsExpectedInBlock (w_store w')
      = requestIdsExpectedInBlock (w_store w).
Proof.
  intros Hchallenge Hheight. apply Z.leb_gt in Hheight.
  unfold handleMessageFromQueue. rewrite Hchallenge.
  set (received :=
         if negb (bool_decide (m_type m = Some "request_challenge"))
         then db (SetRequestReceivedFromMQ (m_request_id m)
                    {| sr_message := m; sr_k := None |})
         else mret tt).
  assert (∃ w1 l1,
             received w = (Ok tt, w1, l1)
             ∧ dispatched l1 = []
             ∧ requestToProcessReceivedFromMQ (w_store w1)
               = requestToProcessReceivedFromMQ (w_store w)
             ∧ requestIdsExpectedInBlock (w_store w1)
               = requestIdsExpectedInBlock (w_store w)
             ∧ w_latestBlockHeight w1 = w_latestBlockHeight w)
    as (w1 & l1 & Hreceived & Hl1 & Hbuffer & Hexpected & Hlatest).
  { subst received. destruct w as [[] ? ?].
    destruct (negb _); mred; eexists _, _; done. }
  set (w2 := with_store
               (apply_db (RemoveRequestToProcessReceivedFromMQ (m_request_id m)))
               (with_store
                  (apply_db (SetRequestToProcessReceivedFromMQ
                               (m_request_id m) m)) w1)).
  destruct (dispatch_frame m w2)
    as (r & w' & l & Hrun & Hl & _ & Hbuffer' & Hexpected' & _).
  exists r, w', (l1 ++ [EvDb (SetRequestToProcessReceivedFromMQ (m_request_id m) m);
                        EvDb (RemoveRequestToProcessReceivedFromMQ (m_request_id m))]
                    ++ l).
  split.
  - rewrite run_bind, Hreceived. rewrite run_bind. unfold db at 1.
    rewrite run_bind. unfold read at 1.
    replace (w_latestBlockHeight _ <=? m_height m)%Z with false
      by (destruct w1 as [[] ? ?]; simpl in *; congruence).
    rewrite run_bind. unfold db at 1. fold w2. rewrite Hrun.
    reflexivity.
  - unfold dispatched in *. rewrite !omap_app, Hl1, Hl. simpl.
    split; [reflexivity|].
    rewrite Hbuffer', Hexpected'. subst w2.
    destruct w1 as [[] ? ?]. simpl in *.
    split; congruence.
Qed.

(** The effects of a computation come first in those of what is bound to
    it. *)
Lemma log_of_bind {A B} (m : M A) (f : A → M B) w e :
  e ∈ log_of (m w) → e ∈ log_of ((m ≫= f) w).
Proof.
  rewrite run_bind. destruct (m w) as [[[a|err] w1] l1]; [|done].
  destruct (f a w1) as [[r w2] l2]. unfold log_of. simpl.
  intros Hin. apply elem_of_app. by left.
Qed.

Lemma log_of_emit_bind {B} (e : event) (k : M B) w :
  log_of ((emit e;; k) w) = e :: log_of (k w).
Proof.
  rewrite run_bind. unfold emit. by destruct (k w) as [[? ?] ?].
Qed.

Lemma checkOnboardResponse_removes m w response_list verified :
  getRequestDetail E (m_request_id m) = Replied (Some response_list) →
  verifyZKProof E (m_request_id m) (m_idp_id m) m 3 = Replied verified →
  verified = false ∨ response_list ≠ [] →
  EvDb (RemoveChallengeFromRequestId (m_request_id m))
  ∈ log_of (checkOnboardResponse E m w).
Proof.
  intros Hdetail Hverified Hcases. unfold checkOnboardResponse.
  rewrite run_bind, Hdetail. mred. rewrite Hverified. mred.
  unfold notifyAddAccessorResultByCallback, notifyByCallback.
  destruct verified; mred.
  - destruct response_list as [|status rest]; [by destruct Hcases|].
    mred. repeat (case_inner; mred);
      rewrite ?elem_of_cons; auto.
  - repeat (case_inner; mred); rewrite ?elem_of_cons; auto.
Qed.

Lemma handed_over_weaken urls m l l' :
  (∀ e, e ∈ l → e ∈ l') → handed_over E urls m l → handed_over E urls m l'.
Proof.
  intros Hsub. unfold handed_over.
  destruct (truthy_str (m_accessor_id m));
    [|destruct (bool_decide (m_type m = Some "request_challenge"))];
    intros [Hmark Heffect]; (split; [by apply Hsub|]).
  - intros response_list verified ? ? ?. by eapply Hsub, Heffect.
  - by apply Hsub.
  - intros ? ?. by apply Hsub, Heffect.
Qed.

Lemma handed_over_app_l urls m l l' :
  handed_over E urls m l → handed_over E urls m (l ++ l').
Proof.
  apply handed_over_weaken. intros e He. apply elem_of_app. by left.
Qed.

Lemma handed_over_app_r urls m l l' :
  handed_over E urls m l' → handed_over E urls m (l ++ l').
Proof.
  apply handed_over_weaken. intros e He. apply elem_of_app. by right.
Qed.

(** What a dispatch has the protocol handler of the message do. *)
Lemma dispatch_handed_over m w :
  handed_over E (w_callbackUrls w) m (log_of (dispatch E m w)).
Proof.
  unfold handed_over, dispatch.
  destruct (truthy_str (m_accessor_id m)).
  - rewrite log_of_emit_bind. split; [apply list_elem_of_here|].
    intros response_list verified Hdetail Hverified Hcases.
    apply list_elem_of_further, log_of_bind.
    by apply (checkOnboardResponse_removes m w response_list verified).
  - destruct (bool_decide (m_type m = Some "request_challenge")).
    + mred. rewrite !elem_of_cons. auto.
    + unfold notifyIncomingRequestByCallback. rewrite run_bind.
      unfold emit at 1. cbv iota beta. rewrite run_bind.
      destruct (checkRequestIntegrity E (m_request_id m) m) as [[]|];
        mred.
      * destruct (negb _) eqn:Hurl; mred.
        -- split; [apply list_elem_of_here|]. intros _ Htruthy.
           rewrite Htruthy in Hurl. discriminate.
        -- split; [apply list_elem_of_here|]. intros _ _.
           apply list_elem_of_further, list_elem_of_here.
      * split; [apply list_elem_of_here|]. discriminate.
      * split; [apply list_elem_of_here|]. discriminate.
Qed.


Lemma mapM_getRequestToProcess ids w :
  mapM getRequestToProcess ids w
  = (Ok ((λ id, requestToProcessReceivedFromMQ (w_store w) !! id) <$> ids),
     w, []).
Proof.
  induction ids as [|id rest IH]; simpl; [done|].
  rewrite run_bind. unfold getRequestToProcess at 1, db_get, read.
  cbv beta iota. rewrite run_bind, IH. reflexivity.
Qed.

Lemma mapM_removeRequestToProcess ids w :
  ∃ done w',
    mapM removeRequestToProcess ids w
    = (Ok done, w',
       (λ id, EvDb (RemoveRequestToProcessReceivedFromMQ id)) <$> ids)
    ∧ requestToProcessReceivedFromMQ (w_store w')
      = foldl (λ buffer id, delete id buffer)
          (requestToProcessReceivedFromMQ (w_store w)) ids
    ∧ requestIdsExpectedInBlock (w_store w')
      = requestIdsExpectedInBlock (w_store w)
    ∧ requestReceivedFromMQ (w_store w') = requestReceivedFromMQ (w_store w)
    ∧ w_callbackUrls w' = w_callbackUrls w.
Proof.
  revert w. induction ids as [|id rest IH]; intros w; simpl.
  { by eexists _, _. }
  rewrite run_bind. unfold removeRequestToProcess at 1, db.
  cbv beta iota. rewrite run_bind.
  destruct (IH (with_store
                  (apply_db (RemoveRequestToProcessReceivedFromMQ id)) w))
    as (done & w' & -> & Hb & He & Hr & Hu).
  eexists _, _. split; [unfold mret, M_ret; simpl; by rewrite app_nil_r|].
  destruct w as [[] ? ?]. simpl in *. done.
Qed.

Lemma omap_id_fmap {A B} (f : A → option B) (l : list A) :
  omap id (f <$> l) = omap f l.
Proof.
  induction l as [|a rest IH]; [done|].
  rewrite fmap_cons. cbn [omap list_omap]. rewrite <- IH.
  by destruct (f a).
Qed.

Lemma promiseAll_cons promise rest w :
  promiseAll (promise :: rest) w
  = let '(r1, w1, l1) := promise w in
    let '(r2, w2, l2) := promiseAll rest w1 in
    (match r1 with
     | Throw e => Throw e
     | Ok _ => r2
     end, w2, l1 ++ l2).
Proof. reflexivity. Qed.

(** The hand-overs of a replay: every message found is dispatched, in
    the order of the list; a request id without a message rejects. *)
Lemma promiseAll_processRequest messages w :
  ∃ r w' l,
    promiseAll (processRequest E <$> messages) w = (r, w', l)
    ∧ dispatched l = omap id messages
    ∧ (∀ m, Some m ∈ messages → handed_over E (w_callbackUrls w) m l)
    ∧ (None ∈ messages → r ≠ Ok tt)
    ∧ requestToProcessReceivedFromMQ (w_store w')
      = requestToProcessReceivedFromMQ (w_store w)
    ∧ requestIdsExpectedInBlock (w_store w')
      = requestIdsExpectedInBlock (w_store w)
    ∧ requestReceivedFromMQ (w_store w') = requestReceivedFromMQ (w_store w)
    ∧ w_callbackUrls w' = w_callbackUrls w.
Proof.
  revert w. induction messages as [|message rest IH]; intros w.
  { eexists _, _, _. split; [reflexivity|]. split; [done|].
    split; [by intros m ?%elem_of_nil|].
    split; [by intros ?%elem_of_nil|]. done. }
  assert (∃ r1 w1 l1,
             processRequest E message w = (r1, w1, l1)
             ∧ dispatched l1 = omap id [message]
             ∧ (∀ m, message = Some m →
                     handed_over E (w_callbackUrls w) m l1)
             ∧ (message = None → r1 ≠ Ok tt)
             ∧ requestToProcessReceivedFromMQ (w_store w1)
               = requestToProcessReceivedFromMQ (w_store w)
             ∧ requestIdsExpectedInBlock (w_store w1)
               = requestIdsExpectedInBlock (w_store w)
             ∧ requestReceivedFromMQ (w_store w1)
               = requestReceivedFromMQ (w_store w)
             ∧ w_callbackUrls w1 = w_callbackUrls w)
    as (r1 & w1 & l1 & Hrun1 & Hl1 & Hh1 & Hn1 & Hb1 & He1 & Hr1 & Hu1).
  { destruct message as [m|]; simpl.
    - pose proof (dispatch_handed_over m w) as Hhanded.
      destruct (dispatch_frame m w)
        as (r1 & w1 & l1 & Hrun & Hl1 & Hr1 & Hb1 & He1 & _ & Hu1).
      rewrite Hrun in Hhanded |- *. eexists _, _, _.
      split; [reflexivity|]. split; [exact Hl1|].
      split; [by intros ? [= <-]|]. done.
    - eexists _, _, _. split; [reflexivity|]. split; [done|].
      split; [done|]. done. }
  destruct (IH w1) as (r2 & w2 & l2 & Hrun2 & Hl2 & Hh2 & Hn2 & Hb2 & He2 & Hr2
                       & Hu2).
  rewrite fmap_cons, promiseAll_cons, Hrun1, Hrun2.
  eexists _, _, _. split; [reflexivity|].
  split.
  { unfold dispatched in *. rewrite omap_app, Hl1, Hl2.
    by destruct message. }
  split.
  { intros m [<- | Hin]%elem_of_cons.
    - eapply handed_over_app_l. by apply Hh1.
    - eapply handed_over_app_r. rewrite <- Hu1. by apply Hh2. }
  split.
  { intros [<- | Hin]%elem_of_cons.
    - destruct r1 as [[]|e]; [by specialize (Hn1 eq_refl)|done].
    - destruct r1 as [[]|e]; [by apply Hn2|done]. }
  repeat split; congruence.
Qed.


(** The run of the block-header handler, stage by stage: the removals of
    the request ids of the window, the hand-overs of the messages read
    when the handler started, and the purge of the rows of the window
    when no hand-over rejected. *)
Lemma handleTendermintNewBlockHeaderEvent_stages height missingBlockCount w :
  let fromHeight := (replayWindow height missingBlockCount).1 in
  let toHeight := (replayWindow height missingBlockCount).2 in
  let ids := getRequestIdsExpectedInBlock fromHeight toHeight (w_store w) in
  let buffer := requestToProcessReceivedFromMQ (w_store w) in
  let removals :=
    (λ id, EvDb (RemoveRequestToProcessReceivedFromMQ id)) <$> ids in
  ∃ r w1 handovers,
    handleTendermintNewBlockHeaderEvent E height missingBlockCount w
    = match r with
      | Ok _ =>
          (Ok tt,
           with_store
             (apply_db (RemoveRequestIdsExpectedInBlock fromHeight toHeight))
             w1,
           removals ++ handovers
           ++ [EvDb (RemoveRequestIdsExpectedInBlock fromHeight toHeight)])
      | Throw e => (Throw e, w1, removals ++ handovers)
      end
    ∧ dispatched handovers = replayed buffer ids
    ∧ (∀ m, m ∈ replayed buffer ids →
            handed_over E (w_callbackUrls w) m handovers)
    ∧ (∀ id, id ∈ ids → buffer !! id = None → r ≠ Ok tt)
    ∧ requestToProcessReceivedFromMQ (w_store w1)
      = foldl (λ buffer id, delete id buffer) buffer ids
    ∧ requestIdsExpectedInBlock (w_store w1)
      = requestIdsExpectedInBlock (w_store w)
    ∧ requestReceivedFromMQ (w_store w1) = requestReceivedFromMQ (w_store w)
    ∧ w_callbackUrls w1 = w_callbackUrls w.
Proof.
  intros fromHeight toHeight ids buffer removals.
  subst fromHeight toHeight. unfold handleTendermintNewBlockHeaderEvent.
  destruct (replayWindow height missingBlockCount) as [fromHeight toHeight].
  simpl in ids. rewrite run_bind. unfold db_get at 1, read. fold ids.
  cbv beta iota. rewrite run_bind, mapM_getRequestToProcess. fold buffer.
  cbv beta iota. rewrite run_bind.
  destruct (mapM_removeRequestToProcess ids w)
    as (done & w0 & -> & Hb0 & He0 & Hr0 & Hu0).
  fold removals. rewrite run_bind.
  destruct (promiseAll_processRequest ((λ id, buffer !! id) <$> ids) w0)
    as (r & w1 & handovers & -> & Hl & Hhanded & Hnone & Hb1 & He1 & Hr1
        & Hu1).
  exists r, w1, handovers. split.
  { destruct r as [[]|e]; [|by rewrite app_nil_l].
    unfold db. by rewrite app_nil_l. }
  assert (∀ m, m ∈ replayed buffer ids ↔ Some m ∈ (λ id, buffer !! id) <$> ids)
    as Hreplayed.
  { intros m. unfold replayed. rewrite list_elem_of_omap, list_elem_of_fmap.
    split; intros (id & ? & ?); exists id; done. }
  split; [rewrite Hl; apply omap_id_fmap|]. split.
  { intros m Hm. rewrite <- Hu0. by apply Hhanded, Hreplayed. }
  split.
  { intros id Hin Habsent. apply Hnone, list_elem_of_fmap. by exists id. }
  subst buffer. repeat split; congruence.
Qed.


(** The run of the block-header handler: the request ids of the window
    are replayed from the to-process buffer and removed from it; the rows
    of the window are purged once every replay has returned. *)
Lemma handleTendermintNewBlockHeaderEvent_run height missingBlockCount w :
  let ids :=
    getRequestIdsExpectedInBlock (replayWindow height missingBlockCount).1
      (replayWindow height missingBlockCount).2 (w_store w) in
  ∃ r w' l,
    handleTendermintNewBlockHeaderEvent E height missingBlockCount w
    = (r, w', l)
    ∧ dispatched l = replayed (requestToProcessReceivedFromMQ (w_store w)) ids
    ∧ requestToProcessReceivedFromMQ (w_store w')
      = foldl (λ buffer id, delete id buffer)
          (requestToProcessReceivedFromMQ (w_store w)) ids
    ∧ requestReceivedFromMQ (w_store w') = requestReceivedFromMQ (w_store w)
    ∧ (r = Ok tt →
       requestIdsExpectedInBlock (w_store w')
       = filter (λ row, negb (in_range
                                (replayWindow height missingBlockCount).1
                                (replayWindow height missingBlockCount).2 row))
           (requestIdsExpectedInBlock (w_store w)))
    ∧ (r ≠ Ok tt →
       requestIdsExpectedInBlock (w_store w')
       = requestIdsExpectedInBlock (w_store w)).
Proof.
  intros ids.
  destruct (handleTendermintNewBlockHeaderEvent_stages height
              missingBlockCount w)
    as (r & w1 & handovers & -> & Hl & _ & _ & Hb & He & Hr & _).
  fold ids in Hl, Hb |- *.
  assert (∀ after,
            dispatched
              (((λ id, EvDb (RemoveRequestToProcessReceivedFromMQ id)) <$> ids)
               ++ handovers ++ (EvDb <$> after))
            = dispatched handovers) as Hdispatched.
  { intros after. unfold dispatched. rewrite !omap_app.
    replace (omap _ (_ <$> ids)) with (@nil message)
      by (clear; induction ids; done).
    replace (omap _ (EvDb <$> after)) with (@nil message)
      by (clear; induction after; done).
    by rewrite app_nil_r. }
  destruct r as [[]|e].
  - eexists _, _, _. split; [reflexivity|].
    split; [rewrite <- Hl; apply (Hdispatched [_])|].
    destruct w1 as [[] ? ?]. simpl in *. subst. done.
  - eexists _, _, _. split; [reflexivity|].
    split; [rewrite <- Hl, <- (Hdispatched []); by rewrite app_nil_r|].
    split; [exact Hb|]. split; [exact Hr|]. split; [discriminate|done].
Qed.

End MessageProperties.

(** ** The to-process buffer *)

Lemma keyed_delete buffer id : keyed buffer → keyed (delete id buffer).
Proof.
  intros Hkeyed id' m Hlookup. apply lookup_delete_Some in Hlookup as [_ ?].
  by apply Hkeyed.
Qed.

Lemma keyed_insert buffer m :
  keyed buffer → keyed (<[m_request_id m := m]> buffer).
Proof.
  intros Hkeyed id' m' Hlookup.
  apply lookup_insert_Some in Hlookup as [[<- <-] | [_ ?]]; [done|].
  by apply Hkeyed.
Qed.






Lemma lookup_foldl_delete (buffer : gmap string message) ids request_id :
  foldl (λ buffer id, delete id buffer) buffer ids !! request_id
  = if decide (request_id ∈ ids) then None else buffer !! request_id.
Proof.
  revert buffer. induction ids as [|id rest IH]; intros buffer; simpl.
  { destruct (decide (request_id ∈ [])) as [Hin|_];
      [by apply elem_of_nil in Hin | done]. }
  rewrite IH. destruct (decide (request_id ∈ rest)) as [Hin|Hin].
  - rewrite decide_True; [done | by apply list_elem_of_further].
  - destruct (decide (id = request_id)) as [-> | Hne].
    + rewrite lookup_delete_eq.
      rewrite decide_True; [done | apply list_elem_of_here].
    + rewrite lookup_delete_ne by done.
      rewrite decide_False; [done|].
      intros [? | ?]%elem_of_cons; congruence.
Qed.

Lemma elem_of_getRequestIdsExpectedInBlock fromHeight toHeight s request_id :
  request_id ∈ getRequestIdsExpectedInBlock fromHeight toHeight s
  ↔ ∃ height,
      (height, request_id) ∈ requestIdsExpectedInBlock s
      ∧ (fromHeight ≤ height ≤ toHeight)%Z.
Proof.
  unfold getRequestIdsExpectedInBlock. rewrite list_elem_of_fmap. split.
  - intros ([height id] & -> & Hin). apply list_elem_of_filter in Hin as [Hr Hin].
    exists height. split; [done|].
    unfold in_range in Hr. simpl in Hr.
    apply Is_true_true, andb_true_iff in Hr as [?%Z.leb_le ?%Z.leb_le]. lia.
  - intros (height & Hin & Hrange). exists (height, request_id).
    split; [done|]. apply list_elem_of_filter. split; [|done].
    unfold in_range. simpl. apply Is_true_true, andb_true_iff.
    split; apply Z.leb_le; lia.
Qed.

(** ** Challenges and challenge requests *)

Section ChallengeProperties.

Variable E : Env.

#[local] Arguments dispatch : simpl never.

Lemma set_challenge_twice c c' m :
  set_challenge c (set_challenge c' m) = set_challenge c m.
Proof. by destruct m. Qed.

Lemma requestChallenge_saves_k request_id accessor_id w request public_key :
  getAccessorKey E accessor_id = Replied public_key →
  requestReceivedFromMQ (w_store w) !! request_id = Some request →
  requestReceivedFromMQ
    (w_store (world_of (requestChallenge E request_id accessor_id w)))
    !! request_id
  = Some (set_k [(generatePublicProof E 0 public_key).1;
                 (generatePublicProof E 1 public_key).1] request).
Proof.
  intros Hkey Hrequest. destruct w as [[] ? ?]. simpl in Hrequest.
  unfold requestChallenge, transact. rewrite run_bind, Hkey. mred.
  destruct (generatePublicProof E 0 public_key) as [k1 publicProof1].
  destruct (generatePublicProof E 1 public_key) as [k2 publicProof2].
  mred. rewrite Hrequest. mred.
  repeat (case_inner; mred); apply lookup_insert_eq.
Qed.

Lemma handleMessageFromQueue_request_challenge m w :
  m_challenge m = None →
  m_type m = Some "request_challenge" →
  requestReceivedFromMQ (w_store (world_of (handleMessageFromQueue E m w)))
  = requestReceivedFromMQ (w_store w).
Proof.
  intros Hchallenge Htype.
  unfold handleMessageFromQueue. rewrite Hchallenge, Htype.
  rewrite bool_decide_eq_true_2 by done. cbn [negb].
  rewrite run_bind. unfold mret at 1, M_ret at 1.
  rewrite run_bind. unfold db at 1. rewrite run_bind. unfold read at 1.
  destruct (w_latestBlockHeight _ <=? m_height m)%Z.
  - destruct w as [[] ? ?]. mred.
    repeat (case_inner; mred); reflexivity.
  - rewrite run_bind. unfold db at 1.
    match goal with
    | |- context [dispatch E m ?w2] =>
        destruct (dispatch_frame E m w2) as (r & w' & l & -> & _ & Hr & _)
    end.
    unfold world_of; simpl. rewrite Hr. by destruct w as [[] ? ?].
Qed.

(** The run of the handler on a message that carries a challenge. *)
Lemma handleMessageFromQueue_challenge m challenge w :
  m_challenge m = Some challenge →
  handleMessageFromQueue E m w
  = match requestReceivedFromMQ (w_store w) !! m_request_id m with
    | None => (Throw TypeError, w, [])
    | Some request =>
        let request' :=
          {| sr_message := set_challenge (Some challenge) (sr_message request);
             sr_k := sr_k request |} in
        (Ok tt,
         with_store
           (apply_db (SetRequestReceivedFromMQ (m_request_id m) request')) w,
         [EvDb (SetRequestReceivedFromMQ (m_request_id m) request');
          EvSpawn (TCreateIdpResponse
                     (responseFromRequestId (w_store w) !! m_request_id m))])
    end.
Proof.
  intros Hchallenge. destruct w as [[] latest urls].
  unfold handleMessageFromQueue. rewrite Hchallenge. mred.
  by destruct (requestReceivedFromMQ0 !! m_request_id m).
Qed.

(** Claim C9, amended: a message that carries a challenge is handled the
    same way whatever the latest block height is, and is never put in
    the to-process buffer nor among the ids expected in a block.  When
    the record of its request is stored, the challenge is stored in it
    and [createIdpResponse] is started on the staged response data; when
    it is not, the handler throws a TypeError, stores nothing and starts
    nothing. *)
Theorem challenge_processed_at_any_height m challenge w :
  m_challenge m = Some challenge →
  let request_id := m_request_id m in
  let run := handleMessageFromQueue E m w in
  (∀ height,
     handleMessageFromQueue E m (with_latest height w)
     = (outcome_of run, with_latest height (world_of run), log_of run))
  ∧ requestToProcessReceivedFromMQ (w_store (world_of run))
    = requestToProcessReceivedFromMQ (w_store w)
  ∧ requestIdsExpectedInBlock (w_store (world_of run))
    = requestIdsExpectedInBlock (w_store w)
  ∧ (∀ request,
       requestReceivedFromMQ (w_store w) !! request_id = Some request →
       let request' :=
         {| sr_message := set_challenge (Some challenge) (sr_message request);
            sr_k := sr_k request |} in
       outcome_of run = Ok tt
       ∧ world_of run
         = with_store
             (apply_db (SetRequestReceivedFromMQ request_id request')) w
       ∧ requestReceivedFromMQ (w_store (world_of run)) !! request_id
         = Some request'
       ∧ log_of run
         = [EvDb (SetRequestReceivedFromMQ request_id request');
            EvSpawn (TCreateIdpResponse
                       (responseFromRequestId (w_store w) !! request_id))])
  ∧ (requestReceivedFromMQ (w_store w) !! request_id = None →
     run = (Throw TypeError, w, [])).
Proof.
  intros Hchallenge request_id run. subst run request_id.
  split.
  { intros height.
    rewrite !(handleMessageFromQueue_challenge m challenge) by done.
    destruct w as [[] latest urls]. simpl.
    by destruct (requestReceivedFromMQ0 !! m_request_id m). }
  rewrite (handleMessageFromQueue_challenge m challenge) by done.
  destruct w as [[] latest urls]. simpl.
  destruct (requestReceivedFromMQ0 !! m_request_id m) as [request|];
    unfold outcome_of, world_of, log_of; simpl.
  - do 2 (split; [done|]). split; [|discriminate].
    intros ? [= <-]. repeat split. apply lookup_insert_eq.
  - do 2 (split; [done|]). split; [discriminate|done].
Qed.

(** Claim C10: a message of type 'request_challenge' leaves the record of
    its request in the received-from-MQ store with the same [k] and the
    same request fields; the handler does not write the record at all
    unless the message also carries a challenge, which is then the only
    field it sets.  So the [k] saved by [requestChallenge] is still there
    after the node has received its own challenge request. *)
Theorem request_challenge_keeps_record m w :
  m_type m = Some "request_challenge" →
  let request_id := m_request_id m in
  let run := handleMessageFromQueue E m w in
  (m_challenge m = None →
   requestReceivedFromMQ (w_store (world_of run))
   = requestReceivedFromMQ (w_store w))
  ∧ (∀ request,
       requestReceivedFromMQ (w_store w) !! request_id = Some request →
       ∃ request',
         requestReceivedFromMQ (w_store (world_of run)) !! request_id
         = Some request'
         ∧ sr_k request' = sr_k request
         ∧ set_challenge None (sr_message request')
           = set_challenge None (sr_message request))
  ∧ ∀ w0 accessor_id public_key request,
      getAccessorKey E accessor_id = Replied public_key →
      requestReceivedFromMQ (w_store w0) !! request_id = Some request →
      w = world_of (requestChallenge E request_id accessor_id w0) →
      ∃ request',
        requestReceivedFromMQ (w_store (world_of run)) !! request_id
        = Some request'
        ∧ sr_k request'
          = Some [(generatePublicProof E 0 public_key).1;
                  (generatePublicProof E 1 public_key).1].
Proof.
  intros Htype request_id run.
  assert (∀ request,
            requestReceivedFromMQ (w_store w) !! request_id = Some request →
            ∃ request',
              requestReceivedFromMQ (w_store (world_of run)) !! request_id
              = Some request'
              ∧ sr_k request' = sr_k request
              ∧ set_challenge None (sr_message request')
                = set_challenge None (sr_message request)) as Hkept.
  { intros request Hrequest. subst run.
    destruct (m_challenge m) as [challenge|] eqn:Hchallenge.
    - rewrite (handleMessageFromQueue_challenge m challenge) by done.
      fold request_id. rewrite Hrequest. unfold world_of. simpl.
      destruct w as [[] latest urls]. simpl.
      eexists. split; [apply lookup_insert_eq|]. split; [reflexivity|].
      apply set_challenge_twice.
    - rewrite handleMessageFromQueue_request_challenge by done. eauto. }
  split; [|split; [exact Hkept|]].
  - intros Hchallenge. by apply handleMessageFromQueue_request_challenge.
  - intros w0 accessor_id public_key request Hkey Hrequest ->.
    pose proof (requestChallenge_saves_k request_id accessor_id w0 request
                  public_key Hkey Hrequest) as Hsaved.
    destruct (Hkept _ Hsaved) as (request' & Hlookup & Hk & _).
    exists request'. split; [exact Hlookup|]. by rewrite Hk.
Qed.

End ChallengeProperties.

(** ** Buffering and replay *)

Section ReplayProperties.

Variable E : Env.

#[local] Open Scope Z_scope.

Lemma keyed_foldl_delete (buffer : gmap string message) ids :
  keyed buffer → keyed (foldl (λ buffer id, delete id buffer) buffer ids).
Proof.
  revert buffer. induction ids as [|id rest IH]; intros buffer Hkeyed; simpl;
    [done|].
  by apply IH, keyed_delete.
Qed.


(** The handlers keep the to-process buffer keyed by request id. *)
Lemma handleMessageFromQueue_keyed m w :
  keyed (requestToProcessReceivedFromMQ (w_store w)) →
  keyed (requestToProcessReceivedFromMQ
           (w_store (world_of (handleMessageFromQueue E m w)))).
Proof.
  intros Hkeyed. destruct (m_challenge m) as [challenge|] eqn:Hchallenge.
  - rewrite (handleMessageFromQueue_challenge E m challenge) by done.
    destruct w as [[] latest urls]. simpl in *.
    by destruct (requestReceivedFromMQ0 !! m_request_id m).
  - destruct (Z_le_gt_dec (w_latestBlockHeight w) (m_height m)) as [Hle|Hgt].
    + destruct (handleMessageFromQueue_buffered E m w Hchallenge Hle)
        as (w' & l & -> & _ & _ & Hbuffer & _).
      unfold world_of. simpl. rewrite Hbuffer. by apply keyed_insert.
    + destruct (handleMessageFromQueue_immediate E m w Hchallenge)
        as (r & w' & l & -> & _ & Hbuffer & _); [lia|].
      unfold world_of. simpl. rewrite Hbuffer.
      by apply keyed_delete, keyed_insert.
Qed.

Lemma handleTendermintNewBlockHeaderEvent_keyed height missingBlockCount w :
  keyed (requestToProcessReceivedFromMQ (w_store w)) →
  keyed (requestToProcessReceivedFromMQ
           (w_store (world_of (handleTendermintNewBlockHeaderEvent E height
                                 missingBlockCount w)))).
Proof.
  intros Hkeyed.
  destruct (handleTendermintNewBlockHeaderEvent_run E height
              missingBlockCount w) as (r & w' & l & -> & _ & Hbuffer & _).
  unfold world_of. simpl. rewrite Hbuffer. by apply keyed_foldl_delete.
Qed.

Lemma in_range_spec fromHeight toHeight (row : Z * string) :
  in_range fromHeight toHeight row = true ↔ fromHeight ≤ row.1 ≤ toHeight.
Proof.
  unfold in_range. rewrite andb_true_iff, !Z.leb_le. done.
Qed.



(** The effects of the block-header handler: the removals of the request
    ids of the window, then the hand-overs of the messages found for
    them, then the purge of the rows when no hand-over rejected. *)
Lemma handleTendermintNewBlockHeaderEvent_effects height missingBlockCount w :
  let fromHeight := (replayWindow height missingBlockCount).1 in
  let toHeight := (replayWindow height missingBlockCount).2 in
  let ids := getRequestIdsExpectedInBlock fromHeight toHeight (w_store w) in
  let buffer := requestToProcessReceivedFromMQ (w_store w) in
  let run :=
    handleTendermintNewBlockHeaderEvent E height missingBlockCount w in
  (∀ m, m ∈ replayed buffer ids →
        handed_over E (w_callbackUrls w) m (log_of run))
  ∧ (∀ id, id ∈ ids → buffer !! id = None → outcome_of run ≠ Ok tt)
  ∧ w_callbackUrls (world_of run) = w_callbackUrls w
  ∧ ∃ handovers,
      log_of run
      = ((λ id, EvDb (RemoveRequestToProcessReceivedFromMQ id)) <$> ids)
        ++ handovers
        ++ match outcome_of run with
           | Ok _ =>
               [EvDb (RemoveRequestIdsExpectedInBlock fromHeight toHeight)]
           | Throw _ => []
           end
      ∧ dispatched handovers = replayed buffer ids.
Proof.
  cbv zeta.
  destruct (handleTendermintNewBlockHeaderEvent_stages E height
              missingBlockCount w)
    as (r & w1 & handovers & -> & Hl & Hhanded & Hnone & _ & _ & _ & Hurls).
  destruct r as [[]|e]; unfold log_of, outcome_of, world_of; simpl.
  - split.
    { intros m Hm. apply handed_over_app_r, handed_over_app_l.
      by apply Hhanded. }
    split; [exact Hnone|]. split; [by destruct w1 as [[] ? ?]|].
    by exists handovers.
  - split.
    { intros m Hm. apply handed_over_app_r. by apply Hhanded. }
    split; [intros; discriminate|]. split; [exact Hurls|].
    exists handovers. by rewrite app_nil_r.
Qed.








End ReplayProperties.

(** ** The claims on concrete nodes *)



(** The same message delivered twice before its height is confirmed has
    two rows: the header whose window holds them reads the buffer twice
    before it removes anything, hands the message over twice and purges
    the rows. *)
Lemma replay_of_duplicated_message :
  dispatched
    (log_of
       (handleTendermintNewBlockHeaderEvent (Scenario.env 3 [] true true)
          101 (Some 0)
          (world_of
             (handleMessageFromQueue (Scenario.env 3 [] true true)
                (Scenario.consent "req1" 100)
                (world_of
                   (handleMessageFromQueue (Scenario.env 3 [] true true)
                      (Scenario.consent "req1" 100)
                      (Scenario.world empty_store 99)))))))
  = [Scenario.consent "req1" 100; Scenario.consent "req1" 100]
  ∧ outcome_of
      (handleTendermintNewBlockHeaderEvent (Scenario.env 3 [] true true)
         101 (Some 0)
         (world_of
            (handleMessageFromQueue (Scenario.env 3 [] true true)
               (Scenario.consent "req1" 100)
               (world_of
                  (handleMessageFromQueue (Scenario.env 3 [] true true)
                     (Scenario.consent "req1" 100)
                     (Scenario.world empty_store 99))))))
    = Ok tt
  ∧ requestIdsExpectedInBlock
      (w_store
         (world_of
            (handleTendermintNewBlockHeaderEvent (Scenario.env 3 [] true true)
               101 (Some 0)
               (world_of
                  (handleMessageFromQueue (Scenario.env 3 [] true true)
                     (Scenario.consent "req1" 100)
                     (world_of
                        (handleMessageFromQueue (Scenario.env 3 [] true true)
                           (Scenario.consent "req1" 100)
                           (Scenario.world empty_store 99))))))))
    = [].
Proof. vm_compute. repeat split. Qed.




(** Claim C3 as stated fails: on a ledger that has no message-queue
    address for the RP of request ["req1"], the mode-3 response is
    created and the ledger accepts its transaction, at height 120;
    [sendPrivateProofToRP] is started with the private proof values and
    throws before [mq.send]: they are sent to nobody. *)
Lemma private_proofs_not_sent :
  getRequest ScenarioResponse.unregistered "req1" = Replied (Some 3)
  ∧ submit ScenarioResponse.unregistered Scenario.response_tx = Replied 120
  ∧ outcome_of (createIdpResponse ScenarioResponse.unregistered
                  (Some (Scenario.response "req1"))
                  (Scenario.world Scenario.challenged 99))
    = Ok tt
  ∧ log_of (createIdpResponse ScenarioResponse.unregistered
              (Some (Scenario.response "req1"))
              (Scenario.world Scenario.challenged 99))
    = [EvDb (RemoveRequestReceivedFromMQ "req1");
       EvDb (RemoveResponseFromRequestId "req1");
       EvTx Scenario.response_tx;
       EvSpawn (TSendPrivateProofToRP "req1"
                  (Some ScenarioResponse.private_proofs) 120)]
  ∧ outcome_of
      (run_task ScenarioResponse.unregistered
         (TSendPrivateProofToRP "req1"
            (Some ScenarioResponse.private_proofs) 120)
         (world_of (createIdpResponse ScenarioResponse.unregistered
                      (Some (Scenario.response "req1"))
                      (Scenario.world Scenario.challenged 99))))
    = Throw TypeError
  ∧ log_of
      (run_task ScenarioResponse.unregistered
         (TSendPrivateProofToRP "req1"
            (Some ScenarioResponse.private_proofs) 120)
         (world_of (createIdpResponse ScenarioResponse.unregistered
                      (Some (Scenario.response "req1"))
                      (Scenario.world Scenario.challenged 99))))
    = [].
Proof. vm_compute. repeat split. Qed.

Lemma mode3_private_proofs_off_ledger_witness :
  getRequest (Scenario.env 3 [] true true) "req1" = Replied (Some 3)
  ∧ EvTx Scenario.response_tx
    ∈ log_of (createIdpResponse (Scenario.env 3 [] true true)
                (Some (Scenario.response "req1"))
                (Scenario.world Scenario.challenged 99))
  ∧ ∃ accessor_id secret publicKey request challenge,
      getAccessorKey (Scenario.env 3 [] true true) (Some accessor_id)
      = Replied (Some publicKey)
      ∧ Scenario.response_tx
        = TxCreateIdpResponse
            (Some (ledgerResponse (Scenario.env 3 [] true true)
                     (Scenario.response "req1")
                     (identityProofs (Scenario.env 3 [] true true)
                        (Some publicKey) secret (default [] (sr_k request))
                        0 challenge)))
      ∧ log_of
          (run_task (Scenario.env 3 [] true true)
             (TSendPrivateProofToRP "req1"
                (Some (transportProof accessor_id
                         (identityProofs (Scenario.env 3 [] true true)
                            (Some publicKey) secret
                            (default [] (sr_k request)) 0 challenge)))
                120)
             (Scenario.world Scenario.challenged 99))
        = [EvMq [{| rc_ip := Some "10.0.0.9"; rc_port := Some "5555";
                    rc_public_key := Some "RPKEY" |}]
             (MqPrivateProof "req1"
                (Some (transportProof accessor_id
                         (identityProofs (Scenario.env 3 [] true true)
                            (Some publicKey) secret
                            (default [] (sr_k request)) 0 challenge)))
                120 "idp1");
           EvDb (RemoveRPIdFromRequestId "req1")].
Proof.
  assert (EvTx Scenario.response_tx
          ∈ log_of (createIdpResponse (Scenario.env 3 [] true true)
                      (Some (Scenario.response "req1"))
                      (Scenario.world Scenario.challenged 99))) as Hin.
  { apply list_elem_of_In. vm_compute. right. right. left. reflexivity. }
  split; [reflexivity|]. split; [exact Hin|].
  pose proof (mode3_private_proofs_off_ledger (Scenario.env 3 [] true true)
                (Scenario.response "req1")
                (Scenario.world Scenario.challenged 99)
                Scenario.response_tx eq_refl Hin) as H.
  cbv zeta in H.
  destruct H as (accessor_id & secret & publicKey & request & challenge
                 & _ & _ & Hkey & _ & _ & Htx & _ & Hsend).
  exists accessor_id, secret, publicKey, request, challenge.
  split; [exact Hkey|]. split; [exact Htx|].
  destruct (Hsend 120 (Scenario.world Scenario.challenged 99))
    as (_ & Hsent & _).
  exact (f_equal log_of
           (Hsent (Some "10.0.0.9") (Some "5555") (Some "RPKEY")
              eq_refl eq_refl)).
Defined.

(** Claim C6 as stated fails: the ledger rejects the response of request
    ["req1"], so no transaction is ever confirmed, and yet the record of
    the request and the staged response data were removed, before the
    transaction was submitted. *)
Lemma response_state_removed_unconfirmed :
  ¬ removed_only_after_confirmation (Scenario.env 3 [] true false) "req1"
      (log_of (createIdpResponse (Scenario.env 3 [] true false)
                 (Some (Scenario.response "req1"))
                 (Scenario.world Scenario.challenged 99)))
  ∧ log_of (createIdpResponse (Scenario.env 3 [] true false)
              (Some (Scenario.response "req1"))
              (Scenario.world Scenario.challenged 99))
    = [EvDb (RemoveRequestReceivedFromMQ "req1");
       EvDb (RemoveResponseFromRequestId "req1");
       EvTx Scenario.response_tx]
  ∧ submit (Scenario.env 3 [] true false) Scenario.response_tx = Rejected
  ∧ is_Some (requestReceivedFromMQ Scenario.challenged !! "req1")
  ∧ requestReceivedFromMQ
      (w_store (world_of (createIdpResponse (Scenario.env 3 [] true false)
                            (Some (Scenario.response "req1"))
                            (Scenario.world Scenario.challenged 99))))
      !! "req1" = None.
Proof.
  assert (log_of (createIdpResponse (Scenario.env 3 [] true false)
                    (Some (Scenario.response "req1"))
                    (Scenario.world Scenario.challenged 99))
          = [EvDb (RemoveRequestReceivedFromMQ "req1");
             EvDb (RemoveResponseFromRequestId "req1");
             EvTx Scenario.response_tx]) as Hlog
    by (vm_compute; reflexivity).
  split; [|split; [exact Hlog|split; [reflexivity|split]]].
  - rewrite Hlog. intros Hclaim.
    destruct (Hclaim [] _ eq_refl) as (tx & height & Hin & _).
    by apply elem_of_nil in Hin.
  - vm_compute. eauto.
  - vm_compute. reflexivity.
Qed.

Lemma response_state_removed_before_submission_witness :
  getRequest (Scenario.env 1 [] true true) "req1" = Replied (Some 1)
  ∧ requestReceivedFromMQ
      (w_store (world_of (createIdpResponse (Scenario.env 1 [] true true)
                            (Some (Scenario.response "req1"))
                            (Scenario.world Scenario.declared 99))))
      !! "req1" = None.
Proof.
  split; [reflexivity|].
  pose proof (response_state_removed_before_submission
                (Scenario.env 1 [] true true) (Scenario.response "req1") 1
                (Scenario.world Scenario.declared 99) eq_refl) as H.
  cbv zeta in H.
  destruct H as [(_ & _ & Hmode) | (tx & after & _ & _ & Hrecord & _)].
  - by destruct Hmode.
  - exact Hrecord.
Defined.

Lemma createRequest_rejected_witness :
  EvRpTransact "CreateRequest" Scenario.rp_tx "nonce1"
  ∈ log_of (Rp.createRequest (Scenario.env 3 [] false false)
              (Scenario.rp_args "ref1") (Scenario.world empty_store 99))
  ∧ (rp_transact (Scenario.env 3 [] false false) "CreateRequest"
       Scenario.rp_tx "nonce1").1 = false
  ∧ outcome_of (Rp.createRequest (Scenario.env 3 [] false false)
                  (Scenario.rp_args "ref1") (Scenario.world empty_store 99))
    = Ok None
  ∧ rpRequestReferenceMapping
      (w_store (world_of (Rp.createRequest (Scenario.env 3 [] false false)
                            (Scenario.rp_args "ref1")
                            (Scenario.world empty_store 99))))
    = ∅.
Proof.
  assert (EvRpTransact "CreateRequest" Scenario.rp_tx "nonce1"
          ∈ log_of (Rp.createRequest (Scenario.env 3 [] false false)
                      (Scenario.rp_args "ref1")
                      (Scenario.world empty_store 99))) as Hin.
  { apply list_elem_of_In. vm_compute. right. left. reflexivity. }
  split; [exact Hin|]. split; [reflexivity|].
  destruct (createRequest_rejected (Scenario.env 3 [] false false)
              (Scenario.rp_args "ref1") (Scenario.world empty_store 99)
              Scenario.rp_tx "nonce1" Hin eq_refl)
    as (Hout & Hmap & _).
  split; [exact Hout | exact Hmap].
Defined.

(** Claim C9 as stated fails: the challenge of request ["req1"] reaches
    a node that holds no record of the request; the handler throws a
    TypeError, stores no challenge and does not start
    [createIdpResponse]. *)
Lemma challenge_without_record :
  m_challenge (Scenario.challenge "req1" 100) = Some ["c1"; "c2"]
  ∧ outcome_of (handleMessageFromQueue (Scenario.env 3 [] true true)
                  (Scenario.challenge "req1" 100)
                  (Scenario.world empty_store 99))
    = Throw TypeError
  ∧ log_of (handleMessageFromQueue (Scenario.env 3 [] true true)
              (Scenario.challenge "req1" 100)
              (Scenario.world empty_store 99))
    = []
  ∧ requestReceivedFromMQ
      (w_store (world_of (handleMessageFromQueue (Scenario.env 3 [] true true)
                            (Scenario.challenge "req1" 100)
                            (Scenario.world empty_store 99))))
      !! "req1" = None.
Proof. vm_compute. repeat split. Qed.

Lemma challenge_processed_at_any_height_witness :
  m_challenge (Scenario.challenge "req1" 100) = Some ["c1"; "c2"]
  ∧ log_of (handleMessageFromQueue (Scenario.env 3 [] true true)
              (Scenario.challenge "req1" 100)
              (Scenario.world Scenario.declared 99))
    = [EvDb (SetRequestReceivedFromMQ "req1"
               {| sr_message :=
                    set_challenge (Some ["c1"; "c2"])
                      (Scenario.consent "req1" 90);
                  sr_k := Some ["k1"; "k2"] |});
       EvSpawn (TCreateIdpResponse
                  (responseFromRequestId Scenario.declared !! "req1"))].
Proof.
  split; [reflexivity|].
  pose proof (challenge_processed_at_any_height
                (Scenario.env 3 [] true true) (Scenario.challenge "req1" 100)
                ["c1"; "c2"] (Scenario.world Scenario.declared 99) eq_refl)
    as H.
  cbv zeta in H. destruct H as (_ & _ & _ & Hstored & _).
  assert (requestReceivedFromMQ
            (w_store (Scenario.world Scenario.declared 99)) !! "req1"
          = Some {| sr_message := Scenario.consent "req1" 90;
                    sr_k := Some ["k1"; "k2"] |}) as Hrequest
    by (vm_compute; reflexivity).
  destruct (Hstored _ Hrequest) as (_ & _ & _ & Hlog). exact Hlog.
Defined.

Lemma request_challenge_keeps_record_witness :
  m_type (Scenario.request_challenge "req1" 100) = Some "request_challenge"
  ∧ requestReceivedFromMQ
      (w_store (world_of
                  (handleMessageFromQueue (Scenario.env 3 [] true true)
                     (Scenario.request_challenge "req1" 100)
                     (Scenario.world Scenario.declared 99))))
    = requestReceivedFromMQ Scenario.declared.
Proof.
  split; [reflexivity|].
  pose proof (request_challenge_keeps_record
                (Scenario.env 3 [] true true)
                (Scenario.request_challenge "req1" 100)
                (Scenario.world Scenario.declared 99) eq_refl) as H.
  cbv zeta in H. destruct H as (Hsame & _). exact (Hsame eq_refl).
Defined.

(** * Further properties *)

(** ** Request creation on the RP (rp.js) *)

Section RpRequestProperties.

Variable E : Env.

#[local] Arguments Rp.sendRequestToIdps : simpl never.

Lemma sendRequestToIdps_payload (a : rp_request_args) request_id height w :
  ∃ l, Rp.sendRequestToIdps E a request_id height w = (Ok tt, w, l)
       ∧ (l = []
          ∨ ∃ receivers p,
              l = [EvMq receivers (MqRequest p)]
              ∧ rp_height p = height
              ∧ rp_request_id p = request_id).
Proof.
  unfold Rp.sendRequestToIdps, detached, catch.
  destruct (queryGetMsqDestination E
              (hash E (Some (ra_namespace a +:+ ":" +:+ ra_identifier a)))
              (ra_min_ial a)) as [idpList|] eqn:Hquery.
  - destruct (receivers_silent E (default [] idpList) w) as [r Hr].
    destruct r as [receivers|e].
    + eexists. rewrite run_bind. mred. rewrite Hr. mred.
      split; [reflexivity|]. right. eexists _, _. done.
    + exists []. rewrite run_bind. mred. rewrite Hr. mred.
      split; [reflexivity|by left].
  - exists []. rewrite run_bind. mred. split; [reflexivity|by left].
Qed.

(** The run of [createRequest]: the early return on a known reference,
    else the request detail kept for a data request, the transaction, and
    on acceptance the two mappings and the fan-out. *)
Lemma createRequest_run (a : rp_request_args) w :
  let request_id := createRequestId E Rp.privKey a (getNonce E) in
  let known := rpRequestReferenceMapping (w_store w) !! ra_reference_id a in
  (truthy_str known = true ∧ Rp.createRequest E a w = (Ok known, w, []))
  ∨ (truthy_str known = false
     ∧ ∃ tx staged w0,
         ((staged = [] ∧ w0 = w
           ∧ (ra_data_request_list a = None ∨ ra_data_request_list a = Some []))
          ∨ ∃ d x l,
              ra_data_request_list a = Some (x :: l)
              ∧ rq_data_request_list d = x :: l
              ∧ rq_request_id d = request_id
              ∧ staged = [EvDb (PutRpRequestsData request_id d)]
              ∧ w0 = with_store (apply_db (PutRpRequestsData request_id d)) w)
         ∧ ((∃ height,
               rp_transact E "CreateRequest" tx (getNonce E) = (false, height)
               ∧ Rp.createRequest E a w
                 = (Ok None, w0,
                    staged ++ [EvRpTransact "CreateRequest" tx (getNonce E)]))
            ∨ ∃ height sent,
                rp_transact E "CreateRequest" tx (getNonce E) = (true, height)
                ∧ Rp.createRequest E a w
                  = (Ok (Some request_id),
                     with_store
                       (apply_db (PutRpCallbackUrls request_id
                                    (ra_callback_url a)))
                       (with_store
                          (apply_db (PutRpRequestReferenceMapping
                                       (ra_reference_id a) request_id)) w0),
                     staged
                     ++ [EvRpTransact "CreateRequest" tx (getNonce E);
                         EvDb (PutRpRequestReferenceMapping
                                 (ra_reference_id a) request_id);
                         EvDb (PutRpCallbackUrls request_id
                                 (ra_callback_url a))]
                     ++ sent)
                ∧ (sent = []
                   ∨ ∃ receivers p,
                       sent = [EvMq receivers (MqRequest p)]
                       ∧ rp_height p = height
                       ∧ rp_request_id p = request_id))).
Proof.
  cbv zeta.
  remember (Rp.createRequest E a w) as run eqn:Hrun.
  unfold Rp.createRequest in Hrun. cbv zeta in Hrun.
  set (request_id := createRequestId E Rp.privKey a (getNonce E)) in *.
  set (dataToBlockchain := Build_rp_create_request_tx _ _ _ _ _ _ _) in Hrun.
  set (stage := match ra_data_request_list a with
                | Some (_ :: _ as l) => db (PutRpRequestsData request_id _)
                | _ => mret tt
                end) in Hrun.
  assert (∃ staged w0,
             stage w = (Ok tt, w0, staged)
             ∧ ((staged = [] ∧ w0 = w
                 ∧ (ra_data_request_list a = None
                    ∨ ra_data_request_list a = Some []))
                ∨ ∃ d x l,
                    ra_data_request_list a = Some (x :: l)
                    ∧ rq_data_request_list d = x :: l
                    ∧ rq_request_id d = request_id
                    ∧ staged = [EvDb (PutRpRequestsData request_id d)]
                    ∧ w0 = with_store
                             (apply_db (PutRpRequestsData request_id d)) w))
    as (staged & w0 & Hstage & Hstaged).
  { subst stage. destruct (ra_data_request_list a) as [[|x l]|] eqn:Hlist.
    - exists [], w. split; [reflexivity|]. left. auto.
    - eexists _, _. split; [reflexivity|]. right.
      eexists _, x, l. repeat split; reflexivity.
    - exists [], w. split; [reflexivity|]. left. auto. }
  rewrite run_bind in Hrun. unfold db_get, read in Hrun.
  destruct (truthy_str (rpRequestReferenceMapping (w_store w)
                          !! ra_reference_id a)) eqn:Hknown.
  { left. split; [reflexivity|]. subst run. reflexivity. }
  right. split; [reflexivity|]. exists dataToBlockchain, staged, w0.
  split; [exact Hstaged|].
  rewrite run_bind, Hstage in Hrun. rewrite run_bind in Hrun.
  unfold emit at 1 in Hrun.
  destruct (rp_transact E "CreateRequest" dataToBlockchain (getNonce E))
    as [success height] eqn:Htransact.
  destruct success; cbn [negb] in Hrun.
  - right. exists height.
    destruct (sendRequestToIdps_payload a request_id height
                (with_store
                   (apply_db (PutRpCallbackUrls request_id (ra_callback_url a)))
                   (with_store
                      (apply_db (PutRpRequestReferenceMapping
                                   (ra_reference_id a) request_id))
                      w0))) as (sent & Hsend & Hsent).
    exists sent. split; [reflexivity|]. split; [|exact Hsent].
    rewrite !run_bind in Hrun. unfold db at 1 in Hrun.
    rewrite run_bind in Hrun. unfold db at 1 in Hrun.
    rewrite run_bind, Hsend in Hrun. subst run. mred.
    by rewrite app_nil_r.
  - left. exists height. split; [reflexivity|]. subst run. mred. reflexivity.
Qed.

End RpRequestProperties.

Section RpRequestExtras.

Variable E : Env.

Lemma truthy_str_Some (id : string) : id ≠ "" → truthy_str (Some id) = true.
Proof.
  intros Hid. unfold truthy_str. by rewrite bool_decide_eq_false_2.
Qed.

(** X1: [createRequest] is idempotent on the reference: once a call has
    returned a (non-empty) request id, the same call made again returns
    that id and does nothing, neither to the store nor to the ledger. *)
Theorem createRequest_repeated (a : rp_request_args) w id :
  id ≠ "" →
  outcome_of (Rp.createRequest E a w) = Ok (Some id) →
  Rp.createRequest E a (world_of (Rp.createRequest E a w))
  = (Ok (Some id), world_of (Rp.createRequest E a w), []).
Proof.
  intros Hid Hfirst.
  assert (∀ w', rpRequestReferenceMapping (w_store w') !! ra_reference_id a
                = Some id →
                Rp.createRequest E a w' = (Ok (Some id), w', [])) as Hknown.
  { intros w' Hlookup.
    destruct (createRequest_run E a w') as [[_ Hrun] | [Hunknown _]].
    - by rewrite Hrun, Hlookup.
    - cbv zeta in Hunknown. rewrite Hlookup, truthy_str_Some in Hunknown; done. }
  destruct (createRequest_run E a w)
    as [[Htruthy Hrun]
       | (_ & tx & staged & w0 & _
          & [(h & _ & Hrun) | (h & sent & _ & Hrun & _)])];
    rewrite Hrun in Hfirst |- *; unfold outcome_of, world_of in *;
    simpl in *.
  - apply Hknown. by injection Hfirst.
  - discriminate.
  - injection Hfirst as Hrid. apply Hknown.
    destruct w0 as [[] ? ?]. simpl. rewrite Hrid. apply lookup_insert_eq.
Qed.

(** X2: when the ledger accepts the CreateRequest transaction, the call
    returns the new request id and has recorded it under the reference
    and the callback URL under the request id, whatever becomes of the
    fan-out; the fan-out sends at most one payload, for that request id
    and tagged with the height the transaction returned. *)
Theorem createRequest_accepted (a : rp_request_args) w tx nonce :
  EvRpTransact "CreateRequest" tx nonce ∈ log_of (Rp.createRequest E a w) →
  (rp_transact E "CreateRequest" tx nonce).1 = true →
  let request_id := createRequestId E Rp.privKey a (getNonce E) in
  let after := w_store (world_of (Rp.createRequest E a w)) in
  outcome_of (Rp.createRequest E a w) = Ok (Some request_id)
  ∧ rpRequestReferenceMapping after !! ra_reference_id a = Some request_id
  ∧ rpCallbackUrls after !! request_id = Some (ra_callback_url a)
  ∧ ∃ before sent,
      log_of (Rp.createRequest E a w)
      = before
        ++ [EvRpTransact "CreateRequest" tx nonce;
            EvDb (PutRpRequestReferenceMapping (ra_reference_id a) request_id);
            EvDb (PutRpCallbackUrls request_id (ra_callback_url a))]
        ++ sent
      ∧ (sent = []
         ∨ ∃ receivers p,
             sent = [EvMq receivers (MqRequest p)]
             ∧ rp_height p = (rp_transact E "CreateRequest" tx nonce).2
             ∧ rp_request_id p = request_id).
Proof.
  intros Hin Haccepted. cbv zeta.
  destruct (createRequest_run E a w)
    as [[_ Hrun]
       | (_ & tx0 & staged & w0 & Hstaged
          & [(h & Htransact & Hrun) | (h & sent & Htransact & Hrun & Hsent)])];
    rewrite Hrun in Hin |- *; unfold log_of, outcome_of, world_of in *;
    simpl in *.
  - by apply elem_of_nil in Hin.
  - exfalso.
    assert (tx = tx0 ∧ nonce = getNonce E) as [-> ->].
    { destruct Hstaged as [(-> & _) | (d & x & l & _ & _ & _ & -> & _)];
        elem_cases Hin; try discriminate; try done; by injection Hin. }
    rewrite Htransact in Haccepted. discriminate.
  - assert (tx = tx0 ∧ nonce = getNonce E) as [-> ->].
    { destruct Hstaged as [(-> & _) | (d & x & l & _ & _ & _ & -> & _)];
        destruct Hsent as [-> | (? & ? & -> & _)];
        elem_cases Hin; try discriminate; try done; by injection Hin. }
    rewrite Htransact. simpl.
    split; [reflexivity|].
    split; [destruct w0 as [[] ? ?]; apply lookup_insert_eq|].
    split; [destruct w0 as [[] ? ?]; apply lookup_insert_eq|].
    exists staged, sent. done.
Qed.

(** X3: a call that is not answered from the reference mapping keeps the
    request detail under the new request id exactly when it has a
    non-empty [data_request_list], and does so before the ledger
    answers: the detail is there whether the transaction is accepted or
    rejected; with no data request the request details are untouched. *)
Theorem createRequest_request_detail (a : rp_request_args) w :
  truthy_str (rpRequestReferenceMapping (w_store w) !! ra_reference_id a)
  = false →
  let request_id := createRequestId E Rp.privKey a (getNonce E) in
  let after := w_store (world_of (Rp.createRequest E a w)) in
  (∀ x l,
     ra_data_request_list a = Some (x :: l) →
     ∃ d, rpRequestsData after !! request_id = Some d
          ∧ rq_data_request_list d = x :: l
          ∧ rq_request_id d = request_id)
  ∧ (ra_data_request_list a = None ∨ ra_data_request_list a = Some [] →
     rpRequestsData after = rpRequestsData (w_store w)).
Proof.
  intros Hunknown. cbv zeta.
  destruct (createRequest_run E a w)
    as [[Hknown _] | (_ & tx0 & staged & w0 & Hstaged & Hrun)].
  { cbv zeta in Hknown. congruence. }
  assert (rpRequestsData (w_store (world_of (Rp.createRequest E a w)))
          = rpRequestsData (w_store w0)) as ->.
  { destruct Hrun as [(h & _ & ->) | (h & sent & _ & -> & _)];
      unfold world_of; simpl; [done|]. by destruct w0 as [[] ? ?]. }
  destruct Hstaged as [(_ & -> & Hempty) | (d & x & l & Hlist & Hd & Hid & _ & ->)].
  - split; [|done]. intros x l Hlist. destruct Hempty; congruence.
  - split.
    + intros x' l' Hlist'. exists d. rewrite Hlist in Hlist'.
      injection Hlist' as <- <-.
      split; [destruct w as [[] ? ?]; apply lookup_insert_eq | done].
    + intros [? | ?]; congruence.
Qed.

End RpRequestExtras.

(** ** Response creation (idp.js) *)

Section ResponseExtras.

Variable E : Env.

(** X4: [createIdpResponse] rejects with 'Cannot create IdP response'
    and nothing else; the failures found before the store is touched
    (no data, unknown request, and in mode 3 a missing accessor id, then
    a missing secret, then an unknown accessor key) leave no effect. *)
Theorem createIdpResponse_failures w :
  (∀ data e,
     outcome_of (createIdpResponse E data w) = Throw e →
     ∃ cause, e = CannotCreateIdpResponse cause)
  ∧ createIdpResponse E None w
    = (Throw (CannotCreateIdpResponse TypeError), w, [])
  ∧ (∀ data,
       getRequest E (rs_request_id data) = Replied None →
       createIdpResponse E (Some data) w
       = (Throw (CannotCreateIdpResponse REQUEST_NOT_FOUND), w, []))
  ∧ (∀ data,
       getRequest E (rs_request_id data) = Replied (Some 3) →
       rs_accessor_id data = None →
       createIdpResponse E (Some data) w
       = (Throw (CannotCreateIdpResponse ACCESSOR_ID_NEEDED), w, []))
  ∧ (∀ data accessor_id,
       getRequest E (rs_request_id data) = Replied (Some 3) →
       rs_accessor_id data = Some accessor_id →
       rs_secret data = None →
       createIdpResponse E (Some data) w
       = (Throw (CannotCreateIdpResponse SECRET_NEEDED), w, []))
  ∧ (∀ data accessor_id secret,
       getRequest E (rs_request_id data) = Replied (Some 3) →
       rs_accessor_id data = Some accessor_id →
       rs_secret data = Some secret →
       getAccessorKey E (Some accessor_id) = Replied None →
       createIdpResponse E (Some data) w
       = (Throw (CannotCreateIdpResponse ACCESSOR_PUBLIC_KEY_NOT_FOUND),
          w, [])).
Proof.
  split; [|split; [reflexivity|split; [|split; [|split]]]].
  - intros data e. unfold createIdpResponse, catch, outcome_of.
    destruct (match data with
              | Some data0 => _
              | None => throw TypeError
              end w) as [[[[]|cause] w1] l1]; simpl; [discriminate|].
    intros [= <-]. eauto.
  - intros data Hrequest. unfold createIdpResponse, catch.
    rewrite run_bind, Hrequest. reflexivity.
  - intros data Hrequest Haccessor.
    unfold createIdpResponse, catch, prepareResponse, checkMode3.
    rewrite run_bind, Hrequest. mred. rewrite Haccessor. reflexivity.
  - intros data accessor_id Hrequest Haccessor Hsecret.
    unfold createIdpResponse, catch, prepareResponse, checkMode3.
    rewrite run_bind, Hrequest. mred. rewrite Haccessor, Hsecret.
    reflexivity.
  - intros data accessor_id secret Hrequest Haccessor Hsecret Hkey.
    unfold createIdpResponse, catch, prepareResponse, checkMode3.
    rewrite run_bind, Hrequest. mred. rewrite Haccessor, Hsecret. mred.
    rewrite Hkey. reflexivity.
Qed.

Lemma prepareResponse_other_mode data mode w :
  mode ≠ 1 → mode ≠ 3 →
  prepareResponse E data mode w = (Ok (None, None), w, []).
Proof.
  intros H1 H3. unfold prepareResponse.
  rewrite run_bind, (bool_decide_eq_false_2 (mode = 3)) by done. mred.
  by rewrite (bool_decide_eq_false_2 (mode = 1)).
Qed.

(** X5: a mode-1 response needs neither accessor id, secret, accessor
    key nor the record of the request: it removes the state of the
    request, submits the client's request_id, aal, ial, status and
    signature with no proof at all, and on acceptance hands an empty
    object over for the RP, tagged with the height of the transaction. *)
Theorem mode1_response data w :
  getRequest E (rs_request_id data) = Replied (Some 1) →
  let request_id := rs_request_id data in
  let tx := TxCreateIdpResponse (Some (mode1Response data)) in
  createIdpResponse E (Some data) w
  = match submit E tx with
    | Replied height =>
        (Ok tt, responseStateRemoved request_id w,
         [EvDb (RemoveRequestReceivedFromMQ request_id);
          EvDb (RemoveResponseFromRequestId request_id);
          EvTx tx;
          EvSpawn (TSendPrivateProofToRP request_id None height)])
    | Rejected =>
        (Throw (CannotCreateIdpResponse ExternalCallRejected),
         responseStateRemoved request_id w,
         [EvDb (RemoveRequestReceivedFromMQ request_id);
          EvDb (RemoveResponseFromRequestId request_id);
          EvTx tx])
    end.
Proof.
  intros Hmode. cbv zeta.
  destruct (createIdpResponse_run E data 1 w Hmode) as (r & Hprep & ->).
  destruct (prepareResponse_run E data 1 w) as (r' & Hprep' & Hr & _).
  rewrite Hprep in Hprep'. injection Hprep' as <-.
  rewrite (Hr eq_refl). cbv zeta.
  by destruct (submit E _).
Qed.

(** X6: for a request whose mode is neither 1 nor 3 the response still
    removes the state of the request and submits a transaction, whose
    value is [undefined]. *)
Theorem other_mode_response data mode w :
  getRequest E (rs_request_id data) = Replied (Some mode) →
  mode ≠ 1 → mode ≠ 3 →
  ∃ after,
    log_of (createIdpResponse E (Some data) w)
    = [EvDb (RemoveRequestReceivedFromMQ (rs_request_id data));
       EvDb (RemoveResponseFromRequestId (rs_request_id data));
       EvTx (TxCreateIdpResponse None)] ++ after
    ∧ world_of (createIdpResponse E (Some data) w)
      = responseStateRemoved (rs_request_id data) w.
Proof.
  intros Hmode H1 H3.
  destruct (createIdpResponse_run E data mode w Hmode) as (r & Hprep & ->).
  rewrite prepareResponse_other_mode in Hprep by done.
  injection Hprep as <-. cbv zeta.
  destruct (submit E _); eexists; split; reflexivity.
Qed.

(** X7: a mode-3 response whose request has no record, no challenge, or
    challenge rounds but no [k], fails before anything is removed or
    submitted; with an empty challenge array it goes through without
    [k], with no proof and no padding. *)
Theorem mode3_response_rounds data accessor_id secret publicKey w :
  getRequest E (rs_request_id data) = Replied (Some 3) →
  rs_accessor_id data = Some accessor_id →
  rs_secret data = Some secret →
  getAccessorKey E (Some accessor_id) = Replied (Some publicKey) →
  let request_id := rs_request_id data in
  let failed := (Throw (CannotCreateIdpResponse TypeError), w, []) in
  (requestReceivedFromMQ (w_store w) !! request_id = None →
   createIdpResponse E (Some data) w = failed)
  ∧ (∀ request,
       requestReceivedFromMQ (w_store w) !! request_id = Some request →
       (m_challenge (sr_message request) = None →
        createIdpResponse E (Some data) w = failed)
       ∧ (∀ c rest,
            m_challenge (sr_message request) = Some (c :: rest) →
            sr_k request = None →
            createIdpResponse E (Some data) w = failed)
       ∧ (m_challenge (sr_message request) = Some [] →
          ∃ after,
            log_of (createIdpResponse E (Some data) w)
            = [EvDb (RemoveRequestReceivedFromMQ request_id);
               EvDb (RemoveResponseFromRequestId request_id);
               EvTx (TxCreateIdpResponse (Some (ledgerResponse E data [])))]
              ++ after
            ∧ ∀ e, e ∈ after →
                ∃ height,
                  e = EvSpawn (TSendPrivateProofToRP request_id
                                 (Some {| pp_privateProofValueArray := [];
                                          pp_accessor_id := accessor_id;
                                          pp_padding := None |})
                                 height))).
Proof.
  intros Hmode Haccessor Hsecret Hkey. cbv zeta.
  assert (∀ r,
            mode3Response E data accessor_id secret w = (r, w, []) →
            createIdpResponse E (Some data) w
            = match r with
              | Throw e => (Throw (CannotCreateIdpResponse e), w, [])
              | Ok (d, p) =>
                  match submit E (TxCreateIdpResponse d) with
                  | Replied height =>
                      (Ok tt, responseStateRemoved (rs_request_id data) w,
                       [EvDb (RemoveRequestReceivedFromMQ (rs_request_id data));
                        EvDb (RemoveResponseFromRequestId (rs_request_id data));
                        EvTx (TxCreateIdpResponse d)]
                       ++ [EvSpawn (TSendPrivateProofToRP (rs_request_id data)
                                      p height)])
                  | Rejected =>
                      (Throw (CannotCreateIdpResponse ExternalCallRejected),
                       responseStateRemoved (rs_request_id data) w,
                       [EvDb (RemoveRequestReceivedFromMQ (rs_request_id data));
                        EvDb (RemoveResponseFromRequestId (rs_request_id data));
                        EvTx (TxCreateIdpResponse d)])
                  end
              end) as Hvia.
  { intros r Hr.
    destruct (createIdpResponse_run E data 3 w Hmode) as (r' & Hprep & ->).
    assert (r' = r) as ->; [|by destruct r as [[d p]|e]].
    unfold prepareResponse, checkMode3 in Hprep.
    rewrite run_bind in Hprep.
    rewrite bool_decide_eq_true_2 in Hprep by done.
    rewrite Haccessor, Hsecret in Hprep. rewrite !run_bind, Hkey in Hprep.
    unfold ask at 1, mret at 1 2, M_ret at 1 2 in Hprep. simpl in Hprep.
    rewrite Hr in Hprep. by injection Hprep. }
  split; [|intros request Hrequest; split; [|split]].
  - intros Hnone. apply (Hvia (Throw TypeError)).
    unfold mode3Response. rewrite run_bind. unfold db_get, read.
    by rewrite Hnone.
  - intros Hchallenge. apply (Hvia (Throw TypeError)).
    unfold mode3Response. rewrite run_bind. unfold db_get, read.
    by rewrite Hrequest, Hchallenge.
  - intros c rest Hchallenge Hk. apply (Hvia (Throw TypeError)).
    unfold mode3Response. rewrite run_bind. unfold db_get, read.
    rewrite Hrequest, Hchallenge, Hk. simpl. rewrite !run_bind, Hkey.
    reflexivity.
  - intros Hchallenge.
    rewrite (Hvia (Ok (Some (ledgerResponse E data []),
                       Some (transportProof accessor_id [])))).
    + destruct (submit E _) as [height|]; eexists; split; try reflexivity.
      * intros e He. apply list_elem_of_singleton in He. eauto.
      * intros e He. by apply elem_of_nil in He.
    + unfold mode3Response. rewrite run_bind. unfold db_get, read.
      by rewrite Hrequest, Hchallenge.
Qed.

(** X8: [sendPrivateProofToRP] uses the RP id stored for a request once:
    when it goes through it has sent one payload to one receiver and
    removed the RP id, so that a second call for the same request asks
    the ledger for the address of [undefined]; when it fails it has sent
    nothing and the RP id is still there. *)
Theorem sendPrivateProofToRP_once request_id ppo height w :
  let run := sendPrivateProofToRP E request_id ppo height w in
  (outcome_of run = Ok tt →
   (∃ receiver,
      log_of run
      = [EvMq [receiver] (MqPrivateProof request_id ppo height (nodeId E));
         EvDb (RemoveRPIdFromRequestId request_id)])
   ∧ rpIdFromRequestId (w_store (world_of run)) !! request_id = None
   ∧ ∀ ppo' height' receivers payload,
       EvMq receivers payload
       ∈ log_of (sendPrivateProofToRP E request_id ppo' height' (world_of run)) →
       ∃ ip port public_key,
         getMsqAddress E None = Replied (Some (ip, port))
         ∧ getNodePubKey E None = Replied public_key
         ∧ receivers = [{| rc_ip := ip; rc_port := port;
                           rc_public_key := public_key |}])
  ∧ (outcome_of run ≠ Ok tt → log_of run = [] ∧ world_of run = w).
Proof.
  cbv zeta.
  destruct (sendPrivateProofToRP_run E request_id ppo height w)
    as [[e ->] | (ip & port & public_key & Haddr & Hpub & ->)];
    unfold outcome_of, log_of, world_of; simpl.
  - split; [discriminate | done].
  - split; [|done]. intros _. split; [eauto|].
    assert (rpIdFromRequestId
              (w_store (with_store
                          (apply_db (RemoveRPIdFromRequestId request_id)) w))
              !! request_id = None) as Hgone.
    { destruct w as [[] ? ?]. apply lookup_delete_eq. }
    split; [exact Hgone|].
    intros ppo' height' receivers payload Hin.
    destruct (sendPrivateProofToRP_run E request_id ppo' height'
                (with_store (apply_db (RemoveRPIdFromRequestId request_id)) w))
      as [[e Hrun] | (ip' & port' & key' & Haddr' & Hpub' & Hrun)];
      rewrite Hrun in Hin; simpl in Hin.
    + by apply elem_of_nil in Hin.
    + rewrite Hgone in Haddr', Hpub'. simpl in Haddr', Hpub'.
      elem_cases Hin; try discriminate; try done.
      injection Hin as -> _. by exists ip', port', key'.
Qed.

End ResponseExtras.

(** ** Requests and responses on concrete nodes *)

Lemma createRequest_repeated_witness :
  "req-ref1" ≠ ""
  ∧ outcome_of (Rp.createRequest (Scenario.env 3 [] false true)
                  (Scenario.rp_args "ref1") (Scenario.world empty_store 99))
    = Ok (Some "req-ref1")
  ∧ log_of (Rp.createRequest (Scenario.env 3 [] false true)
              (Scenario.rp_args "ref1")
              (world_of (Rp.createRequest (Scenario.env 3 [] false true)
                           (Scenario.rp_args "ref1")
                           (Scenario.world empty_store 99))))
    = [].
Proof.
  split; [discriminate|]. split; [reflexivity|].
  rewrite (createRequest_repeated (Scenario.env 3 [] false true)
             (Scenario.rp_args "ref1") (Scenario.world empty_store 99)
             "req-ref1"); [reflexivity | discriminate | reflexivity].
Defined.

Lemma createRequest_accepted_witness :
  EvRpTransact "CreateRequest" Scenario.rp_tx "nonce1"
  ∈ log_of (Rp.createRequest (Scenario.env 3 [] false true)
              (Scenario.rp_args "ref1") (Scenario.world empty_store 99))
  ∧ (rp_transact (Scenario.env 3 [] false true) "CreateRequest"
       Scenario.rp_tx "nonce1").1 = true
  ∧ rpRequestReferenceMapping
      (w_store (world_of (Rp.createRequest (Scenario.env 3 [] false true)
                            (Scenario.rp_args "ref1")
                            (Scenario.world empty_store 99))))
    !! "ref1" = Some "req-ref1".
Proof.
  assert (EvRpTransact "CreateRequest" Scenario.rp_tx "nonce1"
          ∈ log_of (Rp.createRequest (Scenario.env 3 [] false true)
                      (Scenario.rp_args "ref1")
                      (Scenario.world empty_store 99))) as Hin.
  { apply list_elem_of_In. vm_compute. right. left. reflexivity. }
  split; [exact Hin|]. split; [reflexivity|].
  destruct (createRequest_accepted (Scenario.env 3 [] false true)
              (Scenario.rp_args "ref1") (Scenario.world empty_store 99)
              Scenario.rp_tx "nonce1" Hin eq_refl)
    as (_ & Hmap & _).
  exact Hmap.
Defined.

Lemma createRequest_request_detail_witness :
  truthy_str (rpRequestReferenceMapping
                (w_store (Scenario.world empty_store 99)) !! "ref1") = false
  ∧ outcome_of (Rp.createRequest (Scenario.env 3 [] false false)
                  (Scenario.rp_args "ref1") (Scenario.world empty_store 99))
    = Ok None
  ∧ ∃ d,
      rpRequestsData
        (w_store (world_of (Rp.createRequest (Scenario.env 3 [] false false)
                              (Scenario.rp_args "ref1")
                              (Scenario.world empty_store 99))))
      !! "req-ref1" = Some d
      ∧ rq_request_id d = "req-ref1".
Proof.
  split; [reflexivity|]. split; [reflexivity|].
  destruct (createRequest_request_detail (Scenario.env 3 [] false false)
              (Scenario.rp_args "ref1") (Scenario.world empty_store 99)
              eq_refl) as [Hkept _].
  destruct (Hkept _ _ eq_refl) as (d & Hd & _ & Hid).
  exists d. split; [exact Hd | exact Hid].
Defined.

Lemma createIdpResponse_failures_witness :
  outcome_of (createIdpResponse (Scenario.env 3 [] true true)
                (Some (Scenario.response "req1"))
                (Scenario.world empty_store 99))
  = Throw (CannotCreateIdpResponse TypeError)
  ∧ ∃ cause,
      CannotCreateIdpResponse TypeError = CannotCreateIdpResponse cause.
Proof.
  split; [reflexivity|].
  destruct (createIdpResponse_failures (Scenario.env 3 [] true true)
              (Scenario.world empty_store 99)) as [Hwrapped _].
  exact (Hwrapped (Some (Scenario.response "req1")) _ eq_refl).
Defined.

Lemma mode1_response_witness :
  getRequest (Scenario.env 1 [] true true) "req1" = Replied (Some 1)
  ∧ log_of (createIdpResponse (Scenario.env 1 [] true true)
              (Some (Scenario.response "req1"))
              (Scenario.world empty_store 99))
    = [EvDb (RemoveRequestReceivedFromMQ "req1");
       EvDb (RemoveResponseFromRequestId "req1");
       EvTx (TxCreateIdpResponse
               (Some {| tx_request_id := "req1"; tx_aal := num 1;
                        tx_ial := num 2; tx_status := "accept";
                        tx_signature := "sig"; tx_identity_proof := None;
                        tx_private_proof_hash := None |}));
       EvSpawn (TSendPrivateProofToRP "req1" None 120)].
Proof.
  split; [reflexivity|].
  rewrite (mode1_response (Scenario.env 1 [] true true)
             (Scenario.response "req1") (Scenario.world empty_store 99)
             eq_refl).
  reflexivity.
Defined.

Lemma other_mode_response_witness :
  getRequest (Scenario.env 2 [] true true) "req1" = Replied (Some 2)
  ∧ 2 ≠ 1 ∧ 2 ≠ 3
  ∧ EvTx (TxCreateIdpResponse None)
    ∈ log_of (createIdpResponse (Scenario.env 2 [] true true)
                (Some (Scenario.response "req1"))
                (Scenario.world Scenario.declared 99)).
Proof.
  split; [reflexivity|]. split; [lia|]. split; [lia|].
  destruct (other_mode_response (Scenario.env 2 [] true true)
              (Scenario.response "req1") 2
              (Scenario.world Scenario.declared 99) eq_refl)
    as (after & -> & _); [lia | lia |].
  apply elem_of_app. left. do 2 apply list_elem_of_further.
  apply list_elem_of_here.
Defined.

Lemma mode3_response_rounds_witness :
  getRequest (Scenario.env 3 [] true true) "req1" = Replied (Some 3)
  ∧ rs_accessor_id (Scenario.response "req1") = Some "acc1"
  ∧ rs_secret (Scenario.response "req1") = Some "secret"
  ∧ getAccessorKey (Scenario.env 3 [] true true) (Some "acc1")
    = Replied (Some "PK")
  ∧ requestReceivedFromMQ
      (w_store (Scenario.world Scenario.declared 99)) !! "req1"
    = Some {| sr_message := Scenario.consent "req1" 90;
              sr_k := Some ["k1"; "k2"] |}
  ∧ createIdpResponse (Scenario.env 3 [] true true)
      (Some (Scenario.response "req1"))
      (Scenario.world Scenario.declared 99)
    = (Throw (CannotCreateIdpResponse TypeError),
       Scenario.world Scenario.declared 99, []).
Proof.
  do 5 (split; [reflexivity|]).
  destruct (mode3_response_rounds (Scenario.env 3 [] true true)
              (Scenario.response "req1") "acc1" "secret" "PK"
              (Scenario.world Scenario.declared 99)
              eq_refl eq_refl eq_refl eq_refl) as [_ Hrecord].
  destruct (Hrecord _ eq_refl) as [Hnone _].
  exact (Hnone eq_refl).
Defined.

Lemma sendPrivateProofToRP_once_witness :
  outcome_of (sendPrivateProofToRP (Scenario.env 3 [] true true) "req1" None
                120 (Scenario.world Scenario.declared 121))
  = Ok tt
  ∧ rpIdFromRequestId (w_store (Scenario.world Scenario.declared 121))
    !! "req1" = Some (Some "rp1")
  ∧ rpIdFromRequestId
      (w_store (world_of (sendPrivateProofToRP (Scenario.env 3 [] true true)
                            "req1" None 120
                            (Scenario.world Scenario.declared 121))))
    !! "req1" = None.
Proof.
  split; [reflexivity|]. split; [reflexivity|].
  destruct (sendPrivateProofToRP_once (Scenario.env 3 [] true true) "req1"
              None 120 (Scenario.world Scenario.declared 121))
    as [Hsent _].
  destruct (Hsent eq_refl) as (_ & Hgone & _).
  exact Hgone.
Defined.

(** ** The client's response and the challenge (idp.js) *)

Section ChallengeExtras.

Variable E : Env.

#[local] Arguments requestChallenge : simpl never.
#[local] Arguments createIdpResponse : simpl never.

(** The runs of [requestChallenge]: it fails before it has done
    anything, or it saves [k] and declares the public proofs, and then
    fails or sends them to the RP. *)
Lemma requestChallenge_run request_id accessor_id w :
  (∃ e, requestChallenge E request_id accessor_id w = (Throw e, w, []))
  ∨ ∃ public_key request,
      getAccessorKey E accessor_id = Replied public_key
      ∧ requestReceivedFromMQ (w_store w) !! request_id = Some request
      ∧ let k1 := (generatePublicProof E 0 public_key).1 in
        let k2 := (generatePublicProof E 1 public_key).1 in
        let publicProof1 := (generatePublicProof E 0 public_key).2 in
        let publicProof2 := (generatePublicProof E 1 public_key).2 in
        let save := SetRequestReceivedFromMQ request_id
                      (set_k [k1; k2] request) in
        let tx := TxDeclareIdentityProof request_id
                    (stringify E [publicProof1; publicProof2]) in
        (∃ e, requestChallenge E request_id accessor_id w
              = (Throw e, with_store (apply_db save) w, [EvDb save; EvTx tx])
              ∧ (submit E tx = Rejected → e = ExternalCallRejected))
        ∨ ∃ height receiver,
            submit E tx = Replied height
            ∧ requestChallenge E request_id accessor_id w
              = (Ok tt, with_store (apply_db save) w,
                 [EvDb save; EvTx tx;
                  EvMq [receiver]
                    (MqRequestChallenge [publicProof1; publicProof2]
                       request_id (nodeId E) height)]).
Proof.
  unfold requestChallenge, transact. rewrite run_bind.
  destruct (getAccessorKey E accessor_id) as [public_key|] eqn:Hkey;
    [|left; eauto].
  destruct (requestReceivedFromMQ (w_store w) !! request_id)
    as [request|] eqn:Hrequest.
  - right. exists public_key, request. split; [done|]. split; [done|].
    mred.
    destruct (generatePublicProof E 0 public_key) as [k1 publicProof1].
    destruct (generatePublicProof E 1 public_key) as [k2 publicProof2].
    mred. rewrite Hrequest. mred.
    destruct (submit E _) as [height|] eqn:Hsubmit; mred;
      [|left; eauto].
    destruct (getMsqAddress E _) as [[[ip port]|]|]; mred;
      [|left; eexists; split; [done | discriminate]..].
    destruct (getNodePubKey E _) as [pk|]; mred;
      [|left; eexists; split; [done | discriminate]].
    right. eauto.
  - left. mred.
    destruct (generatePublicProof E 0 public_key) as [k1 publicProof1].
    destruct (generatePublicProof E 1 public_key) as [k2 publicProof2].
    mred. rewrite Hrequest. eauto.
Qed.

(** X9: whatever [requestChallenge] sends, it sends to one receiver
    the public proofs it has declared on the ledger, in a transaction
    the ledger accepted, tagged with the height of that transaction; the
    call then resolves. *)
Theorem requestChallenge_sends_declared request_id accessor_id w
    receivers payload :
  EvMq receivers payload ∈ log_of (requestChallenge E request_id accessor_id w) →
  ∃ publicProofs height receiver,
    receivers = [receiver]
    ∧ payload
      = MqRequestChallenge publicProofs request_id (nodeId E) height
    ∧ submit E (TxDeclareIdentityProof request_id (stringify E publicProofs))
      = Replied height
    ∧ EvTx (TxDeclareIdentityProof request_id (stringify E publicProofs))
      ∈ log_of (requestChallenge E request_id accessor_id w)
    ∧ outcome_of (requestChallenge E request_id accessor_id w) = Ok tt.
Proof.
  intros Hin.
  destruct (requestChallenge_run request_id accessor_id w)
    as [[e Hrun]
       | (public_key & request & _ & _
          & [(e & Hrun & _) | (height & receiver & Hsubmit & Hrun)])];
    rewrite Hrun in Hin |- *; unfold log_of, outcome_of in *; simpl in *;
    elem_cases Hin; try discriminate; try done.
  injection Hin as -> ->.
  eexists _, height, receiver. split; [done|]. split; [done|].
  split; [exact Hsubmit|]. split; [|done].
  apply list_elem_of_further, list_elem_of_here.
Qed.

(** X10: [requestChallenge] saves [k] in the record of the request
    before it declares the public proofs: once the declaration has been
    submitted the record holds a pair of blinding factors whatever
    happens next, and when the ledger rejects the declaration the call
    rejects and has sent nothing. *)
Theorem requestChallenge_saves_k_first request_id accessor_id w tx :
  EvTx tx ∈ log_of (requestChallenge E request_id accessor_id w) →
  ∃ request k1 k2,
    requestReceivedFromMQ (w_store w) !! request_id = Some request
    ∧ requestReceivedFromMQ
        (w_store (world_of (requestChallenge E request_id accessor_id w)))
        !! request_id
      = Some (set_k [k1; k2] request)
    ∧ (submit E tx = Rejected →
       outcome_of (requestChallenge E request_id accessor_id w)
       = Throw ExternalCallRejected
       ∧ ∀ receivers payload,
           EvMq receivers payload
           ∉ log_of (requestChallenge E request_id accessor_id w)).
Proof.
  intros Hin.
  assert (∀ op : stored_request,
            requestReceivedFromMQ
              (w_store (with_store
                          (apply_db (SetRequestReceivedFromMQ request_id op))
                          w))
              !! request_id = Some op) as Hsaved.
  { intros op. destruct w as [[] ? ?]. apply lookup_insert_eq. }
  destruct (requestChallenge_run request_id accessor_id w)
    as [[e Hrun]
       | (public_key & request & _ & Hrequest
          & [(e & Hrun & He) | (height & receiver & Hsubmit & Hrun)])];
    rewrite Hrun in Hin |- *; unfold log_of, outcome_of, world_of in *;
    simpl in *; elem_cases Hin; try discriminate; try done;
    injection Hin as ->; eexists request, _, _;
    (split; [exact Hrequest|]); (split; [apply Hsaved|]); intros Hrejected.
  - rewrite (He Hrejected). split; [done|].
    intros receivers payload Hmq. elem_cases Hmq; discriminate || done.
  - congruence.
Qed.

(** The mode-3 run of [requestChallengeAndCreateResponse]. *)
Lemma requestChallengeAndCreateResponse_mode3 data w :
  getRequest E (rs_request_id data) = Replied (Some 3) →
  let run := requestChallengeAndCreateResponse E data w in
  outcome_of run = Ok tt
  ∧ responseFromRequestId (w_store (world_of run)) !! rs_request_id data
    = Some data
  ∧ (∃ after,
       log_of run
       = EvDb (SetResponseFromRequestId (rs_request_id data) data) :: after)
  ∧ ∀ request,
      requestReceivedFromMQ (w_store w) !! rs_request_id data = Some request →
      ∃ request',
        requestReceivedFromMQ (w_store (world_of run)) !! rs_request_id data
        = Some request'.
Proof.
  intros Hmode. cbv zeta.
  set (w1 := with_store
               (apply_db (SetResponseFromRequestId (rs_request_id data) data))
               w).
  assert (requestChallengeAndCreateResponse E data w
          = (Ok tt,
             world_of (requestChallenge E (rs_request_id data)
                         (rs_accessor_id data) w1),
             EvDb (SetResponseFromRequestId (rs_request_id data) data)
             :: log_of (requestChallenge E (rs_request_id data)
                          (rs_accessor_id data) w1))) as ->.
  { unfold requestChallengeAndCreateResponse.
    rewrite run_bind, Hmode. mred. fold w1.
    by destruct (requestChallenge E (rs_request_id data)
                   (rs_accessor_id data) w1) as [[[[]|e] w2] l2];
      simpl; rewrite ?app_nil_r. }
  assert (responseFromRequestId (w_store w1) !! rs_request_id data
          = Some data) as Hstaged.
  { subst w1. destruct w as [[] ? ?]. apply lookup_insert_eq. }
  assert (requestReceivedFromMQ (w_store w1)
          = requestReceivedFromMQ (w_store w)) as Hrecord.
  { subst w1. by destruct w as [[] ? ?]. }
  assert (∀ op, responseFromRequestId
                  (w_store (with_store
                              (apply_db (SetRequestReceivedFromMQ
                                           (rs_request_id data) op)) w1))
                = responseFromRequestId (w_store w1)) as Hkept.
  { intros op. by destruct w1 as [[] ? ?]. }
  assert (∀ op, requestReceivedFromMQ
                  (w_store (with_store
                              (apply_db (SetRequestReceivedFromMQ
                                           (rs_request_id data) op)) w1))
                  !! rs_request_id data = Some op) as Hsaved.
  { intros op. destruct w1 as [[] ? ?]. apply lookup_insert_eq. }
  destruct (requestChallenge_run (rs_request_id data) (rs_accessor_id data)
              w1)
    as [[e ->]
       | (public_key & request & _ & _
          & [(e & -> & _) | (height & receiver & _ & ->)])];
    unfold outcome_of, world_of, log_of; cbn [fst snd];
    rewrite ?Hkept, ?Hsaved, ?Hrecord;
    (split; [done|]); (split; [done|]); (split; [eauto|]); eauto.
Qed.

(** X11: [requestChallengeAndCreateResponse] resolves for every request
    the ledger knows, whatever becomes of the challenge request or of the
    response it starts; in mode 3 the client's data is staged under the
    request id first, and in a mode other than 1 and 3 nothing is done. *)
Theorem requestChallengeAndCreateResponse_resolves data mode w :
  getRequest E (rs_request_id data) = Replied (Some mode) →
  let run := requestChallengeAndCreateResponse E data w in
  outcome_of run = Ok tt
  ∧ (mode = 3 →
     responseFromRequestId (w_store (world_of run)) !! rs_request_id data
     = Some data
     ∧ ∃ after,
         log_of run
         = EvDb (SetResponseFromRequestId (rs_request_id data) data) :: after)
  ∧ (mode ≠ 1 → mode ≠ 3 → run = (Ok tt, w, [])).
Proof.
  intros Hmode. cbv zeta.
  destruct (decide (mode = 3)) as [-> | H3].
  { destruct (requestChallengeAndCreateResponse_mode3 data w Hmode)
      as (Hout & Hstaged & Hlog & _).
    split; [exact Hout|]. split; [done|]. done. }
  assert (requestChallengeAndCreateResponse E data w
          = if bool_decide (mode = 1)
            then detached (createIdpResponse E (Some data)) w
            else (Ok tt, w, [])) as ->.
  { unfold requestChallengeAndCreateResponse.
    rewrite run_bind, Hmode. mred.
    rewrite (bool_decide_eq_false_2 (mode = 3)) by done.
    destruct (bool_decide (mode = 1)); [|done].
    by destruct (createIdpResponse E (Some data) w) as [[[[]|e] w1] l1]. }
  destruct (bool_decide (mode = 1)) eqn:H1; [|done].
  apply bool_decide_eq_true in H1. unfold detached, catch.
  destruct (createIdpResponse E (Some data) w) as [[[[]|e] w1] l1];
    unfold outcome_of; simpl; (split; [done|]); split; intros; congruence.
Qed.

(** X12: the data staged by [requestChallengeAndCreateResponse] in mode 3
    is the data the response is created from when the RP's challenge
    arrives, at any block height. *)
Theorem staged_response_used_on_challenge data m challenge request w :
  getRequest E (rs_request_id data) = Replied (Some 3) →
  requestReceivedFromMQ (w_store w) !! rs_request_id data = Some request →
  m_request_id m = rs_request_id data →
  m_challenge m = Some challenge →
  EvSpawn (TCreateIdpResponse (Some data))
  ∈ log_of (handleMessageFromQueue E m
              (world_of (requestChallengeAndCreateResponse E data w))).
Proof.
  intros Hmode Hrequest Hid Hchallenge.
  destruct (requestChallengeAndCreateResponse_mode3 data w Hmode)
    as (_ & Hstaged & _ & Hkept).
  destruct (Hkept _ Hrequest) as [request' Hrecord].
  rewrite (handleMessageFromQueue_challenge E m challenge _ Hchallenge).
  rewrite Hid, Hrecord, Hstaged. unfold log_of. simpl.
  apply list_elem_of_further, list_elem_of_here.
Qed.

End ChallengeExtras.

Lemma requestChallenge_sends_declared_witness :
  EvMq [{| rc_ip := Some "10.0.0.9"; rc_port := Some "5555";
           rc_public_key := Some "RPKEY" |}]
    (MqRequestChallenge ["pub1"; "pub2"] "req1" "idp1" 120)
  ∈ log_of (requestChallenge (Scenario.env 3 [] true true) "req1"
              (Some "acc1") (Scenario.world Scenario.declared 99))
  ∧ outcome_of (requestChallenge (Scenario.env 3 [] true true) "req1"
                  (Some "acc1") (Scenario.world Scenario.declared 99))
    = Ok tt.
Proof.
  assert (EvMq [{| rc_ip := Some "10.0.0.9"; rc_port := Some "5555";
                   rc_public_key := Some "RPKEY" |}]
            (MqRequestChallenge ["pub1"; "pub2"] "req1" "idp1" 120)
          ∈ log_of (requestChallenge (Scenario.env 3 [] true true) "req1"
                      (Some "acc1") (Scenario.world Scenario.declared 99)))
    as Hin.
  { apply list_elem_of_In. vm_compute. right. right. left. reflexivity. }
  split; [exact Hin|].
  destruct (requestChallenge_sends_declared (Scenario.env 3 [] true true)
              "req1" (Some "acc1") (Scenario.world Scenario.declared 99)
              _ _ Hin)
    as (publicProofs & height & receiver & _ & _ & _ & _ & Hout).
  exact Hout.
Defined.

Lemma requestChallenge_saves_k_first_witness :
  EvTx (TxDeclareIdentityProof "req1" "[pub1,pub2]")
  ∈ log_of (requestChallenge (Scenario.env 3 [] true false) "req1"
              (Some "acc1") (Scenario.world Scenario.declared 99))
  ∧ ∃ request k1 k2,
      requestReceivedFromMQ
        (w_store
           (world_of (requestChallenge (Scenario.env 3 [] true false) "req1"
                        (Some "acc1") (Scenario.world Scenario.declared 99))))
        !! "req1"
      = Some (set_k [k1; k2] request).
Proof.
  assert (EvTx (TxDeclareIdentityProof "req1" "[pub1,pub2]")
          ∈ log_of (requestChallenge (Scenario.env 3 [] true false) "req1"
                      (Some "acc1") (Scenario.world Scenario.declared 99)))
    as Hin.
  { apply list_elem_of_In. vm_compute. right. left. reflexivity. }
  split; [exact Hin|].
  destruct (requestChallenge_saves_k_first (Scenario.env 3 [] true false)
              "req1" (Some "acc1") (Scenario.world Scenario.declared 99)
              _ Hin)
    as (request & k1 & k2 & _ & Hsaved & _).
  exists request, k1, k2. exact Hsaved.
Defined.

Lemma requestChallengeAndCreateResponse_resolves_witness :
  getRequest (Scenario.env 3 [] true true) "req1" = Replied (Some 3)
  ∧ requestReceivedFromMQ (w_store (Scenario.world empty_store 99)) !! "req1"
    = None
  ∧ outcome_of (requestChallengeAndCreateResponse (Scenario.env 3 [] true true)
                  (Scenario.response "req1") (Scenario.world empty_store 99))
    = Ok tt.
Proof.
  split; [reflexivity|]. split; [reflexivity|].
  destruct (requestChallengeAndCreateResponse_resolves
              (Scenario.env 3 [] true true) (Scenario.response "req1") 3
              (Scenario.world empty_store 99) eq_refl) as [Hout _].
  exact Hout.
Defined.

Lemma staged_response_used_on_challenge_witness :
  getRequest (Scenario.env 3 [] true true) "req1" = Replied (Some 3)
  ∧ requestReceivedFromMQ
      (w_store (Scenario.world Scenario.declared 99)) !! "req1"
    = Some {| sr_message := Scenario.consent "req1" 90;
              sr_k := Some ["k1"; "k2"] |}
  ∧ m_challenge (Scenario.challenge "req1" 100) = Some ["c1"; "c2"]
  ∧ EvSpawn (TCreateIdpResponse (Some (Scenario.response "req1")))
    ∈ log_of (handleMessageFromQueue (Scenario.env 3 [] true true)
                (Scenario.challenge "req1" 100)
                (world_of
                   (requestChallengeAndCreateResponse
                      (Scenario.env 3 [] true true)
                      (Scenario.response "req1")
                      (Scenario.world Scenario.declared 99)))).
Proof.
  do 3 (split; [reflexivity|]).
  exact (staged_response_used_on_challenge (Scenario.env 3 [] true true)
           (Scenario.response "req1") (Scenario.challenge "req1" 100)
           ["c1"; "c2"] _ (Scenario.world Scenario.declared 99)
           eq_refl eq_refl eq_refl eq_refl).
Defined.

(** ** Onboarding (core/identity.js) *)

Section OnboardingExtras.

Variable E : Env.

(** The run of [createNewIdentity] under the equations at hand. *)
Ltac settle :=
  unfold createNewIdentity, checkAssociated, isAccessorSignUrlSet,
    accessorSign, transact_all, notifyCreateIdentityResultByCallback,
    notifyByCallback;
  repeat (mred;
          match goal with
          | H : ?l = _ |- context [?l] => rewrite H
          end);
  mred.

Ltac early :=
  simpl; first [done | by eauto | by destruct (ir_addAccessor _)].

(** The runs of [createNewIdentity]: it ends without any effect (a
    failed validation, a rejected query, a recorded correlation, no
    signing URL), or it goes on from the signature of the accessor. *)
Lemma createNewIdentity_run data w :
  (∃ r, createNewIdentity E data w = (r, w, [])
        ∧ match r with
          | Ok result =>
              ∃ o, onboardDataByReferenceId (w_store w)
                     !! ir_reference_id data = Some o
          | Throw IDENTITY_ALREADY_CREATED => ir_addAccessor data = false
          | Throw MAXIMUM_IAL_EXCEED =>
              ∃ info, getNodeInfo E (nodeId E) = Replied info
                      ∧ js_gt (ir_ial data) (max_ial info) = true
          | Throw SIGN_WITH_ACCESSOR_KEY_URL_NOT_SET =>
              accessor_sign_url (w_callbackUrls w) = None
          | Throw _ => True
          end)
  ∨ ∃ nodes exist url,
      getIdpNodes E (ir_namespace data) (ir_identifier data) = Replied nodes
      ∧ (ir_addAccessor data = true ∨ thisNodeAmong E nodes = false)
      ∧ checkExistingIdentity E (hash E (Some (sid data))) = Replied exist
      ∧ onboardDataByReferenceId (w_store w) !! ir_reference_id data = None
      ∧ accessor_sign_url (w_callbackUrls w) = Some url
      ∧ createNewIdentity E data w
        = onboardingRun E data w exist (thisNodeAmong E nodes) url.
Proof.
  destruct (getNamespaceList E) as [namespaces|] eqn:Hns;
    [|left; eexists; split; [by settle | early]].
  destruct (existsb (λ n, bool_decide (n = ir_namespace data)) namespaces)
    eqn:Hvalid; [|left; eexists; split; [by settle | early]].
  destruct (getIdpNodes E (ir_namespace data) (ir_identifier data))
    as [nodes|] eqn:Hnodes;
    [|left; eexists; split; [by settle | early]].
  destruct (negb (ir_addAccessor data)
            && existsb (λ node_id, bool_decide (node_id = nodeId E)) nodes)
    eqn:Hassoc; [left; eexists; split; [by settle | early]|].
  destruct (getNodeInfo E (nodeId E)) as [info|] eqn:Hinfo;
    [|left; eexists; split; [by settle | early]].
  destruct (js_gt (ir_ial data) (max_ial info)) eqn:Hgt;
    [left; eexists; split; [by settle | early]|].
  destruct (checkExistingIdentity E
              (hash E (Some (ir_namespace data +:+ ":" +:+ ir_identifier data))))
    as [exist|] eqn:Hexist;
    [|left; eexists; split; [by settle | early]].
  destruct (onboardDataByReferenceId (w_store w) !! ir_reference_id data)
    as [o|] eqn:Hfresh; [left; eexists; split; [by settle | early]|].
  destruct (accessor_sign_url (w_callbackUrls w)) as [url|] eqn:Hurl;
    [|left; eexists; split; [by settle | early]].
  right. exists nodes, exist, url.
  split; [done|]. split.
  { unfold thisNodeAmong. destruct (ir_addAccessor data); [by left | by right]. }
  do 3 (split; [done|]).
  unfold onboardingRun, identityTransactions, pendingIdentity, consentRequest,
    secretOf, accessorSignRequest, newAccessorId, thisNodeAmong, sid.
  destruct (fetchAccessorSign E url _) as [signature|] eqn:Hsign;
    [|by settle].
  destruct (common_createRequest E _) as [request_id|] eqn:Hrequest;
    [|by settle].
  destruct exist; [by settle|].
  cbn [forallb].
  destruct (is_replied (submit E (TxCreateIdentity _ _ _ _))) eqn:Hcreate;
    [|by settle].
  destruct (is_replied (submit E (TxRegisterMqDestination _ _))) eqn:Hregister;
    [|by settle].
  destruct (truthy_str (identity_result_url (w_callbackUrls w))) eqn:Hcallback;
    by settle.
Qed.

(** The cases of the run from the signature on. *)
Ltac onboarding_cases :=
  unfold onboardingRun in *;
  destruct (fetchAccessorSign E _ _) as [signature|] eqn:Hsign;
    [destruct (common_createRequest E _) as [request_id|] eqn:Hrequest;
       [match goal with
        | exist : bool |- _ =>
            destruct exist;
              [|destruct (forallb _ (identityTransactions E _)) eqn:Hconfirmed]
        end|]|];
  unfold outcome_of, world_of, log_of in *; cbn [fst snd] in *.

(** X13: [createNewIdentity] asks for consent only once the accessor has
    signed: a consent request is created after the signing endpoint
    answered, it is the first thing done after that, and it is a mode-3
    request that needs one IdP when the identity exists on the ledger
    and none when it does not. *)
Theorem createNewIdentity_signs_before_request data w args :
  EvCreateRequest args ∈ log_of (createNewIdentity E data w) →
  ∃ url signature exist after,
    accessor_sign_url (w_callbackUrls w) = Some url
    ∧ fetchAccessorSign E url (accessorSignRequest E data) = Replied signature
    ∧ checkExistingIdentity E (hash E (Some (sid data))) = Replied exist
    ∧ args = consentRequest E data exist
    ∧ cr_mode args = 3
    ∧ cr_min_idp args = (if exist then 1 else 0)
    ∧ log_of (createNewIdentity E data w)
      = EvFetchAccessorSign url (accessorSignRequest E data)
        :: EvCreateRequest args :: after.
Proof.
  intros Hin.
  destruct (createNewIdentity_run data w)
    as [(r & Hrun & _)
       | (nodes & exist & url & _ & _ & Hexist & _ & Hurl & Hrun)];
    rewrite Hrun in Hin |- *.
  { by apply elem_of_nil in Hin. }
  assert (args = consentRequest E data exist) as ->.
  { onboarding_cases; unfold identityTransactions in Hin;
      try destruct (truthy_str (identity_result_url (w_callbackUrls w)));
      simpl in Hin;
      elem_cases Hin; try discriminate; try done; by injection Hin. }
  onboarding_cases;
    first [by apply list_elem_of_singleton in Hin
          | eexists url, signature, _, _; by repeat split].
Qed.

(** X14: when the identity exists on the ledger, a first call of
    [createNewIdentity] for a reference has the accessor sign, creates
    the consent request through [common.createRequest], records the id
    of that request and the accessor id under the reference, and keeps
    the identity under the request id until consent is given, with the
    ial and the accessor id of the call.  The consent request is all
    that the call sends towards the ledger: it submits none of the
    identity transactions. *)
Theorem createNewIdentity_existing_identity data w result :
  onboardDataByReferenceId (w_store w) !! ir_reference_id data = None →
  outcome_of (createNewIdentity E data w) = Ok result →
  res_exist result = true →
  let after := w_store (world_of (createNewIdentity E data w)) in
  (∃ pending,
     identityFromRequestId after !! res_request_id result = Some pending
     ∧ id_accessor_id pending = res_accessor_id result
     ∧ id_ial pending = ir_ial data)
  ∧ onboardDataByReferenceId after !! ir_reference_id data
    = Some {| od_request_id := res_request_id result;
              od_accessor_id := res_accessor_id result |}
  ∧ (∀ tx, EvTx tx ∉ log_of (createNewIdentity E data w))
  ∧ ∃ url pending,
      accessor_sign_url (w_callbackUrls w) = Some url
      ∧ common_createRequest E (consentRequest E data true)
        = Replied (res_request_id result)
      ∧ log_of (createNewIdentity E data w)
        = [EvFetchAccessorSign url (accessorSignRequest E data);
           EvCreateRequest (consentRequest E data true);
           EvDb (SetOnboardDataByReferenceId (ir_reference_id data)
                   {| od_request_id := res_request_id result;
                      od_accessor_id := res_accessor_id result |});
           EvDb (SetIdentityFromRequestId (res_request_id result) pending)].
Proof.
  intros Hfresh Hout Hexists. cbv zeta.
  destruct (createNewIdentity_run data w)
    as [(r & Hrun & Hr)
       | (nodes & exist & url & _ & _ & _ & _ & Hurl & Hrun)];
    rewrite Hrun in Hout |- *.
  { unfold outcome_of in Hout. simpl in Hout. subst r.
    destruct Hr as [o Ho]. congruence. }
  onboarding_cases; try discriminate;
    injection Hout as <-; simpl in Hexists; try discriminate.
  split; [|split; [|split]].
  - eexists. split; [destruct w as [[] ? ?]; apply lookup_insert_eq | done].
  - destruct w as [[] ? ?]. apply lookup_insert_eq.
  - intros tx Htx. elem_cases Htx; discriminate || done.
  - eexists url, _. split; [exact Hurl|]. split; [exact Hrequest|].
    reflexivity.
Qed.

(** X15: when the identity does not exist on the ledger, a first call
    of [createNewIdentity] for a reference resolves with the request id
    whether or not the ledger accepts the identity: both transactions
    are submitted and nobody awaits them; the correlation of the
    reference is removed, and the client told of the success, only when
    the ledger accepted both. *)
Theorem createNewIdentity_new_identity data w result :
  onboardDataByReferenceId (w_store w) !! ir_reference_id data = None →
  outcome_of (createNewIdentity E data w) = Ok result →
  res_exist result = false →
  let run := createNewIdentity E data w in
  let confirmed :=
    forallb (λ tx, is_replied (submit E tx)) (identityTransactions E data) in
  (∀ tx, tx ∈ identityTransactions E data → EvTx tx ∈ log_of run)
  ∧ onboardDataByReferenceId (w_store (world_of run)) !! ir_reference_id data
    = (if confirmed
       then None
       else Some {| od_request_id := res_request_id result;
                    od_accessor_id := res_accessor_id result |})
  ∧ (∀ url body, EvCallback url body ∈ log_of run →
       confirmed = true
       ∧ ∃ secret, body = CbIdentityResult "create_identity_result"
                            (res_request_id result) true (Some secret))
  ∧ identityFromRequestId (w_store (world_of run))
    = identityFromRequestId (w_store w).
Proof.
  intros Hfresh Hout Hexists. cbv zeta.
  destruct (createNewIdentity_run data w)
    as [(r & Hrun & Hr)
       | (nodes & exist & url & _ & _ & _ & _ & _ & Hrun)];
    rewrite Hrun in Hout |- *.
  { unfold outcome_of in Hout. simpl in Hout. subst r.
    destruct Hr as [o Ho]. congruence. }
  onboarding_cases; try discriminate;
    injection Hout as <-; simpl in Hexists; try discriminate.
  - split; [|split; [|split]].
    + intros tx Htx. unfold identityTransactions in *.
      elem_cases Htx; try done; subst tx; simpl;
        rewrite !elem_of_cons; auto 6.
    + destruct w as [[] ? ?]. apply lookup_delete_eq.
    + intros url' body Hcb. split; [done|].
      unfold identityTransactions in Hcb.
      destruct (truthy_str _); simpl in Hcb;
        elem_cases Hcb; try discriminate; try done.
      injection Hcb as _ ->. eauto.
    + by destruct w as [[] ? ?].
  - split; [|split; [|split]].
    + intros tx Htx. unfold identityTransactions in *.
      elem_cases Htx; try done; subst tx; simpl;
        rewrite !elem_of_cons; auto 6.
    + destruct w as [[] ? ?]. apply lookup_insert_eq.
    + intros url' body Hcb. unfold identityTransactions in Hcb.
      simpl in Hcb. elem_cases Hcb; discriminate || done.
    + by destruct w as [[] ? ?].
Qed.

(** X16: without a signing URL [createNewIdentity] has no effect at all,
    and it fails with SIGN_WITH_ACCESSOR_KEY_URL_NOT_SET only then; with
    a signing URL, whatever it does comes after the call of the signing
    endpoint. *)
Theorem createNewIdentity_sign_url data w :
  (accessor_sign_url (w_callbackUrls w) = None →
   world_of (createNewIdentity E data w) = w
   ∧ log_of (createNewIdentity E data w) = [])
  ∧ (outcome_of (createNewIdentity E data w)
     = Throw SIGN_WITH_ACCESSOR_KEY_URL_NOT_SET →
     accessor_sign_url (w_callbackUrls w) = None)
  ∧ (∀ url,
       accessor_sign_url (w_callbackUrls w) = Some url →
       log_of (createNewIdentity E data w) = []
       ∨ ∃ after,
           log_of (createNewIdentity E data w)
           = EvFetchAccessorSign url (accessorSignRequest E data) :: after).
Proof.
  destruct (createNewIdentity_run data w)
    as [(r & Hrun & Hr)
       | (nodes & exist & url & _ & _ & _ & _ & Hurl & Hrun)];
    rewrite Hrun.
  - split; [done|]. split; [|by left].
    unfold outcome_of; simpl. by intros ->.
  - split; [congruence|]. split.
    + onboarding_cases; discriminate.
    + intros url' Hurl'. assert (url' = url) as -> by congruence.
      right. onboarding_cases; eauto.
Qed.

(** [addAccessorMethodForAssociatedIdp] in terms of
    [createNewIdentity]. *)
Lemma addAccessorMethodForAssociatedIdp_run data w :
  addAccessorMethodForAssociatedIdp E data w
  = match getIdpNodes E (ir_namespace data) (ir_identifier data) with
    | Rejected => (Throw ExternalCallRejected, w, [])
    | Replied nodes =>
        if thisNodeAmong E nodes
        then createNewIdentity E (addAccessorRequest data) w
        else (Throw IDENTITY_NOT_FOUND, w, [])
    end.
Proof.
  unfold addAccessorMethodForAssociatedIdp, checkAssociated, thisNodeAmong.
  rewrite !run_bind.
  destruct (getIdpNodes E _ _) as [nodes|]; [|done].
  unfold ask, mret, M_ret. cbn [app].
  destruct (existsb _ nodes); [|done]. cbn [negb].
  by destruct (createNewIdentity E (addAccessorRequest data) w) as [[? ?] ?].
Qed.

(** X17: [addAccessorMethodForAssociatedIdp] fails with
    IDENTITY_NOT_FOUND, without any effect, when this node is not among
    the IdP nodes of the identity; otherwise it never fails with
    IDENTITY_ALREADY_CREATED nor MAXIMUM_IAL_EXCEED, the consent request
    it creates carries the message for adding an accessor, and the
    identity it keeps until consent is marked as associated and has no
    ial. *)
Theorem addAccessorMethodForAssociatedIdp_request data w :
  let run := addAccessorMethodForAssociatedIdp E data w in
  (∀ nodes,
     getIdpNodes E (ir_namespace data) (ir_identifier data) = Replied nodes →
     thisNodeAmong E nodes = false →
     run = (Throw IDENTITY_NOT_FOUND, w, []))
  ∧ outcome_of run ≠ Throw IDENTITY_ALREADY_CREATED
  ∧ outcome_of run ≠ Throw MAXIMUM_IAL_EXCEED
  ∧ (∀ args,
       EvCreateRequest args ∈ log_of run →
       cr_request_message args
       = getRequestMessageForAddingAccessor E (ir_namespace data)
           (ir_identifier data) (ir_reference_id data) (nodeId E))
  ∧ (∀ request_id pending,
       EvDb (SetIdentityFromRequestId request_id pending) ∈ log_of run →
       id_associated pending = true ∧ truthy_num (id_ial pending) = false).
Proof.
  cbv zeta. rewrite addAccessorMethodForAssociatedIdp_run.
  assert (∀ e : error,
            e ≠ IDENTITY_ALREADY_CREATED → e ≠ MAXIMUM_IAL_EXCEED →
            (∀ nodes : list string,
               getIdpNodes E (ir_namespace data) (ir_identifier data)
               = Replied nodes →
               thisNodeAmong E nodes = false →
               e = IDENTITY_NOT_FOUND) →
            let run : outcome identity_result * World * list event :=
              (Throw e, w, []) in
            (∀ nodes,
               getIdpNodes E (ir_namespace data) (ir_identifier data)
               = Replied nodes →
               thisNodeAmong E nodes = false →
               run = (Throw IDENTITY_NOT_FOUND, w, []))
            ∧ outcome_of run ≠ Throw IDENTITY_ALREADY_CREATED
            ∧ outcome_of run ≠ Throw MAXIMUM_IAL_EXCEED
            ∧ (∀ args,
                 EvCreateRequest args ∈ log_of run →
                 cr_request_message args
                 = getRequestMessageForAddingAccessor E (ir_namespace data)
                     (ir_identifier data) (ir_reference_id data) (nodeId E))
            ∧ (∀ request_id pending,
                 EvDb (SetIdentityFromRequestId request_id pending)
                 ∈ log_of run →
                 id_associated pending = true
                 ∧ truthy_num (id_ial pending) = false)) as Hfailed.
  { intros e H1 H2 Hnot. cbv zeta. unfold outcome_of, log_of; simpl.
    split; [intros nodes Hn Ha; by rewrite (Hnot nodes Hn Ha)|].
    split; [congruence|]. split; [congruence|].
    split; [intros args Hin | intros request_id pending Hin];
      by apply elem_of_nil in Hin. }
  destruct (getIdpNodes E (ir_namespace data) (ir_identifier data))
    as [nodes|] eqn:Hnodes; [|by apply Hfailed].
  destruct (thisNodeAmong E nodes) eqn:Hamong; [|by apply Hfailed].
  split; [intros ? [= <-]; congruence|].
  destruct (createNewIdentity_run (addAccessorRequest data) w)
    as [(r & Hrun & Hr)
       | (nodes' & exist & url & Hnodes' & _ & _ & _ & _ & Hrun)];
    rewrite Hrun.
  - unfold outcome_of, log_of; simpl.
    split; [intros ->; discriminate|].
    split; [intros ->; destruct Hr as (info & _ & Hgt);
            by destruct (max_ial info)|].
    split; [intros args Hin | intros request_id pending Hin];
      by apply elem_of_nil in Hin.
  - simpl in Hnodes'. rewrite Hnodes in Hnodes'. injection Hnodes' as <-.
    rewrite Hamong.
    onboarding_cases;
      unfold identityTransactions in *;
      try destruct (truthy_str (identity_result_url (w_callbackUrls w)));
      simpl;
      (split; [discriminate|]); (split; [discriminate|]);
      (split; [intros args Hin | intros request_id' pending Hin]);
      elem_cases Hin; try discriminate; try done; by simplify_eq.
Qed.

End OnboardingExtras.

Lemma createNewIdentity_signs_before_request_witness :
  EvCreateRequest
    (consentRequest (Scenario.env 3 [] true true)
       (Scenario.onboarding (num 2) "citizen_id" "r1") true)
  ∈ log_of (createNewIdentity (Scenario.env 3 [] true true)
              (Scenario.onboarding (num 2) "citizen_id" "r1")
              (Scenario.world empty_store 99))
  ∧ ∃ url signature,
      fetchAccessorSign (Scenario.env 3 [] true true) url
        (accessorSignRequest (Scenario.env 3 [] true true)
           (Scenario.onboarding (num 2) "citizen_id" "r1"))
      = Replied signature.
Proof.
  assert (EvCreateRequest
            (consentRequest (Scenario.env 3 [] true true)
               (Scenario.onboarding (num 2) "citizen_id" "r1") true)
          ∈ log_of (createNewIdentity (Scenario.env 3 [] true true)
                      (Scenario.onboarding (num 2) "citizen_id" "r1")
                      (Scenario.world empty_store 99))) as Hin.
  { apply list_elem_of_In. vm_compute. right. left. reflexivity. }
  split; [exact Hin|].
  destruct (createNewIdentity_signs_before_request
              (Scenario.env 3 [] true true)
              (Scenario.onboarding (num 2) "citizen_id" "r1")
              (Scenario.world empty_store 99) _ Hin)
    as (url & signature & exist & after & _ & Hsign & _).
  exists url, signature. exact Hsign.
Defined.

Lemma createNewIdentity_existing_identity_witness :
  onboardDataByReferenceId (w_store (Scenario.world empty_store 99)) !! "r1"
  = None
  ∧ outcome_of (createNewIdentity (Scenario.env 3 [] true true)
                  (Scenario.onboarding (num 2) "citizen_id" "r1")
                  (Scenario.world empty_store 99))
    = Ok {| res_request_id := "req-onboard"; res_exist := true;
            res_accessor_id := "acc-random" |}
  ∧ (∀ tx,
       EvTx tx ∉ log_of (createNewIdentity (Scenario.env 3 [] true true)
                           (Scenario.onboarding (num 2) "citizen_id" "r1")
                           (Scenario.world empty_store 99)))
  ∧ ∃ url pending,
      log_of (createNewIdentity (Scenario.env 3 [] true true)
                (Scenario.onboarding (num 2) "citizen_id" "r1")
                (Scenario.world empty_store 99))
      = [EvFetchAccessorSign url
           (accessorSignRequest (Scenario.env 3 [] true true)
              (Scenario.onboarding (num 2) "citizen_id" "r1"));
         EvCreateRequest
           (consentRequest (Scenario.env 3 [] true true)
              (Scenario.onboarding (num 2) "citizen_id" "r1") true);
         EvDb (SetOnboardDataByReferenceId "r1"
                 {| od_request_id := "req-onboard";
                    od_accessor_id := "acc-random" |});
         EvDb (SetIdentityFromRequestId "req-onboard" pending)].
Proof.
  split; [reflexivity|]. split; [reflexivity|].
  destruct (createNewIdentity_existing_identity (Scenario.env 3 [] true true)
              (Scenario.onboarding (num 2) "citizen_id" "r1")
              (Scenario.world empty_store 99)
              {| res_request_id := "req-onboard"; res_exist := true;
                 res_accessor_id := "acc-random" |}
              eq_refl eq_refl eq_refl)
    as (_ & _ & Hnone & url & pending & _ & _ & Hlog).
  split; [exact Hnone|]. exists url, pending. exact Hlog.
Defined.

Lemma createNewIdentity_new_identity_witness :
  onboardDataByReferenceId (w_store (Scenario.world empty_store 99)) !! "r1"
  = None
  ∧ outcome_of (createNewIdentity (Scenario.env 3 [] false false)
                  (Scenario.onboarding (num 2) "citizen_id" "r1")
                  (Scenario.world empty_store 99))
    = Ok {| res_request_id := "req-onboard"; res_exist := false;
            res_accessor_id := "acc-random" |}
  ∧ ∀ url body,
      EvCallback url body
      ∈ log_of (createNewIdentity (Scenario.env 3 [] false false)
                  (Scenario.onboarding (num 2) "citizen_id" "r1")
                  (Scenario.world empty_store 99)) →
      forallb (λ tx, is_replied (submit (Scenario.env 3 [] false false) tx))
        (identityTransactions (Scenario.env 3 [] false false)
           (Scenario.onboarding (num 2) "citizen_id" "r1"))
      = true.
Proof.
  split; [reflexivity|]. split; [reflexivity|].
  destruct (createNewIdentity_new_identity (Scenario.env 3 [] false false)
              (Scenario.onboarding (num 2) "citizen_id" "r1")
              (Scenario.world empty_store 99)
              {| res_request_id := "req-onboard"; res_exist := false;
                 res_accessor_id := "acc-random" |}
              eq_refl eq_refl eq_refl) as (_ & _ & Hcallback & _).
  intros url body Hin. destruct (Hcallback url body Hin) as [Hconfirmed _].
  exact Hconfirmed.
Defined.

Lemma createNewIdentity_sign_url_witness :
  accessor_sign_url (w_callbackUrls (Scenario.world empty_store 99))
  = Some "http://client/sign"
  ∧ (log_of (createNewIdentity (Scenario.env 3 [] true true)
               (Scenario.onboarding (num 2) "citizen_id" "r1")
               (Scenario.world empty_store 99)) = []
     ∨ ∃ after,
         log_of (createNewIdentity (Scenario.env 3 [] true true)
                   (Scenario.onboarding (num 2) "citizen_id" "r1")
                   (Scenario.world empty_store 99))
         = EvFetchAccessorSign "http://client/sign"
             (accessorSignRequest (Scenario.env 3 [] true true)
                (Scenario.onboarding (num 2) "citizen_id" "r1"))
           :: after).
Proof.
  split; [reflexivity|].
  destruct (createNewIdentity_sign_url (Scenario.env 3 [] true true)
              (Scenario.onboarding (num 2) "citizen_id" "r1")
              (Scenario.world empty_store 99)) as (_ & _ & Hsigned).
  exact (Hsigned "http://client/sign" eq_refl).
Defined.

Lemma addAccessorMethodForAssociatedIdp_request_witness :
  getIdpNodes (Scenario.env 3 [] true true) "citizen_id" "123" = Replied []
  ∧ thisNodeAmong (Scenario.env 3 [] true true) [] = false
  ∧ addAccessorMethodForAssociatedIdp (Scenario.env 3 [] true true)
      (Scenario.onboarding (num 2) "citizen_id" "r1")
      (Scenario.world empty_store 99)
    = (Throw IDENTITY_NOT_FOUND, Scenario.world empty_store 99, []).
Proof.
  split; [reflexivity|]. split; [reflexivity|].
  destruct (addAccessorMethodForAssociatedIdp_request
              (Scenario.env 3 [] true true)
              (Scenario.onboarding (num 2) "citizen_id" "r1")
              (Scenario.world empty_store 99)) as [Hnot _].
  exact (Hnot [] eq_refl eq_refl).
Defined.

(** ** Consent to an onboarding (idp.js, core/identity.js) *)

Section ConsentExtras.

Variable E : Env.

(** The cases of a membership in a list put together from others. *)
Ltac elem_split H :=
  repeat first [rewrite elem_of_app in H | rewrite elem_of_cons in H
               | rewrite elem_of_nil in H];
  repeat match type of H with
         | _ ∨ _ => destruct H as [H | H]
         end.

Ltac settle :=
  unfold dispatch, checkOnboardResponse, addAccessorAfterConsent,
    transact_all, notifyAddAccessorResultByCallback,
    notifyCreateIdentityResultByCallback, notifyByCallback,
    consentTransactions, identityResultCallback;
  repeat (mred;
          match goal with
          | H : ?l = _ |- context [?l] => rewrite H
          end);
  mred.

Lemma addAccessorAfterConsent_run request_id old_accessor_id w :
  addAccessorAfterConsent E request_id old_accessor_id w
  = match getAccessorGroupId E old_accessor_id with
    | Rejected => (Throw ExternalCallRejected, w, [])
    | Replied accessor_group_id =>
        match identityFromRequestId (w_store w) !! request_id with
        | None => (Throw TypeError, w, [])
        | Some i =>
            let txs := consentTransactions request_id accessor_group_id i in
            if forallb (λ tx, is_replied (submit E tx)) txs
            then (Ok (id_secret i, id_associated i),
                  with_store
                    (apply_db (RemoveIdentityFromRequestId request_id)) w,
                  (EvTx <$> txs)
                  ++ [EvDb (RemoveIdentityFromRequestId request_id)])
            else (Throw ExternalCallRejected, w, EvTx <$> txs)
        end
    end.
Proof.
  destruct (getAccessorGroupId E old_accessor_id) as [group|] eqn:Hgroup;
    [|by settle].
  destruct (identityFromRequestId (w_store w) !! request_id) as [i|] eqn:Hi;
    [|by settle].
  cbv zeta. unfold consentTransactions.
  destruct (truthy_num (id_ial i)) eqn:Hial; cbn [app forallb];
    destruct (is_replied (submit E (TxAddAccessorMethod _ _ _ _ _)))
      eqn:Hadd; cbn [andb];
    try (destruct (is_replied (submit E (TxRegisterMqDestination _ _)))
           eqn:Hregister);
    by settle.
Qed.

Lemma checkOnboardResponse_run m w :
  (∃ e, checkOnboardResponse E m w = (Throw e, w, []))
  ∨ ∃ consented : bool,
      checkOnboardResponse E m w
      = (Ok consented,
         with_store (apply_db (RemoveChallengeFromRequestId (m_request_id m)))
           w,
         (if consented then []
          else identityResultCallback w "add_accessor_result"
                 (m_request_id m) false None)
         ++ [EvDb (RemoveChallengeFromRequestId (m_request_id m))])
      ∧ (consented = true
         ↔ verifyZKProof E (m_request_id m) (m_idp_id m) m 3 = Replied true
           ∧ ∃ rest, getRequestDetail E (m_request_id m)
                     = Replied (Some ("accept" :: rest))).
Proof.
  destruct (getRequestDetail E (m_request_id m)) as [[response_list|]|]
    eqn:Hdetail; [|left; eexists; by settle..].
  destruct (verifyZKProof E (m_request_id m) (m_idp_id m) m 3)
    as [[]|] eqn:Hverified; [| |left; eexists; by settle].
  - destruct response_list as [|status rest];
      [left; eexists; by settle|].
    right. destruct (decide (status = "accept")) as [-> | Hstatus].
    + exists true. split; [by settle|]. split; [eauto|done].
    + exists false. split.
      * unfold identityResultCallback.
        destruct (truthy_str (identity_result_url (w_callbackUrls w)))
          eqn:Hurl; settle;
          by rewrite (bool_decide_eq_false_2 (status = "accept")) by done;
            mred; rewrite ?Hurl.
      * split; [done|]. intros (_ & rest' & [= -> _]). done.
  - right. exists false. split.
    + unfold identityResultCallback.
      destruct (truthy_str (identity_result_url (w_callbackUrls w)))
        eqn:Hurl; by settle.
    + split; [done|]. intros ([=] & _).
Qed.

(** X18: [addAccessorAfterConsent] is all or nothing for the identity
    kept under the request id: it is removed exactly when the call
    resolves, which is when the ledger accepted every transaction of the
    call; the accessor is always added to the group of the old accessor,
    and the message-queue destination is registered only for an identity
    kept with an ial. *)
Theorem addAccessorAfterConsent_all_or_nothing request_id old_accessor_id w
    pending :
  identityFromRequestId (w_store w) !! request_id = Some pending →
  let run := addAccessorAfterConsent E request_id old_accessor_id w in
  (∀ tx, EvTx tx ∈ log_of run →
     (∃ accessor_group_id,
        getAccessorGroupId E old_accessor_id = Replied accessor_group_id
        ∧ tx = TxAddAccessorMethod request_id accessor_group_id
                 (id_accessor_type pending) (id_accessor_id pending)
                 (id_accessor_public_key pending))
     ∨ (tx = TxRegisterMqDestination (id_hash_id pending) (id_ial pending)
        ∧ truthy_num (id_ial pending) = true))
  ∧ (identityFromRequestId (w_store (world_of run)) !! request_id = None
     ↔ outcome_of run = Ok (id_secret pending, id_associated pending))
  ∧ (outcome_of run = Ok (id_secret pending, id_associated pending) →
     ∀ tx, EvTx tx ∈ log_of run → is_replied (submit E tx) = true)
  ∧ (∀ e, outcome_of run = Throw e → world_of run = w).
Proof.
  intros Hpending. cbv zeta. rewrite addAccessorAfterConsent_run, Hpending.
  destruct (getAccessorGroupId E old_accessor_id) as [group|] eqn:Hgroup.
  2: { unfold log_of, world_of, outcome_of; simpl.
       split; [intros tx Htx; by apply elem_of_nil in Htx|].
       split; [split; [congruence | discriminate]|].
       split; [discriminate | done]. }
  cbv zeta.
  assert (∀ tx, EvTx tx ∈ EvTx <$> consentTransactions request_id group pending →
                tx ∈ consentTransactions request_id group pending) as Htxs.
  { intros tx (tx' & [= ->] & Hin)%list_elem_of_fmap. exact Hin. }
  assert (∀ tx, tx ∈ consentTransactions request_id group pending →
                (∃ accessor_group_id,
                   Replied group = Replied accessor_group_id
                   ∧ tx = TxAddAccessorMethod request_id accessor_group_id
                            (id_accessor_type pending) (id_accessor_id pending)
                            (id_accessor_public_key pending))
                ∨ (tx = TxRegisterMqDestination (id_hash_id pending)
                          (id_ial pending)
                   ∧ truthy_num (id_ial pending) = true)) as Hshape.
  { intros tx Hin. unfold consentTransactions in Hin.
    destruct (truthy_num (id_ial pending)); elem_cases Hin; try done;
      subst tx; eauto. }
  destruct (forallb _ (consentTransactions request_id group pending))
    eqn:Hall; unfold log_of, world_of, outcome_of; cbn [fst snd].
  - split.
    { intros tx Htx. apply elem_of_app in Htx as [Htx | Htx].
      - by apply Hshape, Htxs.
      - apply list_elem_of_singleton in Htx. discriminate. }
    split; [split; [done | intros _; destruct w as [[] ? ?];
                                apply lookup_delete_eq]|].
    split; [|discriminate].
    intros _ tx Htx. apply elem_of_app in Htx as [Htx | Htx].
    + rewrite forallb_forall in Hall. apply Hall, list_elem_of_In, Htxs, Htx.
    + apply list_elem_of_singleton in Htx. discriminate.
  - split; [intros tx Htx; by apply Hshape, Htxs|].
    split; [split; [congruence | discriminate]|].
    split; [discriminate | done].
Qed.

(** X19: [checkOnboardResponse] resolves to true exactly when the
    zero-knowledge proof of the message verifies and the status of the
    first response of the request is 'accept'.  Whenever it resolves, it
    has removed the challenge of the request; when it resolves to false
    it has first reported the failure, as an 'add_accessor_result',
    provided the client has set a URL for it. *)
Theorem checkOnboardResponse_verdict m w consented :
  outcome_of (checkOnboardResponse E m w) = Ok consented →
  (consented = true
   ↔ verifyZKProof E (m_request_id m) (m_idp_id m) m 3 = Replied true
     ∧ ∃ rest, getRequestDetail E (m_request_id m)
               = Replied (Some ("accept" :: rest)))
  ∧ challengeFromRequestId (w_store (world_of (checkOnboardResponse E m w)))
    !! m_request_id m = None
  ∧ log_of (checkOnboardResponse E m w)
    = (if consented then []
       else identityResultCallback w "add_accessor_result" (m_request_id m)
              false None)
      ++ [EvDb (RemoveChallengeFromRequestId (m_request_id m))].
Proof.
  intros Hout.
  destruct (checkOnboardResponse_run m w) as [[e Hrun] | (b & Hrun & Hb)];
    rewrite Hrun in Hout |- *; unfold outcome_of, world_of, log_of in *;
    cbn [fst snd] in *; [discriminate|].
  injection Hout as ->. split; [exact Hb|]. split; [|done].
  destruct w as [[] ? ?]. apply lookup_delete_eq.
Qed.

(** The run of [dispatch] on a message that carries an accessor id. *)
Lemma dispatch_onboard_run m w :
  truthy_str (m_accessor_id m) = true →
  dispatch E m w
  = let '(r1, w1, l1) := checkOnboardResponse E m w in
    match r1 with
    | Throw e => (Throw e, w1, EvDispatch OnboardConsent m :: l1)
    | Ok false => (Ok tt, w1, EvDispatch OnboardConsent m :: l1)
    | Ok true =>
        let '(r2, w2, l2) :=
          addAccessorAfterConsent E (m_request_id m)
            (js_str (m_accessor_id m)) w1 in
        match r2 with
        | Throw e => (Throw e, w2, EvDispatch OnboardConsent m :: l1 ++ l2)
        | Ok (secret, associated) =>
            (Ok tt, w2,
             EvDispatch OnboardConsent m
             :: l1 ++ l2
                ++ identityResultCallback w2
                     (if associated then "add_accessor_result"
                      else "create_identity_result")
                     (m_request_id m) true (Some secret))
        end
    end.
Proof.
  intros Haccessor. unfold dispatch. rewrite Haccessor.
  rewrite run_bind. unfold emit at 1. cbv iota beta. rewrite run_bind.
  destruct (checkOnboardResponse E m w) as [[[[]|e] w1] l1];
    [|by mred; rewrite ?app_nil_r..].
  rewrite run_bind.
  destruct (addAccessorAfterConsent E _ _ w1)
    as [[[[secret []]|e] w2] l2]; [| |done];
    unfold notifyAddAccessorResultByCallback,
      notifyCreateIdentityResultByCallback, notifyByCallback,
      identityResultCallback; mred;
    destruct (truthy_str (identity_result_url (w_callbackUrls w2)));
    simpl; by rewrite ?app_nil_r.
Qed.

(** X20: an onboarding response submits a transaction only when its
    zero-knowledge proof verifies, the user accepted, and an identity is
    kept for the request; and every failure it reports is reported as an
    'add_accessor_result', whether the request was to add an accessor or
    to create an identity. *)
Theorem onboard_consent_transactions m w :
  truthy_str (m_accessor_id m) = true →
  (∀ tx, EvTx tx ∈ log_of (dispatch E m w) →
     verifyZKProof E (m_request_id m) (m_idp_id m) m 3 = Replied true
     ∧ (∃ rest, getRequestDetail E (m_request_id m)
                = Replied (Some ("accept" :: rest)))
     ∧ ∃ pending,
         identityFromRequestId (w_store w) !! m_request_id m = Some pending
         ∧ tx ∈ consentTransactions (m_request_id m)
                  (match getAccessorGroupId E (js_str (m_accessor_id m)) with
                   | Replied accessor_group_id => accessor_group_id
                   | Rejected => ""
                   end) pending)
  ∧ (∀ url type request_id secret,
       EvCallback url (CbIdentityResult type request_id false secret)
       ∈ log_of (dispatch E m w) →
       type = "add_accessor_result" ∧ request_id = m_request_id m
       ∧ secret = None
       ∧ ∀ tx, EvTx tx ∉ log_of (dispatch E m w)).
Proof.
  intros Haccessor. rewrite (dispatch_onboard_run m w Haccessor).
  assert (∀ w' type request_id success secret e,
            e ∈ identityResultCallback w' type request_id success secret →
            ∃ url, e = EvCallback url
                         (CbIdentityResult type request_id success secret))
    as Hcallback.
  { intros w' type request_id success secret e He.
    unfold identityResultCallback in He.
    destruct (truthy_str (identity_result_url (w_callbackUrls w')));
      elem_cases He; try done; eauto. }
  destruct (checkOnboardResponse_run m w) as [[e ->] | (b & -> & Hb)].
  { unfold log_of; simpl.
    split; [intros tx Htx | intros url type request_id secret Hcb].
    - apply list_elem_of_singleton in Htx. discriminate.
    - apply list_elem_of_singleton in Hcb. discriminate. }
  set (w1 := with_store _ w).
  assert (identityFromRequestId (w_store w1) = identityFromRequestId (w_store w))
    as Hsame by (subst w1; by destruct w as [[] ? ?]).
  destruct b.
  - destruct Hb as [Hb _]. destruct (Hb eq_refl) as [Hverified Haccept].
    rewrite addAccessorAfterConsent_run, Hsame.
    destruct (getAccessorGroupId E _) as [group|];
      [destruct (identityFromRequestId (w_store w) !! m_request_id m)
         as [pending|] eqn:Hpending;
         [cbv zeta; destruct (forallb _ _)|]|];
      unfold log_of; cbn [fst snd app];
      (split; [intros tx Htx | intros url type request_id secret Hcb]);
      try (split; [done|]; split; [done|]; exists pending; split; [done|]);
      elem_split Htx || elem_split Hcb;
      first [ discriminate
            | done
            | apply list_elem_of_fmap in Htx as (tx' & ? & ?); by simplify_eq
            | apply list_elem_of_fmap in Hcb as (tx' & ? & ?); by simplify_eq
            | apply Hcallback in Htx as [? ?]; by simplify_eq
            | apply Hcallback in Hcb as [? ?]; by simplify_eq ].
  - unfold log_of; cbn [fst snd app].
    assert (∀ tx, EvTx tx
                  ∉ EvDispatch OnboardConsent m
                    :: identityResultCallback w "add_accessor_result"
                         (m_request_id m) false None
                       ++ [EvDb (RemoveChallengeFromRequestId (m_request_id m))])
      as Hnone.
    { intros tx Htx. elem_split Htx; try discriminate; try done.
      apply Hcallback in Htx as [? ?]. discriminate. }
    split; [intros tx Htx; by apply Hnone in Htx|].
    intros url type request_id secret Hcb.
    elem_split Hcb; try discriminate; try done.
    apply Hcallback in Hcb as [url' [= _ -> -> ->]]. done.
Qed.

End ConsentExtras.

Lemma addAccessorAfterConsent_all_or_nothing_witness :
  identityFromRequestId
    (w_store (Scenario.world ScenarioOnboarding.pending 99)) !! "req-onboard"
  = Some ScenarioOnboarding.identity
  ∧ outcome_of (addAccessorAfterConsent (Scenario.env 3 [] true true)
                  "req-onboard" "acc-old"
                  (Scenario.world ScenarioOnboarding.pending 99))
    = Ok ("pad|signature", false)
  ∧ identityFromRequestId
      (w_store (world_of (addAccessorAfterConsent (Scenario.env 3 [] true true)
                            "req-onboard" "acc-old"
                            (Scenario.world ScenarioOnboarding.pending 99))))
    !! "req-onboard" = None.
Proof.
  split; [reflexivity|]. split; [reflexivity|].
  destruct (addAccessorAfterConsent_all_or_nothing
              (Scenario.env 3 [] true true) "req-onboard" "acc-old"
              (Scenario.world ScenarioOnboarding.pending 99)
              ScenarioOnboarding.identity eq_refl) as (_ & [_ Hremoved] & _).
  exact (Hremoved eq_refl).
Defined.

Lemma checkOnboardResponse_verdict_witness :
  outcome_of (checkOnboardResponse (Scenario.env 3 [] true true)
                (ScenarioOnboarding.consent_response 100)
                (Scenario.world ScenarioOnboarding.pending 101))
  = Ok true
  ∧ log_of (checkOnboardResponse (Scenario.env 3 [] true true)
              (ScenarioOnboarding.consent_response 100)
              (Scenario.world ScenarioOnboarding.pending 101))
    = [EvDb (RemoveChallengeFromRequestId "req-onboard")].
Proof.
  split; [reflexivity|].
  destruct (checkOnboardResponse_verdict (Scenario.env 3 [] true true)
              (ScenarioOnboarding.consent_response 100)
              (Scenario.world ScenarioOnboarding.pending 101) true eq_refl)
    as (_ & _ & Hlog).
  exact Hlog.
Defined.

Lemma onboard_consent_transactions_witness :
  truthy_str (m_accessor_id (ScenarioOnboarding.consent_response 100)) = true
  ∧ EvTx (TxAddAccessorMethod "req-onboard" "group1" "RSA" "acc-random" "PK1")
    ∈ log_of (dispatch (Scenario.env 3 [] true true)
                (ScenarioOnboarding.consent_response 100)
                (Scenario.world ScenarioOnboarding.pending 101))
  ∧ verifyZKProof (Scenario.env 3 [] true true) "req-onboard" (Some "idp2")
      (ScenarioOnboarding.consent_response 100) 3
    = Replied true.
Proof.
  assert (EvTx (TxAddAccessorMethod "req-onboard" "group1" "RSA" "acc-random"
                  "PK1")
          ∈ log_of (dispatch (Scenario.env 3 [] true true)
                      (ScenarioOnboarding.consent_response 100)
                      (Scenario.world ScenarioOnboarding.pending 101))) as Hin.
  { apply list_elem_of_In. vm_compute. right. right. left. reflexivity. }
  split; [reflexivity|]. split; [exact Hin|].
  destruct (onboard_consent_transactions (Scenario.env 3 [] true true)
              (ScenarioOnboarding.consent_response 100)
              (Scenario.world ScenarioOnboarding.pending 101) eq_refl)
    as [Htx _].
  destruct (Htx _ Hin) as [Hverified _].
  exact Hverified.
Defined.

(** ** Routing data, the buffer and its rows (idp.js) *)

Section BufferExtras.

Variable E : Env.

#[local] Arguments dispatch : simpl never.

(** [dispatch] writes nothing of what routes a later response. *)
Lemma dispatch_frame_routing m w :
  let w' := world_of (dispatch E m w) in
  rpIdFromRequestId (w_store w') = rpIdFromRequestId (w_store w)
  ∧ publicProofReceivedFromMQ (w_store w')
    = publicProofReceivedFromMQ (w_store w)
  ∧ requestData (w_store w') = requestData (w_store w).
Proof.
  destruct w as [[] latest urls].
  unfold dispatch, checkOnboardResponse, addAccessorAfterConsent,
    transact_all, notifyAddAccessorResultByCallback,
    notifyCreateIdentityResultByCallback, notifyIncomingRequestByCallback,
    notifyByCallback.
  mred.
  repeat (case_inner; mred); done.
Qed.

(** X21: the RP of a request, the public proofs of a challenge request
    and the private proofs of an onboarding response are stored only in
    the branch that buffers the message: a message handled at once, its
    height being below the latest block height, leaves all three as they
    were, so that a response to it is sent to the RP recorded before, or
    to none. *)
Theorem routing_stored_when_buffered m w :
  m_challenge m = None →
  let w' := world_of (handleMessageFromQueue E m w) in
  ((w_latestBlockHeight w ≤ m_height m)%Z →
   rpIdFromRequestId (w_store w') !! m_request_id m = Some (m_rp_id m))
  ∧ ((m_height m < w_latestBlockHeight w)%Z →
     rpIdFromRequestId (w_store w') = rpIdFromRequestId (w_store w)
     ∧ publicProofReceivedFromMQ (w_store w')
       = publicProofReceivedFromMQ (w_store w)
     ∧ requestData (w_store w') = requestData (w_store w)).
Proof.
  intros Hchallenge. cbv zeta. split.
  - intros Hheight. apply Z.leb_le in Hheight.
    destruct w as [[] latest urls]. simpl in Hheight.
    unfold handleMessageFromQueue. rewrite Hchallenge. mred.
    destruct (bool_decide (m_type m = Some "request_challenge")); mred;
      rewrite Hheight; mred;
      destruct (truthy_str (m_accessor_id m)); mred;
      repeat (case_inner; mred);
      apply lookup_insert_eq.
  - intros Hheight. apply Z.leb_gt in Hheight.
    remember (handleMessageFromQueue E m w) as run eqn:Hrun.
    unfold handleMessageFromQueue in Hrun. rewrite Hchallenge in Hrun.
    set (received :=
           if negb (bool_decide (m_type m = Some "request_challenge"))
           then db (SetRequestReceivedFromMQ (m_request_id m)
                      {| sr_message := m; sr_k := None |})
           else mret tt) in Hrun.
    assert (∃ w1 l1,
               received w = (Ok tt, w1, l1)
               ∧ rpIdFromRequestId (w_store w1) = rpIdFromRequestId (w_store w)
               ∧ publicProofReceivedFromMQ (w_store w1)
                 = publicProofReceivedFromMQ (w_store w)
               ∧ requestData (w_store w1) = requestData (w_store w)
               ∧ w_latestBlockHeight w1 = w_latestBlockHeight w)
      as (w1 & l1 & Hreceived & Hrp & Hpp & Hrd & Hlatest).
    { subst received. destruct w as [[] ? ?].
      destruct (negb _); mred; eexists _, _; done. }
    rewrite run_bind, Hreceived in Hrun. rewrite run_bind in Hrun.
    unfold db at 1 in Hrun. rewrite run_bind in Hrun.
    unfold read at 1 in Hrun. cbn [w_latestBlockHeight with_store] in Hrun.
    rewrite Hlatest, Hheight in Hrun. rewrite run_bind in Hrun.
    unfold db at 1 in Hrun.
    match type of Hrun with
    | context [dispatch E m ?w2] =>
        pose proof (dispatch_frame_routing m w2) as (H1 & H2 & H3);
        destruct (dispatch E m w2) as [[r w3] l3]
    end.
    subst run. unfold world_of in *. simpl in *. rewrite H1, H2, H3.
    destruct w1 as [[] ? ?]. simpl in *. done.
Qed.

(** X22: whatever reaches the node (messages, block headers, moves of
    the latest block height), in any order, every message of the
    to-process buffer stays kept under its own request id, carries no
    challenge, and has its row among the ids expected in a block, so
    that a replay window over its height finds it. *)
Theorem buffer_awaited inputs w :
  awaited (w_store w) → awaited (w_store (react_all E w inputs)).
Proof.
  revert w. unfold react_all.
  induction inputs as [|i rest IH]; intros w Hawaited; [done|].
  simpl. apply IH. clear IH rest.
  destruct i as [m | height missingBlockCount | height]; simpl; [| |done].
  - destruct (m_challenge m) as [challenge|] eqn:Hchallenge.
    { rewrite (handleMessageFromQueue_challenge E m challenge) by done.
      destruct w as [[] latest urls]. simpl in *.
      by destruct (_ !! m_request_id m). }
    destruct (Z_le_gt_dec (w_latestBlockHeight w) (m_height m)) as [Hle|Hgt].
    + destruct (handleMessageFromQueue_buffered E m w Hchallenge Hle)
        as (w' & l & -> & _ & _ & Hbuffer & Hrows & _).
      simpl. intros id m'. rewrite Hbuffer, Hrows.
      destruct (decide (id = m_request_id m)) as [-> | Hne].
      * rewrite lookup_insert_eq. intros [= <-].
        split; [done|]. split; [done|].
        apply elem_of_app. right. apply list_elem_of_here.
      * rewrite lookup_insert_ne by done. intros Hm'.
        destruct (Hawaited id m' Hm') as (? & ? & ?).
        split; [done|]. split; [done|]. apply elem_of_app. by left.
    + destruct (handleMessageFromQueue_immediate E m w Hchallenge)
        as (r & w' & l & -> & _ & Hbuffer & Hrows); [lia|].
      simpl. intros id m'. rewrite Hbuffer, Hrows.
      destruct (decide (id = m_request_id m)) as [-> | Hne].
      * by rewrite lookup_delete_eq.
      * rewrite lookup_delete_ne, lookup_insert_ne by done.
        apply Hawaited.
  - destruct (handleTendermintNewBlockHeaderEvent_run E height
                missingBlockCount w)
      as (r & w' & l & -> & _ & Hbuffer & _ & Hpurged & Hkept).
    simpl. intros id m. rewrite Hbuffer, lookup_foldl_delete.
    destruct (decide (id ∈ _)) as [Hin | Hout]; [done|].
    intros Hm. destruct (Hawaited id m Hm) as (Hid & Hchallenge & Hrow).
    split; [done|]. split; [done|].
    destruct r as [[]|e];
      [rewrite (Hpurged eq_refl) | by rewrite Hkept].
    apply list_elem_of_filter. split; [|done].
    apply Is_true_true, negb_true_iff, not_true_iff_false. intros Hrange.
    apply Hout, elem_of_getRequestIdsExpectedInBlock.
    exists (m_height m). split; [done|].
    by apply in_range_spec in Hrange.
Qed.

(** X23: the rows of a replay window are purged only after every replay
    of the window has returned.  When one of them rejects, the rows
    stay while their messages have left the buffer: the block header
    that follows rejects in turn if its window holds one of these
    rows. *)
Theorem stale_rows_reject height missingBlockCount w height'
    missingBlockCount' tagged id :
  outcome_of (handleTendermintNewBlockHeaderEvent E height
                missingBlockCount w) ≠ Ok tt →
  (tagged, id) ∈ requestIdsExpectedInBlock (w_store w) →
  in_window height missingBlockCount tagged →
  in_window height' missingBlockCount' tagged →
  let w' := world_of (handleTendermintNewBlockHeaderEvent E height
                        missingBlockCount w) in
  requestIdsExpectedInBlock (w_store w') = requestIdsExpectedInBlock (w_store w)
  ∧ requestToProcessReceivedFromMQ (w_store w') !! id = None
  ∧ outcome_of (handleTendermintNewBlockHeaderEvent E height'
                  missingBlockCount' w') ≠ Ok tt.
Proof.
  intros Hrejected Hrow Hwindow Hwindow'. cbv zeta.
  destruct (handleTendermintNewBlockHeaderEvent_run E height
              missingBlockCount w)
    as (r & w' & l & Hrun & _ & Hbuffer & _ & _ & Hkept).
  rewrite Hrun in Hrejected |- *. unfold outcome_of, world_of in *.
  cbn [fst snd] in *. specialize (Hkept Hrejected).
  assert (requestToProcessReceivedFromMQ (w_store w') !! id = None) as Hgone.
  { rewrite Hbuffer, lookup_foldl_delete. rewrite decide_True; [done|].
    apply elem_of_getRequestIdsExpectedInBlock. eauto. }
  split; [done|]. split; [done|].
  pose proof (handleTendermintNewBlockHeaderEvent_effects E height'
                missingBlockCount' w') as Heffects.
  cbv zeta in Heffects. destruct Heffects as (_ & Habsent & _).
  apply (Habsent id); [|done].
  apply elem_of_getRequestIdsExpectedInBlock. exists tagged.
  by rewrite Hkept.
Qed.

End BufferExtras.

Lemma awaited_empty : awaited empty_store.
Proof. intros id m Hm. simpl in Hm. by rewrite lookup_empty in Hm. Defined.

Lemma routing_stored_when_buffered_witness :
  m_challenge (Scenario.consent "req1" 90) = None
  ∧ (m_height (Scenario.consent "req1" 90)
     < w_latestBlockHeight (Scenario.world empty_store 99))%Z
  ∧ rpIdFromRequestId
      (w_store (world_of (handleMessageFromQueue (Scenario.env 3 [] true true)
                            (Scenario.consent "req1" 90)
                            (Scenario.world empty_store 99))))
    = rpIdFromRequestId (w_store (Scenario.world empty_store 99)).
Proof.
  split; [reflexivity|]. split; [simpl; lia|].
  destruct (routing_stored_when_buffered (Scenario.env 3 [] true true)
              (Scenario.consent "req1" 90) (Scenario.world empty_store 99)
              eq_refl) as [_ Himmediate].
  destruct Himmediate as [Hrp _]; [simpl; lia|].
  exact Hrp.
Defined.

Lemma buffer_awaited_witness :
  awaited (w_store (Scenario.world empty_store 99))
  ∧ awaited
      (w_store (react_all (Scenario.env 3 [] true true)
                  (Scenario.world empty_store 99)
                  [Deliver (Scenario.consent "req1" 100);
                   NewBlockHeader 100 (Some 0);
                   Deliver (Scenario.request_challenge "req2" 101)])).
Proof.
  split; [exact awaited_empty|].
  apply (buffer_awaited (Scenario.env 3 [] true true)
           [Deliver (Scenario.consent "req1" 100);
            NewBlockHeader 100 (Some 0);
            Deliver (Scenario.request_challenge "req2" 101)]
           (Scenario.world empty_store 99)).
  exact awaited_empty.
Defined.

Lemma stale_rows_reject_witness :
  outcome_of (handleTendermintNewBlockHeaderEvent (Scenario.env 3 [] true true)
                101 (Some 0)
                (react_all (Scenario.env 3 [] true true)
                   (Scenario.world empty_store 99)
                   [Deliver (Scenario.consent "req1" 100);
                    Deliver (Scenario.consent "req1" 90)]))
  ≠ Ok tt
  ∧ (100, "req1")
    ∈ requestIdsExpectedInBlock
        (w_store (react_all (Scenario.env 3 [] true true)
                    (Scenario.world empty_store 99)
                    [Deliver (Scenario.consent "req1" 100);
                     Deliver (Scenario.consent "req1" 90)]))
  ∧ in_window 101 (Some 0) 100
  ∧ in_window 103 None 100
  ∧ outcome_of
      (handleTendermintNewBlockHeaderEvent (Scenario.env 3 [] true true)
         103 None
         (world_of
            (handleTendermintNewBlockHeaderEvent (Scenario.env 3 [] true true)
               101 (Some 0)
               (react_all (Scenario.env 3 [] true true)
                  (Scenario.world empty_store 99)
                  [Deliver (Scenario.consent "req1" 100);
                   Deliver (Scenario.consent "req1" 90)]))))
    ≠ Ok tt.
Proof.
  assert (outcome_of
            (handleTendermintNewBlockHeaderEvent (Scenario.env 3 [] true true)
               101 (Some 0)
               (react_all (Scenario.env 3 [] true true)
                  (Scenario.world empty_store 99)
                  [Deliver (Scenario.consent "req1" 100);
                   Deliver (Scenario.consent "req1" 90)]))
          ≠ Ok tt) as Hrejected.
  { vm_compute. discriminate. }
  assert ((100, "req1")
          ∈ requestIdsExpectedInBlock
              (w_store (react_all (Scenario.env 3 [] true true)
                          (Scenario.world empty_store 99)
                          [Deliver (Scenario.consent "req1" 100);
                           Deliver (Scenario.consent "req1" 90)]))) as Hrow.
  { apply list_elem_of_In. vm_compute. left. reflexivity. }
  assert (in_window 101 (Some 0) 100) as Hwindow.
  { unfold in_window. simpl. lia. }
  assert (in_window 103 None 100) as Hwindow'.
  { unfold in_window. simpl. lia. }
  do 4 (split; [assumption|]).
  destruct (stale_rows_reject (Scenario.env 3 [] true true) 101 (Some 0)
              (react_all (Scenario.env 3 [] true true)
                 (Scenario.world empty_store 99)
                 [Deliver (Scenario.consent "req1" 100);
                  Deliver (Scenario.consent "req1" 90)])
              103 None 100 "req1" Hrejected Hrow Hwindow Hwindow')
    as (_ & _ & Hagain).
  exact Hagain.
Defined.

(** ** The external signing and decryption service (dpki.js) *)

Section DpkiExtras.

Variable getNodePubKey : reply (option string).
Variable getNodeMasterPubKey : reply (option string).
Variable hash : string → string.
Variable verifySignature : option string → option string → string → bool.
Variable publicEncrypt : option string → string → string.
Variable signEndpoint : string → string → string → reply (option string).
Variable decryptEndpoint : string → string → reply (option string).

#[local] Abbreviation setDpkiCallback :=
  (Dpki.setDpkiCallback getNodePubKey hash verifySignature publicEncrypt
     signEndpoint decryptEndpoint).
#[local] Abbreviation setMasterSignatureCallback :=
  (Dpki.setMasterSignatureCallback getNodeMasterPubKey hash verifySignature
     signEndpoint).
#[local] Abbreviation decryptAsymetricKey := (Dpki.decryptAsymetricKey decryptEndpoint).
#[local] Abbreviation createSignature := (Dpki.createSignature signEndpoint).
#[local] Abbreviation serve :=
  (Dpki.serve getNodePubKey getNodeMasterPubKey hash verifySignature
     publicEncrypt signEndpoint decryptEndpoint).
#[local] Abbreviation serve_all :=
  (Dpki.serve_all getNodePubKey getNodeMasterPubKey hash verifySignature
     publicEncrypt signEndpoint decryptEndpoint).

Ltac dred :=
  repeat (progress
            (unfold Dpki.setDpkiCallback, Dpki.setMasterSignatureCallback,
               Dpki.decryptAsymetricKey, Dpki.createSignature,
               Dpki.testSignCallback, Dpki.testDecryptCallback,
               Dpki.checkAndEmitAllCallbacksSet,
               mbind, Dpki.D_bind, mret, Dpki.D_ret, Dpki.fail,
               Dpki.try_catch, Dpki.effect_, Dpki.get_urls, Dpki.set_urls,
               Dpki.call in *;
             simpl in *)).

(** No call of the module writes the key [master_sing_url]. *)
Lemma serve_master_sing_url u r :
  Dpki.master_sing_url (serve u r) = Dpki.master_sing_url u.
Proof.
  destruct r as [s d | url | m | m h k]; unfold Dpki.serve; dred;
    repeat (case_inner; dred); done.
Qed.

(** X24: [createSignature] with the master key reads the key
    [master_sing_url] of [callbackUrls], which nothing writes: whatever
    files the module was loaded from and whatever calls it has served
    since, a master-key signature fails with
    EXTERNAL_SIGN_MASTER_URL_NOT_SET and no endpoint is called. *)
Theorem createSignature_master_key signature masterSignature decrypt requests
    message messageHash :
  let u := serve_all (Dpki.loaded signature masterSignature decrypt) requests in
  createSignature message messageHash true u
  = (Dpki.Failed Dpki.EXTERNAL_SIGN_MASTER_URL_NOT_SET, u, []).
Proof.
  cbv zeta.
  assert (∀ u, Dpki.master_sing_url (serve_all u requests)
               = Dpki.master_sing_url u) as Hkept.
  { unfold Dpki.serve_all. induction requests as [|r rest IH]; intros u;
      [done|]. simpl. by rewrite IH, serve_master_sing_url. }
  specialize (Hkept (Dpki.loaded signature masterSignature decrypt)).
  unfold Dpki.createSignature. dred. by rewrite Hkept.
Qed.

(** X25: [setDpkiCallback] fails only with EXTERNAL_SIGN_TEST_FAILED or
    EXTERNAL_DECRYPT_TEST_FAILED.  When the test of the signing URL
    fails nothing is changed and the decryption endpoint is not called;
    when the test of the decryption URL fails, the signing URL given in
    the same call has already been set and written to its file, and the
    decryption URL is left as it was. *)
Theorem setDpkiCallback_failures signCallbackUrl decryptCallbackUrl u e :
  (setDpkiCallback signCallbackUrl decryptCallbackUrl u).1.1 = Dpki.Failed e →
  let u' := (setDpkiCallback signCallbackUrl decryptCallbackUrl u).1.2 in
  let l := (setDpkiCallback signCallbackUrl decryptCallbackUrl u).2 in
  (Dpki.Emit "allCallbacksSet" ∉ l)
  ∧ ((∃ cause, e = Dpki.EXTERNAL_SIGN_TEST_FAILED cause)
     ∧ u' = u
     ∧ (∀ url encryptedMessage,
          Dpki.FetchDecrypt url encryptedMessage ∉ l)
     ∧ (∀ suffix url, Dpki.WriteFile suffix url ∉ l)
     ∨ (∃ cause, e = Dpki.EXTERNAL_DECRYPT_TEST_FAILED cause)
       ∧ Dpki.decrypt_url u' = Dpki.decrypt_url u
       ∧ (∀ url, Dpki.WriteFile "decrypt" url ∉ l)
       ∧ (truthy_str signCallbackUrl = true →
          Dpki.sign_url u' = signCallbackUrl
          ∧ Dpki.WriteFile "signature" (js_str signCallbackUrl) ∈ l)).
Proof.
  cbv zeta. dred.
  repeat (case_inner; dred); intros Hfailed; try discriminate;
    injection Hfailed as <-;
    (split; [intros Hin; elem_cases Hin; discriminate || done|]);
    first [ left; split; [eauto|]; split; [done|];
            split; intros ? ? Hin; elem_cases Hin; discriminate || done
          | right; split; [eauto|]; split; [done|];
            split; [intros ? Hin; elem_cases Hin; discriminate || done|];
            intros Htruthy;
            first [ discriminate
                  | split; [done|]; rewrite ?elem_of_cons; auto 6 ] ].
Qed.

(** X26: [setDpkiCallback] and [setMasterSignatureCallback] emit
    'allCallbacksSet' exactly when they resolve and the three URLs are
    then set, whether or not the call itself set any of them; the event
    is then the last thing they do. *)
Theorem allCallbacksSet_emitted u :
  (∀ signCallbackUrl decryptCallbackUrl,
     let run := setDpkiCallback signCallbackUrl decryptCallbackUrl u in
     (Dpki.Emit "allCallbacksSet" ∈ run.2
      ↔ run.1.1 = Dpki.Done tt ∧ Dpki.isCallbackUrlsSet run.1.2 = true)
     ∧ (Dpki.Emit "allCallbacksSet" ∈ run.2 →
        last run.2 = Some (Dpki.Emit "allCallbacksSet")))
  ∧ (∀ url,
       let run := setMasterSignatureCallback url u in
       (Dpki.Emit "allCallbacksSet" ∈ run.2
        ↔ run.1.1 = Dpki.Done tt ∧ Dpki.isCallbackUrlsSet run.1.2 = true)
       ∧ (Dpki.Emit "allCallbacksSet" ∈ run.2 →
          last run.2 = Some (Dpki.Emit "allCallbacksSet"))).
Proof.
  split; [intros signCallbackUrl decryptCallbackUrl | intros url];
    cbv zeta; dred;
    repeat (case_inner; dred);
    (split;
     [split;
      [intros Hin; elem_cases Hin; try discriminate; try done
      |intros [Hdone Hset]; try discriminate; try congruence;
       rewrite ?elem_of_cons; auto 6]
     |intros Hin; elem_cases Hin; try discriminate; try done]).
Qed.

End DpkiExtras.

Lemma setDpkiCallback_failures_witness :
  (Dpki.setDpkiCallback (Replied (Some "PK")) (λ m, "H(" +:+ m +:+ ")")
     (λ _ _ _, true) (λ _ m, "E(" +:+ m +:+ ")")
     (λ _ _ _, Replied (Some "signature")) (λ _ _, Replied (Some "dGVzdB=="))
     (Some "http://kms/sign") (Some "http://kms/decrypt")
     (Dpki.loaded None None None)).1.1
  = Dpki.Failed (Dpki.EXTERNAL_DECRYPT_TEST_FAILED Dpki.DecryptedMessageMismatch)
  ∧ Dpki.sign_url
      (Dpki.setDpkiCallback (Replied (Some "PK")) (λ m, "H(" +:+ m +:+ ")")
         (λ _ _ _, true) (λ _ m, "E(" +:+ m +:+ ")")
         (λ _ _ _, Replied (Some "signature"))
         (λ _ _, Replied (Some "dGVzdB=="))
         (Some "http://kms/sign") (Some "http://kms/decrypt")
         (Dpki.loaded None None None)).1.2
    = Some "http://kms/sign".
Proof.
  split; [reflexivity|].
  destruct (setDpkiCallback_failures (Replied (Some "PK"))
              (λ m, "H(" +:+ m +:+ ")") (λ _ _ _, true)
              (λ _ m, "E(" +:+ m +:+ ")")
              (λ _ _ _, Replied (Some "signature"))
              (λ _ _, Replied (Some "dGVzdB=="))
              (Some "http://kms/sign") (Some "http://kms/decrypt")
              (Dpki.loaded None None None) _ eq_refl)
    as [_ [(Hsign & _) | (_ & _ & _ & Hset)]].
  - destruct Hsign as [cause Hcause]. discriminate Hcause.
  - destruct (Hset eq_refl) as [Hurl _]. exact Hurl.
Defined.

Lemma allCallbacksSet_emitted_witness :
  Dpki.isCallbackUrlsSet
    (Dpki.loaded (Some "http://kms/sign") (Some "http://kms/master")
       (Some "http://kms/decrypt"))
  = true
  ∧ Dpki.Emit "allCallbacksSet"
    ∈ (Dpki.setDpkiCallback (Replied (Some "PK")) (λ m, "H(" +:+ m +:+ ")")
         (λ _ _ _, true) (λ _ m, "E(" +:+ m +:+ ")")
         (λ _ _ _, Replied (Some "signature"))
         (λ _ _, Replied (Some "dGVzdA=="))
         None None
         (Dpki.loaded (Some "http://kms/sign") (Some "http://kms/master")
            (Some "http://kms/decrypt"))).2.
Proof.
  split; [reflexivity|].
  destruct (allCallbacksSet_emitted (Replied (Some "PK")) (Replied None)
              (λ m, "H(" +:+ m +:+ ")") (λ _ _ _, true)
              (λ _ m, "E(" +:+ m +:+ ")")
              (λ _ _ _, Replied (Some "signature"))
              (λ _ _, Replied (Some "dGVzdA=="))
              (Dpki.loaded (Some "http://kms/sign") (Some "http://kms/master")
                 (Some "http://kms/decrypt"))) as [Hdpki _].
  destruct (Hdpki None None) as [[_ Hemit] _].
  apply Hemit. split; reflexivity.
Defined.

(** ** Node ids, receivers and callback URLs (rp.js, idp.js) *)

Lemma append_cons c (a b : string) : String c a +:+ b = String c (a +:+ b).
Proof. reflexivity. Qed.

Lemma append_empty_l (s : string) : "" +:+ s = s.
Proof. reflexivity. Qed.

Lemma append_empty_r (s : string) : s +:+ "" = s.
Proof.
  induction s as [|c rest IH]; [done|]. by rewrite append_cons, IH.
Qed.

Lemma append_assoc (a b c : string) : (a +:+ b) +:+ c = a +:+ (b +:+ c).
Proof.
  induction a as [|x rest IH]; [done|]. by rewrite !append_cons, IH.
Qed.

Lemma split_colon_nonempty s acc :
  ∃ part parts, Rp.split_colon s acc = part :: parts.
Proof.
  revert acc. induction s as [|c rest IH]; intros acc; simpl; [eauto|].
  destruct (Ascii.eqb c ":"); eauto.
Qed.

Lemma split_colon_join s acc :
  String.concat ":" (Rp.split_colon s acc) = acc +:+ s.
Proof.
  revert acc. induction s as [|c rest IH]; intros acc; simpl.
  { by rewrite append_empty_r. }
  destruct (Ascii.eqb c ":") eqn:Hc.
  - apply Ascii.eqb_eq in Hc as ->.
    destruct (split_colon_nonempty rest "") as (part & parts & Hparts).
    specialize (IH ""). rewrite Hparts in IH |- *.
    change (String.concat ":" (acc :: part :: parts))
      with (acc +:+ ":" +:+ String.concat ":" (part :: parts)).
    by rewrite IH.
  - rewrite IH, append_assoc. reflexivity.
Qed.

Lemma free_of_app c a b :
  free_of c (a +:+ b) = free_of c a && free_of c b.
Proof.
  induction a as [|x rest IH]; [done|].
  rewrite append_cons. simpl. rewrite IH. by destruct (negb _).
Qed.

Lemma split_colon_free s acc :
  free_of ":" acc = true →
  Forall (λ part, free_of ":" part = true) (Rp.split_colon s acc).
Proof.
  revert acc. induction s as [|c rest IH]; intros acc Hacc; simpl.
  { by apply Forall_singleton. }
  destruct (Ascii.eqb c ":") eqn:Hc.
  - apply Forall_cons. split; [done|]. by apply IH.
  - apply IH. rewrite free_of_app, Hacc. simpl. by rewrite Hc.
Qed.

Lemma split_colon_whole s acc :
  free_of ":" s = true → Rp.split_colon s acc = [acc +:+ s].
Proof.
  revert acc. induction s as [|c rest IH]; intros acc Hfree; simpl in *.
  { by rewrite append_empty_r. }
  apply andb_true_iff in Hfree as [Hc Hrest].
  apply negb_true_iff in Hc. rewrite Hc, IH by done.
  by rewrite append_assoc.
Qed.

Lemma split_colon_first a b acc :
  free_of ":" a = true →
  Rp.split_colon (a +:+ ":" +:+ b) acc = (acc +:+ a) :: Rp.split_colon b "".
Proof.
  revert acc. induction a as [|c rest IH]; intros acc Hfree.
  { rewrite append_empty_l, append_empty_r. reflexivity. }
  simpl in Hfree. apply andb_true_iff in Hfree as [Hc Hrest].
  apply negb_true_iff in Hc. rewrite append_cons. simpl.
  rewrite Hc, IH by done. by rewrite append_assoc.
Qed.

Section ReceiverExtras.

Variable E : Env.

(** X27: [nodeId.split(':')] cuts a node id at its colons and loses
    nothing: the parts have no colon and joined by colons give the node
    id back.  The receiver made of a node id 'ip:port' has that ip and
    that port; the receiver made of a node id without a colon has the
    whole of it as ip and no port. *)
Theorem receiver_of_node_id :
  (∀ nodeId,
     String.concat ":" (Rp.split_colon nodeId "") = nodeId
     ∧ Forall (λ part, free_of ":" part = true) (Rp.split_colon nodeId ""))
  ∧ (∀ ip port public_key w,
       free_of ":" ip = true → free_of ":" port = true →
       getNodePubKey E (Some (ip +:+ ":" +:+ port)) = Replied public_key →
       Rp.receiver_of E (ip +:+ ":" +:+ port) w
       = (Ok {| rc_ip := Some ip; rc_port := Some port;
                rc_public_key := public_key |}, w, []))
  ∧ (∀ nodeId public_key w,
       free_of ":" nodeId = true →
       getNodePubKey E (Some nodeId) = Replied public_key →
       Rp.receiver_of E nodeId w
       = (Ok {| rc_ip := Some nodeId; rc_port := None;
                rc_public_key := public_key |}, w, [])).
Proof.
  split; [|split].
  - intros nodeId. split; [apply split_colon_join | by apply split_colon_free].
  - intros ip port public_key w Hip Hport Hkey.
    unfold Rp.receiver_of. rewrite run_bind, Hkey.
    by rewrite split_colon_first, split_colon_whole.
  - intros nodeId public_key w Hfree Hkey.
    unfold Rp.receiver_of. rewrite run_bind, Hkey.
    by rewrite split_colon_whole.
Qed.

End ReceiverExtras.

Section ASReceiverExtras.

Variable E : Env.
Variable queryGetServiceDestination : string → string → reply (option string).

Lemma asReceiver_run service_id as_id w :
  asReceiver E queryGetServiceDestination service_id as_id w
  = (Ok (asReceiverOf E queryGetServiceDestination service_id as_id), w, []).
Proof.
  unfold asReceiver, asReceiverOf, Rp.receiver_of, catch.
  rewrite run_bind.
  destruct (queryGetServiceDestination as_id service_id) as [[nodeId|]|];
    [|done..].
  mred. by destruct (getNodePubKey E (Some nodeId)).
Qed.

(** X28: [getASReceiverList] never rejects and has no effect: it
    resolves to the receivers of the AS of the data request whose node
    and key the ledger gave, in the order of [as_id_list], and leaves out
    every AS for which a query failed. *)
Theorem getASReceiverList_run data_request w :
  getASReceiverList E queryGetServiceDestination data_request w
  = (Ok (omap (asReceiverOf E queryGetServiceDestination
                 (dr_service_id data_request))
           (dr_as_id_list data_request)), w, []).
Proof.
  unfold getASReceiverList. rewrite run_bind.
  assert (∀ l,
            mapM (asReceiver E queryGetServiceDestination
                    (dr_service_id data_request)) l w
            = (Ok (asReceiverOf E queryGetServiceDestination
                     (dr_service_id data_request) <$> l), w, [])) as ->.
  { induction l as [|as_id rest IH]; [done|].
    simpl. rewrite run_bind, asReceiver_run. simpl.
    rewrite run_bind, IH. done. }
  simpl. by rewrite omap_id_fmap.
Qed.

End ASReceiverExtras.

Section RpDataExtras.

Variable post_succeeds : option string → bool.

(** X29: the RP keeps the data of an AS under the namespace
    'rp-dataFromAS' and [getDataFromAS] reads the namespace 'dataFromAS':
    whatever messages the RP has handled, [getDataFromAS] returns what it
    returned before them, while the data of the last message of a
    request is kept under the other namespace. *)
Theorem getDataFromAS_misses_stored_data messages db request_id :
  let handle := λ db data,
    (RpData.handleMessageFromQueue post_succeeds data db).1 in
  RpData.getDataFromAS request_id (foldl handle db messages)
  = RpData.getDataFromAS request_id db
  ∧ ∀ data,
      (handle (foldl handle db messages) data)
        !! ("rp-dataFromAS", RpData.am_request_id data)
      = Some (RpData.DataFromAS (RpData.am_data data) (RpData.am_as_id data)).
Proof.
  cbv zeta. split.
  - revert db. induction messages as [|data rest IH]; intros db; [done|].
    simpl. rewrite IH. unfold RpData.getDataFromAS, RpData.handleMessageFromQueue.
    destruct (truthy_str _); [destruct (post_succeeds _)|]; simpl;
      rewrite lookup_insert_ne by (intros [= ? ?]; discriminate);
      rewrite ?lookup_delete_ne by (intros [= ? ?]; discriminate); done.
  - intros data. unfold RpData.handleMessageFromQueue.
    destruct (truthy_str _); [destruct (post_succeeds _)|]; simpl;
      apply lookup_insert_eq.
Qed.

End RpDataExtras.

(** X30: [setCallbackUrls] only ever sets: a field of its argument
    that is null leaves the URL as it was, so that no call clears a URL;
    it writes the file of each field given and no other, and a second
    call with the same argument changes nothing.  Once a call has given
    the URL of the accessor's signing endpoint, [createNewIdentity] never
    fails for the lack of it, and signs at that URL. *)
Theorem setCallbackUrls_sets_only a urls :
  let after := (setCallbackUrls a urls).1 in
  (∀ suffix field,
     (suffix, field) ∈ callbackUrlFields →
     field after = from_option Some (field urls) (field a)
     ∧ (field urls ≠ None → field after ≠ None)
     ∧ ∀ url, (suffix, url) ∈ (setCallbackUrls a urls).2 ↔ field a = Some url)
  ∧ setCallbackUrls a after = (after, (setCallbackUrls a urls).2)
  ∧ ∀ E data w url,
      w_callbackUrls w = urls →
      accessor_sign_url a = Some url →
      outcome_of (createNewIdentity E data (with_callbackUrls a w))
      ≠ Throw SIGN_WITH_ACCESSOR_KEY_URL_NOT_SET
      ∧ ∀ url' body,
          EvFetchAccessorSign url' body
          ∈ log_of (createNewIdentity E data (with_callbackUrls a w)) →
          url' = url.
Proof.
  cbv zeta. split; [|split].
  - intros suffix field Hin. unfold callbackUrlFields in Hin.
    destruct a as [[a1|] [a2|] [a3|] [a4|]], urls as [u1 u2 u3 u4];
      elem_cases Hin; try done; simplify_eq; simpl;
      (split; [done|]); (split; [done|]); intros url;
      (split;
       [intros Hfile; elem_cases Hfile; try discriminate; try done;
        by injection Hfile as ->
       |intros Hgiven; try discriminate; injection Hgiven as ->;
        rewrite ?elem_of_cons; auto 6]).
  - by destruct a as [[a1|] [a2|] [a3|] [a4|]], urls as [u1 u2 u3 u4].
  - intros E data w url Hw Ha.
    assert (accessor_sign_url (w_callbackUrls (with_callbackUrls a w))
            = Some url) as Hset.
    { unfold with_callbackUrls. simpl. rewrite Hw.
      destruct a as [[a1|] [a2|] [a3|] [a4|]], urls as [u1 u2 u3 u4];
        simpl in *; done. }
    destruct (createNewIdentity_run E data (with_callbackUrls a w))
      as [(r & Hrun & Hr)
         | (nodes & exist & url0 & _ & _ & _ & _ & Hurl & Hrun)];
      rewrite Hrun; unfold outcome_of, log_of; cbn [fst snd].
    + split.
      * intros ->. congruence.
      * intros url' body Hin. by apply elem_of_nil in Hin.
    + assert (url0 = url) as -> by congruence.
      unfold onboardingRun, identityTransactions.
      repeat case_inner; cbn [fst snd app fmap list_fmap];
        (split; [discriminate|]); intros url' body Hin;
        elem_cases Hin; try discriminate; try done; by injection Hin.
Qed.

Lemma receiver_of_node_id_witness :
  free_of ":" "10.0.0.7" = true
  ∧ free_of ":" "4000" = true
  ∧ getNodePubKey (Scenario.env 3 [] true true) (Some "10.0.0.7:4000")
    = Replied (Some "RPKEY")
  ∧ Rp.receiver_of (Scenario.env 3 [] true true) "10.0.0.7:4000"
      (Scenario.world empty_store 99)
    = (Ok {| rc_ip := Some "10.0.0.7"; rc_port := Some "4000";
             rc_public_key := Some "RPKEY" |},
       Scenario.world empty_store 99, []).
Proof.
  do 3 (split; [reflexivity|]).
  destruct (receiver_of_node_id (Scenario.env 3 [] true true))
    as (_ & Hpair & _).
  exact (Hpair "10.0.0.7" "4000" (Some "RPKEY")
           (Scenario.world empty_store 99) eq_refl eq_refl eq_refl).
Defined.

Lemma setCallbackUrls_sets_only_witness :
  accessor_sign_url
    {| incoming_request_url := None; identity_result_url := None;
       accessor_sign_url := Some "http://client/sign2"; error_url := None |}
  = Some "http://client/sign2"
  ∧ outcome_of
      (createNewIdentity (Scenario.env 3 [] true true)
         (Scenario.onboarding (num 2) "citizen_id" "r1")
         (with_callbackUrls
            {| incoming_request_url := None; identity_result_url := None;
               accessor_sign_url := Some "http://client/sign2";
               error_url := None |}
            (Scenario.world empty_store 99)))
    ≠ Throw SIGN_WITH_ACCESSOR_KEY_URL_NOT_SET.
Proof.
  split; [reflexivity|].
  destruct (setCallbackUrls_sets_only
              {| incoming_request_url := None; identity_result_url := None;
                 accessor_sign_url := Some "http://client/sign2";
                 error_url := None |}
              Scenario.urls) as (_ & _ & Hsign).
  destruct (Hsign (Scenario.env 3 [] true true)
              (Scenario.onboarding (num 2) "citizen_id" "r1")
              (Scenario.world empty_store 99) "http://client/sign2"
              eq_refl eq_refl) as [Hnot _].
  exact Hnot.
Defined.
